(** * Adder nodes of the Mayavi pipeline tree (enthought/mayavi/core/adder_node.py)

    A shallow embedding of the module's classes and handlers, and the
    properties of the dispatch, of the table rows and of the button handlers.

    Python objects live in a heap of attribute dictionaries; the handlers are
    functions in a state-and-exception monad over that heap.  Calls into the
    rest of the application (the menu helper's actions, [new_scene]) are
    opaque: a call is recorded in the trace and its outcome is read from the
    method table of the receiving object. *)

From Stdlib Require Import ZArith Ascii.
From stdpp Require Import gmap strings list fin_maps.

Open Scope string_scope.
Set Warnings "-register-all".

(** ** Values and objects *)

Abbreviation loc := nat.

(** A registry entry (the metadata objects of [registry.sources],
    [registry.modules] and [registry.filters]), with the attributes this
    module reads.  The attribute [id] is the field [src_id]. *)
Record Metadata := {
  src_id : string;
  menu_name : string;
  help : string;
  extensions : list string
}.

Inductive val :=
| VNone
| VBool (b : bool)
| VInt (n : Z)
| VStr (s : string)
| VRef (l : loc)
| VList (xs : list val)
| VDict (kvs : list (string * val))
| VMeta (m : Metadata)
| VMethod (recv : loc) (name : string).

Inductive exn :=
| AttributeError (name : string)
| KeyError (key : string)
| TypeError
| TraitError
| RuntimeError.

(** What calling a method of an object outside this module does. *)
Inductive outcome :=
| Returns (v : val)
| Raises (e : exn).

(** An object: the names of the classes of its type in method resolution
    order, its instance attributes and its (external) bound methods. *)
Record pyobj := {
  mro : list string;
  attrs : gmap string val;
  methods : gmap string outcome
}.

Inductive event :=
| Call (recv : loc) (meth : string) (kwargs : list (string * val)).

(** A listener installed by [on_trait_change]: observed object, trait name,
    and the [EngineAdderNode] whose [_change_object] is the handler. *)
Definition listener : Type := loc * string * loc.

Record state := {
  heap : gmap nat pyobj;
  Mutable_attr : val;            (* the class attribute [Mutable.attr] *)
  listeners : list listener;
  trace : list event;            (* calls made into the application *)
  log : list exn                 (* exceptions logged by the notification layer *)
}.

Inductive result (A : Type) :=
| Ok (a : A)
| Err (e : exn).
Arguments Ok {A} a.
Arguments Err {A} e.

Definition M (A : Type) : Type := state → result A * state.

Global Instance M_ret : MRet M := λ A a st, (Ok a, st).
Global Instance M_bind : MBind M := λ A B f m st,
  match m st with
  | (Ok a, st') => f a st'
  | (Err e, st') => (Err e, st')
  end.

Definition raise {A} (e : exn) : M A := λ st, (Err e, st).
Definition gets {A} (f : state → A) : M A := λ st, (Ok (f st), st).
Definition modify (f : state → state) : M unit := λ st, (Ok tt, f st).

Definition set_heap (h : gmap nat pyobj) (st : state) : state :=
  {| heap := h; Mutable_attr := Mutable_attr st; listeners := listeners st;
     trace := trace st; log := log st |}.
Definition set_Mutable_attr (v : val) (st : state) : state :=
  {| heap := heap st; Mutable_attr := v; listeners := listeners st;
     trace := trace st; log := log st |}.
Definition set_listeners (ls : list listener) (st : state) : state :=
  {| heap := heap st; Mutable_attr := Mutable_attr st; listeners := ls;
     trace := trace st; log := log st |}.
Definition add_event (e : event) (st : state) : state :=
  {| heap := heap st; Mutable_attr := Mutable_attr st; listeners := listeners st;
     trace := trace st ++ [e]; log := log st |}.
Definition add_log (e : exn) (st : state) : state :=
  {| heap := heap st; Mutable_attr := Mutable_attr st; listeners := listeners st;
     trace := trace st; log := log st ++ [e] |}.

(** ** Python primitives *)

Definition is_none (v : val) : bool :=
  match v with VNone => true | _ => false end.

(** [a is b] *)
Definition py_is (a b : val) : bool :=
  match a, b with
  | VNone, VNone => true
  | VBool x, VBool y => Bool.eqb x y
  | VRef x, VRef y => Nat.eqb x y
  | _, _ => false
  end.

(** [a == b], used by the trait layer to decide whether a value changed;
    objects compare by identity. *)
Fixpoint val_eqb (a b : val) : bool :=
  match a, b with
  | VNone, VNone => true
  | VBool x, VBool y => Bool.eqb x y
  | VInt x, VInt y => Z.eqb x y
  | VStr x, VStr y => String.eqb x y
  | VRef x, VRef y => Nat.eqb x y
  | VList xs, VList ys =>
      (fix go (xs ys : list val) : bool :=
         match xs, ys with
         | [], [] => true
         | x :: xs', y :: ys' => val_eqb x y && go xs' ys'
         | _, _ => false
         end) xs ys
  | VDict xs, VDict ys =>
      (fix go (xs ys : list (string * val)) : bool :=
         match xs, ys with
         | [], [] => true
         | (k, x) :: xs', (k', y) :: ys' =>
             String.eqb k k' && val_eqb x y && go xs' ys'
         | _, _ => false
         end) xs ys
  | VMeta m, VMeta n =>
      String.eqb (src_id m) (src_id n) && String.eqb (menu_name m) (menu_name n)
      && String.eqb (help m) (help n)
      && bool_decide (extensions m = extensions n)
  | VMethod l n, VMethod l' n' => Nat.eqb l l' && String.eqb n n'
  | _, _ => false
  end.

(** Truth value of a Python value (objects are true). *)
Definition truthy (v : val) : bool :=
  match v with
  | VNone => false
  | VBool b => b
  | VInt n => negb (Z.eqb n 0)
  | VStr s => negb (String.eqb s "")
  | VList xs => negb (Nat.eqb (length xs) 0)
  | VDict kvs => negb (Nat.eqb (length kvs) 0)
  | VRef _ | VMeta _ | VMethod _ _ => true
  end.

(** [type(v).__mro__], as class names. *)
Definition mro_of (st : state) (v : val) : list string :=
  match v with
  | VNone => ["NoneType"; "object"]
  | VBool _ => ["bool"; "int"; "object"]
  | VInt _ => ["int"; "object"]
  | VStr _ => ["str"; "basestring"; "object"]
  | VList _ => ["list"; "object"]
  | VDict _ => ["dict"; "object"]
  | VMeta _ => ["Metadata"; "HasTraits"; "object"]
  | VMethod _ _ => ["instancemethod"; "object"]
  | VRef l => match heap st !! l with
              | Some o => mro o
              | None => ["object"]
              end
  end.

(** [v.__class__] *)
Definition class_of (v : val) : M string :=
  gets (λ st, hd "object" (mro_of st v)).

Definition isinstance (v : val) (cls : string) : M bool :=
  gets (λ st, bool_decide (cls ∈ mro_of st v)).

Definition read_attr (st : state) (v : val) (name : string) : option val :=
  match v with
  | VRef l =>
      match heap st !! l with
      | Some o =>
          match attrs o !! name with
          | Some x => Some x
          | None => match methods o !! name with
                    | Some _ => Some (VMethod l name)
                    | None => None
                    end
          end
      | None => None
      end
  | VMeta m =>
      if String.eqb name "id" then Some (VStr (src_id m))
      else if String.eqb name "menu_name" then Some (VStr (menu_name m))
      else if String.eqb name "help" then Some (VStr (help m))
      else if String.eqb name "extensions" then Some (VList (VStr <$> extensions m))
      else None
  | _ => None
  end.

(** [getattr(v, name)], raising [AttributeError] when there is none. *)
Definition getattr (v : val) (name : string) : M val := λ st,
  match read_attr st v name with
  | Some x => (Ok x, st)
  | None => (Err (AttributeError name), st)
  end.

Definition hasattr (v : val) (name : string) : M bool := λ st,
  match getattr v name st with
  | (Ok _, _) => (Ok true, st)
  | (Err _, _) => (Ok false, st)
  end.

(** [getattr(v, name)] with a computed name, which has to be a string. *)
Definition getattr_dyn (v : val) (name : val) : M val :=
  match name with
  | VStr s => getattr v s
  | _ => raise TypeError
  end.

(** Plain attribute store, without notification. *)
Definition setattr (v : val) (name : string) (x : val) : M unit := λ st,
  match v with
  | VRef l =>
      match heap st !! l with
      | Some o =>
          (Ok tt, set_heap (<[l := {| mro := mro o; attrs := <[name := x]> (attrs o);
                                     methods := methods o |}]> (heap st)) st)
      | None => (Err (AttributeError name), st)
      end
  | _ => (Err (AttributeError name), st)
  end.

(** Calling a value.  Only bound methods of application objects are
    callable; the call is recorded before its outcome is known. *)
Definition call (f : val) (kwargs : list (string * val)) : M val := λ st,
  match f with
  | VMethod l name =>
      match heap st !! l ≫= λ o, methods o !! name with
      | Some (Returns v) => (Ok v, add_event (Call l name kwargs) st)
      | Some (Raises e) => (Err e, add_event (Call l name kwargs) st)
      | None => (Err (AttributeError name), st)
      end
  | _ => (Err TypeError, st)
  end.

(** [d[key]] on a dictionary. *)
Fixpoint assoc (key : string) (kvs : list (string * val)) : option val :=
  match kvs with
  | [] => None
  | (k, v) :: rest => if String.eqb k key then Some v else assoc key rest
  end.

Definition getitem (d : val) (key : string) : M val :=
  match d with
  | VDict kvs => match assoc key kvs with
                 | Some v => mret v
                 | None => raise (KeyError key)
                 end
  | _ => raise TypeError
  end.

(** The elements a [for] loop visits. *)
Definition iter (v : val) : M (list val) :=
  match v with
  | VList xs => mret xs
  | _ => raise TypeError
  end.

(** [s.replace('&', '')] *)
Fixpoint remove_amp (s : string) : string :=
  match s with
  | EmptyString => EmptyString
  | String c s' => if Ascii.eqb c "&"%char then remove_amp s'
                   else String c (remove_amp s')
  end.

Definition str_replace_amp (v : val) : M string :=
  match v with
  | VStr s => mret (remove_amp s)
  | _ => raise (AttributeError "replace")
  end.

(** ['check_%s' % v], for a string [v]. *)
Definition format_check (v : val) : M string :=
  match v with
  | VStr s => mret ("check_" ++ s)
  | _ => raise TypeError
  end.

(** Allocation of a new object. *)
Definition alloc (o : pyobj) : M val := λ st,
  let l := fresh (dom (heap st)) in
  (Ok (VRef l), set_heap (<[l := o]> (heap st)) st).

(** ** The trait layer

    The classes of the module are [HasTraits] classes: an assignment to a
    trait validates the value, stores it and, when the value changed, runs
    the static handler [_<name>_changed] of the class and the listeners
    installed with [on_trait_change].  A handler run by a notification that
    raises does not propagate: the exception is logged and the assignment
    that fired it returns. *)
Definition swallow (m : M unit) : M unit := λ st,
  match m st with
  | (Ok _, st') => (Ok tt, st')
  | (Err e, st') => (Ok tt, add_log e st')
  end.

(** Validation of a [Str] trait. *)
Definition validate_Str (v : val) : M val :=
  match v with
  | VStr _ => mret v
  | _ => raise TraitError
  end.

(** Validation of an [Instance(cls)] trait, which allows [None]. *)
Definition validate_Instance (cls : string) (v : val) : M val :=
  if is_none v then mret v
  else b ← isinstance v cls; if b : bool then mret v else raise TraitError.

(** ** The registry

    [registry.sources], [registry.modules] and [registry.filters] of
    [enthought.mayavi.core.registry], which this module only reads. *)
Record Registry := {
  sources : list Metadata;
  modules : list Metadata;
  filters : list Metadata
}.

(** ** Classes of the module *)

Definition mk_obj (classes : list string) (fields : list (string * val)) : pyobj :=
  {| mro := classes ++ ["HasTraits"; "object"];
     attrs := list_to_map fields;
     methods := ∅ |}.

(** The class that provides [_object_changed] for an object of the given
    type, if any. *)
Inductive object_handler :=
| EngineAdderNode_handler
| ModuleFilterAdderNode_handler
| ModuleAdderNode_handler
| ListAdderNode_handler.

Fixpoint resolve_object_changed (classes : list string) : option object_handler :=
  match classes with
  | [] => None
  | c :: rest =>
      if String.eqb c "EngineAdderNode" then Some EngineAdderNode_handler
      else if String.eqb c "ModuleFilterAdderNode" then Some ModuleFilterAdderNode_handler
      else if String.eqb c "ModuleAdderNode" then Some ModuleAdderNode_handler
      else if String.eqb c "ListAdderNode" then Some ListAdderNode_handler
      else resolve_object_changed rest
  end.

(** Whether [_is_action_suitable] resolves to the override of
    [SourceAdderNode] rather than to the one of [ListAdderNode]. *)
Fixpoint resolves_to_SourceAdderNode (classes : list string) : bool :=
  match classes with
  | [] => false
  | c :: rest =>
      if String.eqb c "SourceAdderNode" then true
      else if String.eqb c "ListAdderNode" then false
      else resolves_to_SourceAdderNode rest
  end.

Module AdderNode.

Definition new : M val :=
  alloc (mk_obj ["AdderNode"]
           [("label", VStr "Base AdderNode"); ("tooltip", VStr "Add an item");
            ("object", VNone)]).

(** Trait Property getter for 'scene'. *)
Definition _get_scene (self : loc) : M val :=
  object ← getattr (VRef self) "obj";
  b ← isinstance object "AdderNode";
  if b : bool then mret VNone
  else if negb (is_none object) then getattr object "scene"
  else mret VNone.

End AdderNode.

Module SceneAdderNode.

Definition new : M val :=
  alloc (mk_obj ["SceneAdderNode"; "AdderNode"]
           [("label", VStr "Base AdderNode"); ("tooltip", VStr "Add an item");
            ("object", VNone)]).

(** Trait handler for when the add_scene button is clicked. *)
Definition _add_scene_fired (self : loc) : M unit :=
  object ← getattr (VRef self) "object";
  new_scene ← getattr object "new_scene";
  call new_scene [];;
  mret tt.

End SceneAdderNode.

Module DocumentedItem.

(** [DocumentedItem(name=.., enabled=.., documentation=.., id=.., object=..)] *)
Definition new (name : string) (enabled : bool) (documentation id object : val)
  : M val :=
  documentation ← validate_Str documentation;
  alloc (mk_obj ["DocumentedItem"]
           [("name", VStr name); ("enabled", VBool enabled);
            ("documentation", documentation); ("id", id); ("object", object)]).

Section Description.
(** [textwrap.wrap] of the Python standard library. *)
Variable wrap : string → nat → list string.

Definition join_lines (ls : list string) : string :=
  match ls with
  | [] => ""
  | l :: rest => foldl (λ acc x, acc ++ String "010"%char x) l rest
  end.

Definition _get__description (self : loc) : M val :=
  enabled ← getattr (VRef self) "enabled";
  if truthy enabled then
    name ← getattr (VRef self) "name";
    documentation ← getattr (VRef self) "documentation";
    match name, documentation with
    | VStr name, VStr documentation =>
        mret (VStr (name ++ String "010"%char (join_lines (wrap documentation 40))))
    | _, _ => raise TypeError
    end
  else getattr (VRef self) "name".
End Description.

(** Trait handler for when the add button of the item is clicked. *)
Definition _add_fired (self : loc) : M unit :=
  object ← getattr (VRef self) "object";
  menu_helper ← getattr object "menu_helper";
  id ← getattr (VRef self) "id";
  action ← getattr_dyn menu_helper id;
  call action [("select", VBool false)];;
  mret tt.

End DocumentedItem.

Module GrayedColumn.

Definition get_text_color (object : val) : M val :=
  enabled ← getattr object "enabled";
  if truthy enabled then mret (VStr "black") else mret (VStr "light grey").

(** [object._add_fired()]: the handler of [DocumentedItem] for a row of
    that class, a method of the object otherwise. *)
Definition invoke_add_fired (object : val) : M unit :=
  b ← isinstance object "DocumentedItem";
  match object with
  | VRef l => if b : bool then DocumentedItem._add_fired l
              else f ← getattr object "_add_fired"; call f [];; mret tt
  | _ => f ← getattr object "_add_fired"; call f [];; mret tt
  end.

Definition on_dclick (object : val) : M unit :=
  enabled ← getattr object "enabled";
  if truthy enabled then invoke_add_fired object else mret tt.

End GrayedColumn.

Module ListAdderNode.

Definition new : M val :=
  alloc (mk_obj ["ListAdderNode"; "AdderNode"]
           [("label", VStr "Base AdderNode"); ("tooltip", VStr "Add an item");
            ("object", VNone); ("items_list", VList []);
            ("items_list_source", VList [])]).

(** Check that the action described by src can be applied on the given
    object. *)
Definition _is_action_suitable (self : loc) (object src : val) : M bool :=
  menu_helper ← getattr object "menu_helper";
  id ← getattr src "id";
  check ← format_check id;
  has ← hasattr menu_helper check;
  if has : bool then
    menu_helper ← getattr object "menu_helper";
    id ← getattr src "id";
    check ← format_check id;
    f ← getattr menu_helper check;
    r ← call f [];
    if truthy r then mret true else mret false
  else mret false.

End ListAdderNode.

Module SourceAdderNode.

(** The class attribute [items_list_source]. *)
Definition items_list_source (registry : Registry) : list Metadata :=
  filter (λ source, length (extensions source) = 0) (sources registry).

Definition new (registry : Registry) : M val :=
  alloc (mk_obj ["SourceAdderNode"; "ListAdderNode"; "AdderNode"]
           [("label", VStr "Add Data Source"); ("tooltip", VStr "Add an item");
            ("object", VNone); ("items_list", VList []);
            ("items_list_source", VList (VMeta <$> items_list_source registry))]).

(** Trait handler for when the open_file button is clicked. *)
Definition _open_file_fired (self : loc) : M unit :=
  object ← getattr (VRef self) "object";
  menu_helper ← getattr object "menu_helper";
  open_file_action ← getattr menu_helper "open_file_action";
  call open_file_action [];;
  mret tt.

Definition _is_action_suitable (self : loc) (object src : val) : M bool :=
  mret true.

End SourceAdderNode.

(** [self._is_action_suitable(object, src)], resolved on the class of
    [self]. *)
Definition is_action_suitable (self : loc) (object src : val) : M bool :=
  classes ← gets (λ st, mro_of st (VRef self));
  if resolves_to_SourceAdderNode classes
  then SourceAdderNode._is_action_suitable self object src
  else ListAdderNode._is_action_suitable self object src.

(** The loop of [ListAdderNode._object_changed]. *)
Fixpoint rows_loop (self : loc) (value : val) (srcs : list val) (result : list val)
  : M (list val) :=
  match srcs with
  | [] => mret result
  | src :: rest =>
      menu_name ← getattr src "menu_name";
      name ← str_replace_amp menu_name;
      enabled ← is_action_suitable self value src;
      documentation ← getattr src "help";
      id ← getattr src "id";
      item ← DocumentedItem.new name enabled documentation id value;
      rows_loop self value rest (result ++ [item])
  end.

(** [ListAdderNode._object_changed]: trait handler for when the
    [self.object] trait changes. *)
Definition ListAdderNode_object_changed (self : loc) (value : val) : M unit :=
  result ←
    (if negb (is_none value) then
       menu_helper ← getattr value "menu_helper";
       x ← getattr menu_helper "actions";
       modify (set_Mutable_attr value);;
       source ← getattr (VRef self) "items_list_source";
       srcs ← iter source;
       rows_loop self value srcs []
     else mret []);
  setattr (VRef self) "items_list" (VList result).

Module ModuleAdderNode.

Definition new (registry : Registry) : M val :=
  alloc (mk_obj ["ModuleAdderNode"; "ListAdderNode"; "AdderNode"]
           [("label", VStr "Base AdderNode"); ("tooltip", VStr "Add an item");
            ("object", VNone); ("items_list", VList []);
            ("items_list_source", VList (VMeta <$> modules registry))]).

Definition _object_changed (self : loc) (value : val) : M unit :=
  (if negb (is_none value) then
     menu_helper ← getattr value "menu_helper";
     f ← getattr menu_helper "_build_filter_actions";
     call f [];;
     mret tt
   else mret tt);;
  ListAdderNode_object_changed self value.

End ModuleAdderNode.

Module FilterAdderNode.

Definition new (registry : Registry) : M val :=
  alloc (mk_obj ["FilterAdderNode"; "ListAdderNode"; "AdderNode"]
           [("label", VStr "Base AdderNode"); ("tooltip", VStr "Add an item");
            ("object", VNone); ("items_list", VList []);
            ("items_list_source", VList (VMeta <$> filters registry))]).

End FilterAdderNode.

Module ModuleFilterAdderNode.

Definition new (registry : Registry) : M val :=
  modules ← ModuleAdderNode.new registry;
  filters ← FilterAdderNode.new registry;
  alloc (mk_obj ["ModuleFilterAdderNode"; "AdderNode"]
           [("label", VStr "Add module or filter"); ("tooltip", VStr "Add an item");
            ("object", VNone); ("modules", modules); ("filters", filters)]).

Section Handler.
(** Assignment to the [object] trait of another node. *)
Variable set_object : val → val → M unit.

Definition _object_changed (self : loc) : M unit :=
  object ← getattr (VRef self) "object";
  filters ← getattr (VRef self) "filters";
  set_object filters object;;
  object ← getattr (VRef self) "object";
  modules ← getattr (VRef self) "modules";
  set_object modules object.
End Handler.

End ModuleFilterAdderNode.

Module EngineAdderNode.

Definition _adders_default (registry : Registry) : M val :=
  scene ← SceneAdderNode.new;
  source ← SourceAdderNode.new registry;
  module_filter ← ModuleFilterAdderNode.new registry;
  mret (VDict [("scene", scene); ("source", source);
               ("module-filter", module_filter)]).

Definition new (registry : Registry) : M val :=
  adders ← _adders_default registry;
  adder_node ← getitem adders "scene";
  alloc (mk_obj ["EngineAdderNode"; "AdderNode"]
           [("label", VStr "Add a new Scene"); ("tooltip", VStr "Add an item");
            ("object", VNone); ("engine", VNone);
            ("adder_node", adder_node); ("adders", adders)]).

Definition _adder_node_changed (self : loc) (new : val) : M unit :=
  label ← getattr new "label";
  label ← validate_Str label;
  setattr (VRef self) "label" label.

(** [self.adder_node = value] *)
Definition set_adder_node (self : loc) (value : val) : M unit :=
  value ← validate_Instance "AdderNode" value;
  old ← getattr (VRef self) "adder_node";
  setattr (VRef self) "adder_node" value;;
  if val_eqb old value then mret tt
  else swallow (_adder_node_changed self value).

(** The key of [adders] that [_object_changed] picks for [obj]. *)
Definition select_adder (self : loc) (obj : val) : M string :=
  engine ← getattr (VRef self) "engine";
  engine_class ← class_of engine;
  is_engine ← isinstance obj engine_class;
  if is_engine : bool then mret "scene"
  else
    is_scene ← isinstance obj "Scene";
    if is_scene : bool then mret "source"
    else
      is_source ← isinstance obj "Source";
      is_manager ← isinstance obj "ModuleManager";
      has_manager ← hasattr obj "module_manager";
      if is_source || is_manager || has_manager then mret "module-filter"
      else mret "scene".

Section Handler.
Variable set_object : val → val → M unit.

Definition _object_changed (self : loc) (old new : val) : M unit :=
  adders ← getattr (VRef self) "adders";
  let obj := if py_is new (VRef self) then old else new in
  key ← select_adder self obj;
  adder ← getitem adders key;
  set_adder_node self adder;;
  if is_none obj then
    engine ← getattr (VRef self) "engine";
    adder_node ← getattr (VRef self) "adder_node";
    set_object adder_node engine
  else
    adder_node ← getattr (VRef self) "adder_node";
    set_object adder_node obj.
End Handler.

End EngineAdderNode.

(** [target.object = value]: the store, and for a node of this module whose
    value changed the static handler [_object_changed] of its class.  The
    fuel bounds the depth of nested notifications. *)
Fixpoint set_object (fuel : nat) (target value : val) : M unit :=
  match fuel with
  | 0 => raise RuntimeError
  | S fuel =>
      old ← gets (λ st, default VNone (read_attr st target "object"));
      setattr target "object" value;;
      if val_eqb old value then mret tt
      else
        classes ← gets (λ st, mro_of st target);
        match target, resolve_object_changed classes with
        | VRef self, Some EngineAdderNode_handler =>
            swallow (EngineAdderNode._object_changed (set_object fuel) self old value)
        | VRef self, Some ModuleFilterAdderNode_handler =>
            swallow (ModuleFilterAdderNode._object_changed (set_object fuel) self)
        | VRef self, Some ModuleAdderNode_handler =>
            swallow (ModuleAdderNode._object_changed self value)
        | VRef self, Some ListAdderNode_handler =>
            swallow (ListAdderNode_object_changed self value)
        | _, _ => mret tt
        end
  end.

(** [target.on_trait_change(self._change_object, name, remove=remove)] *)
Definition on_trait_change (target : val) (self : loc) (name : string) (remove : bool)
  : M unit :=
  match target with
  | VRef l =>
      present ← gets (λ st, bool_decide (is_Some (heap st !! l)));
      if present : bool then
        if remove then
          modify (λ st, set_listeners
                          (filter (λ x, x ≠ (l, name, self)) (listeners st)) st)
        else
          modify (λ st, if bool_decide ((l, name, self) ∈ listeners st) then st
                        else set_listeners (listeners st ++ [(l, name, self)]) st)
      else raise (AttributeError "on_trait_change")
  | _ => raise (AttributeError "on_trait_change")
  end.

Section EngineHandlers.
Variable fuel : nat.

Definition EngineAdderNode_change_object (self : loc) (value : val) : M unit :=
  set_object fuel (VRef self) value.

Definition EngineAdderNode_engine_changed (self : loc) (old new : val) : M unit :=
  (if negb (is_none old)
   then on_trait_change old self "current_selection" true
   else mret tt);;
  on_trait_change new self "current_selection" false;;
  selection ← getattr new "current_selection";
  set_object fuel (VRef self) selection;;
  object ← getattr (VRef self) "object";
  if is_none object then
    adder_node ← getattr (VRef self) "adder_node";
    set_object fuel adder_node new
  else mret tt.

(** The notification of a change of [trait] on [source]: every listener
    registered for it is called with the new value. *)
Fixpoint notify (ls : list listener) (source : loc) (trait : string) (value : val)
  : M unit :=
  match ls with
  | [] => mret tt
  | (l, name, self) :: rest =>
      (if bool_decide (l = source ∧ name = trait)
       then swallow (EngineAdderNode_change_object self value)
       else mret tt);;
      notify rest source trait value
  end.

(** [engine.current_selection = value], done by the application. *)
Definition set_current_selection (engine : loc) (value : val) : M unit :=
  old ← gets (λ st, default VNone (read_attr st (VRef engine) "current_selection"));
  setattr (VRef engine) "current_selection" value;;
  if val_eqb old value then mret tt
  else
    ls ← gets listeners;
    notify ls engine "current_selection" value.
End EngineHandlers.

(** * Vocabulary of the properties *)

(** ** Outcomes of handlers *)

(** How a handler that ends with a call ends. *)
Definition outcome_result (out : outcome) : result unit :=
  match out with
  | Returns _ => Ok tt
  | Raises e => Err e
  end.

(** The state after a handler that made no call, or exactly one. *)
Definition at_most_one_call (st st' : state) : Prop :=
  st' = st ∨ ∃ l name kwargs, st' = add_event (Call l name kwargs) st.

(** ** Rows *)

(** The object that [DocumentedItem(...)] allocates. *)
Definition item_obj (name : string) (enabled : bool) (documentation id object : val)
  : pyobj :=
  mk_obj ["DocumentedItem"]
    [("name", VStr name); ("enabled", VBool enabled);
     ("documentation", documentation); ("id", id); ("object", object)].

(** An object that [DocumentedItem(...)] allocated. *)
Definition is_item (o : pyobj) : Prop :=
  ∃ name enabled documentation id object,
    o = item_obj name enabled documentation id object.

(** What building rows does to the state: the objects there stay as they
    are, the new ones are items; calls are recorded. *)
Record grows (st st' : state) : Prop := {
  grows_old : ∀ l o, heap st !! l = Some o → heap st' !! l = Some o;
  grows_new : ∀ l o, heap st !! l = None → heap st' !! l = Some o → is_item o;
  grows_Mutable_attr : Mutable_attr st' = Mutable_attr st;
  grows_listeners : listeners st' = listeners st;
  grows_log : log st' = log st
}.

(** The outcome of [self._is_action_suitable(value, src)] for a registry
    entry, and the flag it gives when it returns. *)
Definition suitable (st : state) (self : loc) (value : val) (m : Metadata)
  : result bool :=
  fst (is_action_suitable self value (VMeta m) st).

(** The flag, [False] when the check raises. *)
Definition suitable_flag (st : state) (self : loc) (value : val) (m : Metadata)
  : bool :=
  match suitable st self value m with
  | Ok b => b
  | Err _ => false
  end.

(** An item of the table, as [DocumentedItem(...)] built it. *)
Definition is_DocumentedItem (st : state) (item : val) (name : string)
    (enabled : bool) (documentation id object : val) : Prop :=
  ∃ l, item = VRef l ∧
       heap st !! l = Some (item_obj name enabled documentation id object).


(** The part of [ListAdderNode._object_changed] that builds the rows. *)
Definition build_rows (self : loc) (value : val) : M (list val) :=
  source ← getattr (VRef self) "items_list_source";
  srcs ← iter source;
  rows_loop self value srcs [].

(** ** Nested notifications

    An [EngineAdderNode] assigns to the [object] of its adder nodes, and a
    [ModuleFilterAdderNode] to the one of its two lists.  The rank of a class
    is the depth of the notifications an assignment to [object] starts. *)

(** The rank of a class, from the handler its [object] trait resolves to. *)
Definition rank (classes : list string) : nat :=
  match resolve_object_changed classes with
  | Some EngineAdderNode_handler => 2
  | Some ModuleFilterAdderNode_handler => 1
  | _ => 0
  end.

(** The rank of the class of a value. *)
Definition rank_of (st : state) (v : val) : nat := rank (mro_of st v).

(** The attributes a run may have written: every other attribute of every
    object there before is as it was, the classes are as they were, the
    objects that are new have rank 0, and the listeners are the same. *)
Record modifies (W : loc → string → Prop) (st st' : state) : Prop := {
  modifies_old : ∀ l o, heap st !! l = Some o →
    ∃ o', heap st' !! l = Some o' ∧ mro o' = mro o ∧
          ∀ name, ¬ W l name → attrs o' !! name = attrs o !! name;
  modifies_new : ∀ l o', heap st !! l = None → heap st' !! l = Some o' →
    rank (mro o') = 0;
  modifies_listeners : listeners st' = listeners st
}.

(** The attributes that assigning to the [object] of a node of rank at most
    [k] may write. *)
Definition written (k : nat) (st : state) (l : loc) (name : string) : Prop :=
  (∃ o, heap st !! l = Some o ∧ (rank (mro o) ≤ k)%nat) ∧
  (name = "object" ∨ name = "items_list").

(** The lists of a [ModuleFilterAdderNode] are nodes of rank 0. *)
Definition wf (st : state) : Prop :=
  ∀ l o name c,
    heap st !! l = Some o → rank (mro o) = 1 →
    name = "filters" ∨ name = "modules" →
    attrs o !! name = Some c → rank_of st c = 0.

(** A check of [wf] that computes. *)
Definition wf_check (st : state) : bool :=
  forallb (λ lo : loc * pyobj,
             if Nat.eqb (rank (mro lo.2)) 1 then
               forallb (λ name, match attrs lo.2 !! name with
                                | Some c => Nat.eqb (rank_of st c) 0
                                | None => true
                                end) ["filters"; "modules"]
             else true)
    (map_to_list (heap st)).

(** The object after [self.object = value]. *)
Definition store_object (o : pyobj) (value : val) : pyobj :=
  {| mro := mro o; attrs := <["object" := value]> (attrs o); methods := methods o |}.

(** An attribute that an object holds in its dictionary. *)
Definition holds (st : state) (l : loc) (name : string) (x : val) : Prop :=
  ∃ o, heap st !! l = Some o ∧ attrs o !! name = Some x.

(** ** The engine adder *)

(** C1 as stated: the four-way check on the selected object. *)
Definition four_way_dispatch (st : state) (engine obj : val) : string :=
  if bool_decide (hd "object" (mro_of st engine) ∈ mro_of st obj) then "scene"
  else if bool_decide ("Scene" ∈ mro_of st obj) then "source"
  else if bool_decide ("Source" ∈ mro_of st obj)
          || bool_decide ("ModuleManager" ∈ mro_of st obj)
          || bool_decide (is_Some (read_attr st obj "module_manager"))
       then "module-filter"
  else "scene".

(** An adder node an [EngineAdderNode] can show: a node of this module
    other than an [EngineAdderNode]. *)
Definition good_adder (st : state) (a : val) : Prop :=
  ∃ la oa, a = VRef la ∧ heap st !! la = Some oa ∧
           "AdderNode" ∈ mro oa ∧ (rank (mro oa) ≤ 1)%nat.

(** What the handler of an [EngineAdderNode] may write. *)
Definition engine_written (st : state) (self : loc) (l : loc) (name : string) : Prop :=
  written 1 st l name ∨ (l = self ∧ (name = "adder_node" ∨ name = "label")).

(** What [self.object = value] on an [EngineAdderNode] may write. *)
Definition engine_object_written (st : state) (self : loc) (l : loc) (name : string)
  : Prop :=
  engine_written st self l name ∨ (l = self ∧ name = "object").

(** An [EngineAdderNode] whose three adders and current adder node are
    nodes it can show. *)
Definition engine_ok (st : state) (self : loc) : Prop :=
  ∃ so kvs engine node,
    heap st !! self = Some so ∧
    resolve_object_changed (mro so) = Some EngineAdderNode_handler ∧
    attrs so !! "adders" = Some (VDict kvs) ∧
    attrs so !! "engine" = Some engine ∧
    attrs so !! "adder_node" = Some node ∧ good_adder st node ∧
    ∀ key, key = "scene" ∨ key = "source" ∨ key = "module-filter" →
           ∃ a, assoc key kvs = Some a ∧ good_adder st a.

(** ** Example states *)

(** The state before any object is made. *)
Definition empty_state : state :=
  {| heap := ∅; Mutable_attr := VNone; listeners := []; trace := []; log := [] |}.

(** A pipeline object (1) whose menu helper (0) has one check. *)
Definition suitability_example : state :=
  {| heap :=
       {[ 0 := {| mro := ["MenuHelper"; "object"]; attrs := ∅;
                  methods := {[ "check_outline" := Returns (VBool true) ]} |};
          1 := {| mro := ["Source"; "object"];
                  attrs := {[ "menu_helper" := VRef 0 ]}; methods := ∅ |} ]};
     Mutable_attr := VNone; listeners := []; trace := []; log := [] |}.

(** A [SceneAdderNode] (1) whose object is an engine (0). *)
Definition button_example : state :=
  {| heap :=
       {[ 0 := {| mro := ["Engine"; "HasTraits"; "object"];
                  attrs := {[ "current_selection" := VNone ]};
                  methods := {[ "new_scene" := Returns VNone ]} |};
          1 := mk_obj ["SceneAdderNode"; "AdderNode"]
                 [("label", VStr "Base AdderNode"); ("tooltip", VStr "Add an item");
                  ("object", VRef 0)] ]};
     Mutable_attr := VNone; listeners := []; trace := []; log := [] |}.

(** A disabled row of the table. *)
Definition row_example : state :=
  {| heap :=
       {[ 0 := mk_obj ["DocumentedItem"]
                 [("name", VStr "Outline"); ("enabled", VBool false);
                  ("documentation", VStr "Draw an outline"); ("id", VStr "outline");
                  ("object", VNone)] ]};
     Mutable_attr := VNone; listeners := []; trace := []; log := [] |}.

(** Two registry entries. *)
Definition outline_entry : Metadata :=
  {| src_id := "outline"; menu_name := "&Outline"; help := "Draw an outline";
     extensions := [] |}.
Definition axes_entry : Metadata :=
  {| src_id := "axes"; menu_name := "&Axes"; help := "Draw axes"; extensions := [] |}.

(** A [FilterAdderNode] that lists the two entries. *)
Definition list_node_example : pyobj :=
  mk_obj ["FilterAdderNode"; "ListAdderNode"; "AdderNode"]
    [("label", VStr "Base AdderNode"); ("tooltip", VStr "Add an item");
     ("object", VNone); ("items_list", VList []);
     ("items_list_source", VList (VMeta <$> [outline_entry; axes_entry]))].

(** A node with two registry entries, and a pipeline object whose menu
    helper has a check for the first entry only. *)
Definition list_example : state :=
  {| heap :=
       {[ 0 := {| mro := ["MenuHelper"; "HasTraits"; "object"];
                  attrs := {[ "actions" := VList [] ]};
                  methods := {[ "check_outline" := Returns (VBool true) ]} |};
          1 := {| mro := ["Source"; "Base"; "HasTraits"; "object"];
                  attrs := {[ "menu_helper" := VRef 0 ]}; methods := ∅ |};
          2 := list_node_example ]};
     Mutable_attr := VNone; listeners := []; trace := []; log := [] |}.

(** A [SourceAdderNode] that lists the two entries, and a scene (1) whose
    menu helper (0) answers [False] to the only check it has. *)
Definition source_node_example : pyobj :=
  mk_obj ["SourceAdderNode"; "ListAdderNode"; "AdderNode"]
    [("label", VStr "Add Data Source"); ("tooltip", VStr "Add an item");
     ("object", VNone); ("items_list", VList []);
     ("items_list_source", VList (VMeta <$> [outline_entry; axes_entry]))].

Definition source_example : state :=
  {| heap :=
       {[ 0 := {| mro := ["MenuHelper"; "HasTraits"; "object"];
                  attrs := {[ "actions" := VList [] ]};
                  methods := {[ "check_outline" := Returns (VBool false) ]} |};
          1 := {| mro := ["Scene"; "Base"; "HasTraits"; "object"];
                  attrs := {[ "menu_helper" := VRef 0 ]}; methods := ∅ |};
          2 := source_node_example ]};
     Mutable_attr := VNone; listeners := []; trace := []; log := [] |}.

(** A small registry. *)
Definition example_registry : Registry :=
  {| sources := [outline_entry]; modules := [axes_entry]; filters := [] |}.

(** An [EngineAdderNode] as the constructor builds it (at 5, with its adders
    at 0, 1 and 4), a menu helper (6), a scene (7) whose menu helper it is,
    and an engine (8) that the node is given. *)
Definition engine_example : state :=
  snd ((node ← EngineAdderNode.new example_registry;
        menu_helper ← alloc {| mro := ["MenuHelper"; "HasTraits"; "object"];
                               attrs := {[ "actions" := VList [] ]};
                               methods := ∅ |};
        scene ← alloc {| mro := ["Scene"; "Base"; "HasTraits"; "object"];
                         attrs := {[ "menu_helper" := menu_helper ]};
                         methods := ∅ |};
        engine ← alloc {| mro := ["Engine"; "HasTraits"; "object"];
                          attrs := {[ "current_selection" := VNone ]};
                          methods := {[ "new_scene" := Returns VNone ]} |};
        setattr node "engine" engine) empty_state).

(** ** Calls of a rebuild *)

(** The calls of the checks that the menu helper [ho] (at [h]) has, for the
    registry entries [ms] in their order. *)
Definition check_calls (h : loc) (ho : pyobj) (ms : list Metadata) : list event :=
  omap (λ m, match methods ho !! ("check_" ++ src_id m) with
             | Some _ => Some (Call h ("check_" ++ src_id m) [])
             | None => None
             end) ms.

(** A list node (2) and a pipeline object (1) that has no menu helper. *)
Definition orphan_example : state :=
  {| heap :=
       {[ 1 := {| mro := ["Source"; "Base"; "HasTraits"; "object"];
                  attrs := ∅; methods := ∅ |};
          2 := list_node_example ]};
     Mutable_attr := VNone; listeners := []; trace := []; log := [] |}.

(** A [ModuleAdderNode] (2) that lists the two entries, and a pipeline
    object (1) whose menu helper (0) builds its filter actions and has a
    check for the second entry. *)
Definition module_node_example : pyobj :=
  mk_obj ["ModuleAdderNode"; "ListAdderNode"; "AdderNode"]
    [("label", VStr "Base AdderNode"); ("tooltip", VStr "Add an item");
     ("object", VNone); ("items_list", VList []);
     ("items_list_source", VList (VMeta <$> [outline_entry; axes_entry]))].

Definition module_helper_example : pyobj :=
  {| mro := ["MenuHelper"; "HasTraits"; "object"];
     attrs := {[ "actions" := VList [] ]};
     methods := {[ "_build_filter_actions" := Returns VNone;
                   "check_axes" := Returns (VBool true) ]} |}.

Definition module_example : state :=
  {| heap :=
       {[ 0 := module_helper_example;
          1 := {| mro := ["Source"; "Base"; "HasTraits"; "object"];
                  attrs := {[ "menu_helper" := VRef 0 ]}; methods := ∅ |};
          2 := module_node_example ]};
     Mutable_attr := VNone; listeners := []; trace := []; log := [] |}.

(** The state [engine_example] after the scene (7) was stored as the object
    of the [ModuleFilterAdderNode] (4), whose lists are at 2 and 3. *)
Definition module_filter_example : state :=
  snd (setattr (VRef 4) "object" (VRef 7) engine_example).

(** An [EngineAdderNode] whose dictionary of adders was emptied. *)
Definition bare_engine_example : state :=
  {| heap :=
       {[ 0 := mk_obj ["EngineAdderNode"; "AdderNode"]
                 [("label", VStr "Add a new Scene"); ("tooltip", VStr "Add an item");
                  ("object", VNone); ("engine", VNone);
                  ("adder_node", VNone); ("adders", VDict [])] ]};
     Mutable_attr := VNone; listeners := []; trace := []; log := [] |}.

(** ** Construction *)

(** The lists of every [ModuleFilterAdderNode] are objects of the heap. *)
Definition closed_lists (st : state) : Prop :=
  ∀ l o name lc,
    heap st !! l = Some o → rank (mro o) = 1 →
    name = "filters" ∨ name = "modules" →
    attrs o !! name = Some (VRef lc) → is_Some (heap st !! lc).

(** What a new object needs for [wf] and [closed_lists] to go on holding:
    if it has lists, they are nodes of rank 0 of the heap. *)
Definition lists_ok (st : state) (o : pyobj) : Prop :=
  rank (mro o) = 1 →
  ∀ name c, name = "filters" ∨ name = "modules" → attrs o !! name = Some c →
            ∃ lc oc, c = VRef lc ∧ heap st !! lc = Some oc ∧ rank (mro oc) = 0.

(** The state [engine_example] with a second engine (9) that the node (5)
    listens to. *)
Definition two_engines_example : state :=
  snd ((old_engine ← alloc {| mro := ["Engine"; "HasTraits"; "object"];
                              attrs := {[ "current_selection" := VNone ]};
                              methods := ∅ |};
        on_trait_change old_engine 5 "current_selection" false) engine_example).

(** ** The lists of a [ModuleFilterAdderNode] *)





(** An enabled row of the table. *)
Definition enabled_row_example : state :=
  {| heap :=
       {[ 0 := mk_obj ["DocumentedItem"]
                 [("name", VStr "Outline"); ("enabled", VBool true);
                  ("documentation", VStr "Draw an outline for given data");
                  ("id", VStr "outline"); ("object", VNone)] ]};
     Mutable_attr := VNone; listeners := []; trace := []; log := [] |}.




(** ** The claims on the rebuilt list, as stated *)



(** C8 as stated: every run of the handler with a value other than [None]
    sets [Mutable.attr] to that value. *)
Definition sets_Mutable_attr (st : state) (self : loc) (value : val) : Prop :=
  is_none value = false →
  Mutable_attr (snd (ListAdderNode_object_changed self value st)) = value.


(** * Properties *)

(** ** Running the monad *)

Lemma run_bind {A B} (m : M A) (f : A → M B) st :
  (m ≫= f) st =
  match m st with
  | (Ok a, st') => f a st'
  | (Err e, st') => (Err e, st')
  end.
Proof. reflexivity. Qed.

Lemma run_getattr_Some v name x st :
  read_attr st v name = Some x → getattr v name st = (Ok x, st).
Proof. intros H. unfold getattr. by rewrite H. Qed.

Lemma run_getattr_None v name st :
  read_attr st v name = None → getattr v name st = (Err (AttributeError name), st).
Proof. intros H. unfold getattr. by rewrite H. Qed.

Lemma run_hasattr v name st :
  hasattr v name st = (Ok (bool_decide (is_Some (read_attr st v name))), st).
Proof.
  unfold hasattr, getattr. by destruct (read_attr st v name) as [x|].
Qed.

(** Every outcome of a call leaves the heap alone and records at most the
    call itself. *)
Lemma call_state f kwargs st :
  snd (call f kwargs st) = st ∨
  ∃ l name, f = VMethod l name ∧ snd (call f kwargs st) = add_event (Call l name kwargs) st.
Proof.
  unfold call. destruct f; simpl; auto.
  destruct (heap st !! recv ≫= _) as [[v|e]|]; simpl; eauto.
Qed.

(** ** The [scene] property of [AdderNode] *)

Lemma get_scene_no_obj st self o :
  heap st !! self = Some o →
  attrs o !! "obj" = None →
  methods o !! "obj" = None →
  AdderNode._get_scene self st = (Err (AttributeError "obj"), st).
Proof.
  intros Hs Ha Hm. unfold AdderNode._get_scene. rewrite run_bind.
  rewrite run_getattr_None; [done|]. simpl. by rewrite Hs, Ha, Hm.
Qed.

(** C5 (as the code has it): the getter of the [scene] property reads
    [self.obj], an attribute no class of the module declares (the trait is
    [object]); on a node as [AdderNode()] builds it, whatever the state it is
    built in, the getter raises [AttributeError] instead of returning
    [None]. *)
Theorem C5_get_scene_raises st :
  ∃ self st',
    AdderNode.new st = (Ok (VRef self), st') ∧
    read_attr st' (VRef self) "object" = Some VNone ∧
    AdderNode._get_scene self st' = (Err (AttributeError "obj"), st').
Proof.
  eexists _, _. split; [reflexivity|]. split.
  - simpl. by rewrite lookup_insert_eq.
  - eapply get_scene_no_obj; [apply lookup_insert_eq|done|done].
Qed.

(** ** Suitability of an action *)

(** [ListAdderNode._is_action_suitable] as one expression. *)
Lemma ListAdderNode_is_action_suitable_run self object src st :
  ListAdderNode._is_action_suitable self object src st =
  match read_attr st object "menu_helper" with
  | None => (Err (AttributeError "menu_helper"), st)
  | Some menu_helper =>
      match read_attr st src "id" with
      | None => (Err (AttributeError "id"), st)
      | Some (VStr id) =>
          match read_attr st menu_helper ("check_" ++ id) with
          | None => (Ok false, st)
          | Some f =>
              match call f [] st with
              | (Ok r, st') => (Ok (truthy r), st')
              | (Err e, st') => (Err e, st')
              end
          end
      | Some _ => (Err TypeError, st)
      end
  end.
Proof.
  unfold ListAdderNode._is_action_suitable. rewrite run_bind. unfold getattr at 1.
  destruct (read_attr st object "menu_helper") as [mh|] eqn:Hmh; [|done].
  rewrite run_bind. unfold getattr at 1.
  destruct (read_attr st src "id") as [idv|] eqn:Hid; [|done].
  destruct idv as [| | |id| | | | |]; try done.
  rewrite run_bind. simpl. rewrite run_bind, run_hasattr.
  destruct (read_attr st mh ("check_" ++ id)) as [f|] eqn:Hf; [|done].
  simpl. rewrite run_bind, (run_getattr_Some _ _ _ _ Hmh).
  rewrite run_bind, (run_getattr_Some _ _ _ _ Hid).
  rewrite run_bind. simpl.
  rewrite run_bind, (run_getattr_Some _ _ _ _ Hf).
  rewrite run_bind. destruct (call f [] st) as [[r|e] st']; [|done].
  by destruct (truthy r).
Qed.

(** C3: [ListAdderNode._is_action_suitable(object, src)] returns [True]
    exactly when [object.menu_helper] has an attribute [check_<src.id>] and
    calling it returns a true value; when the menu helper has no such
    attribute it returns [False] and raises nothing. *)
Theorem C3_is_action_suitable self object src st :
  (∀ st', ListAdderNode._is_action_suitable self object src st = (Ok true, st') ↔
     ∃ menu_helper id f r,
       read_attr st object "menu_helper" = Some menu_helper ∧
       read_attr st src "id" = Some (VStr id) ∧
       read_attr st menu_helper ("check_" ++ id) = Some f ∧
       call f [] st = (Ok r, st') ∧ truthy r = true) ∧
  (∀ menu_helper id,
     read_attr st object "menu_helper" = Some menu_helper →
     read_attr st src "id" = Some (VStr id) →
     read_attr st menu_helper ("check_" ++ id) = None →
     ListAdderNode._is_action_suitable self object src st = (Ok false, st)).
Proof.
  rewrite ListAdderNode_is_action_suitable_run. split.
  - intros st'. split.
    + destruct (read_attr st object "menu_helper") as [mh|]; [|done].
      destruct (read_attr st src "id") as [[| | |id| | | | |]|]; try done.
      destruct (read_attr st mh ("check_" ++ id)) as [f|] eqn:Hf; [|done].
      destruct (call f [] st) as [[r|e] st''] eqn:Hcall; [|done].
      intros [= Hr <-]. by exists mh, id, f, r.
    + intros (mh & id & f & r & -> & -> & -> & -> & ->). done.
  - intros mh id -> -> ->. done.
Qed.

Lemma C3_witness :
  ListAdderNode._is_action_suitable 2 (VRef 1)
    (VMeta {| src_id := "axes"; menu_name := "&Axes"; help := ""; extensions := [] |})
    suitability_example = (Ok false, suitability_example).
Proof.
  apply (proj2 (C3_is_action_suitable 2 (VRef 1) _ suitability_example) (VRef 0) "axes");
    reflexivity.
Defined.

(** ** Button handlers *)

Lemma read_method st o ob name out :
  heap st !! o = Some ob →
  attrs ob !! name = None →
  methods ob !! name = Some out →
  read_attr st (VRef o) name = Some (VMethod o name).
Proof. intros Ho Ha Hm. simpl. by rewrite Ho, Ha, Hm. Qed.

Lemma run_call_method st o ob name out kwargs :
  heap st !! o = Some ob →
  methods ob !! name = Some out →
  (call (VMethod o name) kwargs ≫= λ _, mret tt) st =
  (outcome_result out, add_event (Call o name kwargs) st).
Proof.
  intros Ho Hm. rewrite run_bind. unfold call. rewrite Ho. simpl. rewrite Hm.
  by destruct out.
Qed.

Lemma call_then_ret_state f kwargs st :
  at_most_one_call st (snd ((call f kwargs ≫= λ _, mret tt) st)).
Proof.
  rewrite run_bind.
  destruct (call_state f kwargs st) as [H|(l & name & -> & H)];
    destruct (call _ kwargs st) as [[r|e] st'']; simpl in *; subst;
    unfold at_most_one_call; eauto.
Qed.

Lemma add_scene_fired_state self st :
  at_most_one_call st (snd (SceneAdderNode._add_scene_fired self st)).
Proof.
  unfold SceneAdderNode._add_scene_fired. rewrite run_bind. unfold getattr at 1.
  destruct (read_attr st (VRef self) "object") as [object|]; [|by left].
  rewrite run_bind. unfold getattr at 1.
  destruct (read_attr st object "new_scene") as [f|]; [|by left].
  apply call_then_ret_state.
Qed.

Lemma open_file_fired_state self st :
  at_most_one_call st (snd (SourceAdderNode._open_file_fired self st)).
Proof.
  unfold SourceAdderNode._open_file_fired. rewrite run_bind. unfold getattr at 1.
  destruct (read_attr st (VRef self) "object") as [object|]; [|by left].
  rewrite run_bind. unfold getattr at 1.
  destruct (read_attr st object "menu_helper") as [mh|]; [|by left].
  rewrite run_bind. unfold getattr at 1.
  destruct (read_attr st mh "open_file_action") as [f|]; [|by left].
  apply call_then_ret_state.
Qed.

Lemma add_fired_state self st :
  at_most_one_call st (snd (DocumentedItem._add_fired self st)).
Proof.
  unfold DocumentedItem._add_fired. rewrite run_bind. unfold getattr at 1.
  destruct (read_attr st (VRef self) "object") as [object|]; [|by left].
  rewrite run_bind. unfold getattr at 1.
  destruct (read_attr st object "menu_helper") as [mh|]; [|by left].
  rewrite run_bind. unfold getattr at 1.
  destruct (read_attr st (VRef self) "id") as [id|]; [|by left].
  rewrite run_bind. destruct id; try by left.
  simpl. unfold getattr at 1.
  destruct (read_attr st mh s) as [f|]; [|by left].
  apply call_then_ret_state.
Qed.

(** The run of [DocumentedItem._add_fired] on an item whose object has a
    menu helper with the method the item's id names. *)
Lemma add_fired_run st self object h ho id out :
  read_attr st (VRef self) "object" = Some object →
  read_attr st object "menu_helper" = Some (VRef h) →
  read_attr st (VRef self) "id" = Some (VStr id) →
  heap st !! h = Some ho →
  attrs ho !! id = None →
  methods ho !! id = Some out →
  DocumentedItem._add_fired self st =
  (outcome_result out, add_event (Call h id [("select", VBool false)]) st).
Proof.
  intros Hobj Hmh Hid Hh Ha Hm. unfold DocumentedItem._add_fired.
  rewrite run_bind, (run_getattr_Some _ _ _ _ Hobj).
  rewrite run_bind, (run_getattr_Some _ _ _ _ Hmh).
  rewrite run_bind, (run_getattr_Some _ _ _ _ Hid).
  rewrite run_bind. simpl getattr_dyn.
  rewrite (run_getattr_Some _ _ _ _ (read_method _ _ _ _ _ Hh Ha Hm)).
  by eapply run_call_method.
Qed.

(** C6: each button handler makes one call into the application and changes
    nothing else.  Firing [add_scene] calls [self.object.new_scene()], firing
    [open_file] calls [self.object.menu_helper.open_file_action()], and the
    add button of a [DocumentedItem] calls the method of the menu helper that
    the item's id names, with [select=False]; the handler ends as the call
    does.  Whatever the state, a handler records at most one call and leaves
    the rest of the state as it was. *)
Theorem C6_button_handlers st :
  (∀ self o ob out,
     read_attr st (VRef self) "object" = Some (VRef o) →
     heap st !! o = Some ob →
     attrs ob !! "new_scene" = None →
     methods ob !! "new_scene" = Some out →
     SceneAdderNode._add_scene_fired self st =
     (outcome_result out, add_event (Call o "new_scene" []) st)) ∧
  (∀ self object h ho out,
     read_attr st (VRef self) "object" = Some object →
     read_attr st object "menu_helper" = Some (VRef h) →
     heap st !! h = Some ho →
     attrs ho !! "open_file_action" = None →
     methods ho !! "open_file_action" = Some out →
     SourceAdderNode._open_file_fired self st =
     (outcome_result out, add_event (Call h "open_file_action" []) st)) ∧
  (∀ self object h ho id out,
     read_attr st (VRef self) "object" = Some object →
     read_attr st object "menu_helper" = Some (VRef h) →
     read_attr st (VRef self) "id" = Some (VStr id) →
     heap st !! h = Some ho →
     attrs ho !! id = None →
     methods ho !! id = Some out →
     DocumentedItem._add_fired self st =
     (outcome_result out, add_event (Call h id [("select", VBool false)]) st)) ∧
  (∀ self,
     at_most_one_call st (snd (SceneAdderNode._add_scene_fired self st)) ∧
     at_most_one_call st (snd (SourceAdderNode._open_file_fired self st)) ∧
     at_most_one_call st (snd (DocumentedItem._add_fired self st))).
Proof.
  split; [|split; [|split]].
  - intros self o ob out Hobj Ho Ha Hm. unfold SceneAdderNode._add_scene_fired.
    rewrite run_bind, (run_getattr_Some _ _ _ _ Hobj).
    rewrite run_bind, (run_getattr_Some _ _ _ _ (read_method _ _ _ _ _ Ho Ha Hm)).
    by eapply run_call_method.
  - intros self object h ho out Hobj Hmh Hh Ha Hm.
    unfold SourceAdderNode._open_file_fired.
    rewrite run_bind, (run_getattr_Some _ _ _ _ Hobj).
    rewrite run_bind, (run_getattr_Some _ _ _ _ Hmh).
    rewrite run_bind, (run_getattr_Some _ _ _ _ (read_method _ _ _ _ _ Hh Ha Hm)).
    by eapply run_call_method.
  - intros self object h ho id out. apply add_fired_run.
  - intros self. split; [|split].
    + apply add_scene_fired_state.
    + apply open_file_fired_state.
    + apply add_fired_state.
Qed.

Lemma C6_witness :
  SceneAdderNode._add_scene_fired 1 button_example =
  (Ok tt, add_event (Call 0 "new_scene" []) button_example).
Proof.
  apply (proj1 (C6_button_handlers button_example) 1 0
           {| mro := ["Engine"; "HasTraits"; "object"];
              attrs := {[ "current_selection" := VNone ]};
              methods := {[ "new_scene" := Returns VNone ]} |} (Returns VNone));
    reflexivity.
Defined.

(** ** Rows of the table: double click and description *)

Lemma string_app_assoc (s1 s2 s3 : string) : (s1 ++ s2) ++ s3 = s1 ++ (s2 ++ s3).
Proof.
  induction s1 as [|c s1 IH]; [done|].
  change (String c ((s1 ++ s2) ++ s3) = String c (s1 ++ (s2 ++ s3))).
  by rewrite IH.
Qed.

(** The lines joined by ['\n'.join] are the lines with a newline between
    each two of them. *)
Lemma join_lines_concat ls :
  DocumentedItem.join_lines ls = String.concat (String "010"%char "") ls.
Proof.
  destruct ls as [|l rest]; [done|]. unfold DocumentedItem.join_lines.
  revert l. induction rest as [|x rest IH]; intros l; [done|].
  cbn [foldl]. rewrite IH.
  change (String.concat (String "010"%char "") (l :: x :: rest))
    with (l ++ String "010"%char "" ++ String.concat (String "010"%char "") (x :: rest)).
  destruct rest as [|y rest]; [reflexivity|].
  change (String.concat (String "010"%char "") ((l ++ String "010"%char x) :: y :: rest))
    with ((l ++ String "010"%char x) ++ String "010"%char "" ++
          String.concat (String "010"%char "") (y :: rest)).
  rewrite string_app_assoc. reflexivity.
Qed.

(** C10: a double click on a row runs the row's add action exactly when the
    row is enabled; on a disabled [DocumentedItem] it does nothing, and the
    description of a disabled item is its bare name, while that of an enabled
    item is the name, a newline, and the lines of the documentation wrapped
    to width 40, with a newline between each two of them; when the wrapped
    documentation is one line, that is the name, a newline and the line. *)
Theorem C10_dclick_and_description (wrap : string → nat → list string) st item :
  (∀ b : bool,
     read_attr st (VRef item) "enabled" = Some (VBool b) →
     "DocumentedItem" ∈ mro_of st (VRef item) →
     GrayedColumn.on_dclick (VRef item) st =
     if b then DocumentedItem._add_fired item st else (Ok tt, st)) ∧
  (∀ name,
     read_attr st (VRef item) "enabled" = Some (VBool false) →
     read_attr st (VRef item) "name" = Some (VStr name) →
     DocumentedItem._get__description wrap item st = (Ok (VStr name), st)) ∧
  (∀ name documentation,
     read_attr st (VRef item) "enabled" = Some (VBool true) →
     read_attr st (VRef item) "name" = Some (VStr name) →
     read_attr st (VRef item) "documentation" = Some (VStr documentation) →
     DocumentedItem._get__description wrap item st =
     (Ok (VStr (name ++ String "010"%char
                  (String.concat (String "010"%char "") (wrap documentation 40)))), st) ∧
     ∀ line, wrap documentation 40 = [line] →
       DocumentedItem._get__description wrap item st =
       (Ok (VStr (name ++ String "010"%char line)), st)).
Proof.
  split; [|split].
  - intros b Hen Hcls. unfold GrayedColumn.on_dclick.
    rewrite run_bind, (run_getattr_Some _ _ _ _ Hen). cbn [truthy].
    destruct b; [|done]. unfold GrayedColumn.invoke_add_fired.
    rewrite run_bind. unfold isinstance, gets.
    by rewrite bool_decide_eq_true_2.
  - intros name Hen Hname. unfold DocumentedItem._get__description.
    rewrite run_bind, (run_getattr_Some _ _ _ _ Hen). cbn [truthy].
    by rewrite (run_getattr_Some _ _ _ _ Hname).
  - intros name doc Hen Hname Hdoc.
    assert (DocumentedItem._get__description wrap item st =
            (Ok (VStr (name ++ String "010"%char
                         (String.concat (String "010"%char "") (wrap doc 40)))), st))
      as Heq.
    { unfold DocumentedItem._get__description.
      rewrite run_bind, (run_getattr_Some _ _ _ _ Hen). cbn [truthy].
      rewrite run_bind, (run_getattr_Some _ _ _ _ Hname).
      rewrite run_bind, (run_getattr_Some _ _ _ _ Hdoc).
      by rewrite join_lines_concat. }
    split; [exact Heq|]. intros line Hline. by rewrite Heq, Hline.
Qed.

(** A disabled row does nothing on a double click; the description of an
    enabled row whose documentation is wrapped into two lines. *)
Lemma C10_witness :
  GrayedColumn.on_dclick (VRef 0) row_example = (Ok tt, row_example) ∧
  DocumentedItem._get__description (λ _ _, ["Draw an outline"; "for given data"])
    0 enabled_row_example =
  (Ok (VStr ("Outline" ++ String "010"%char
               ("Draw an outline" ++ String "010"%char "for given data"))),
   enabled_row_example).
Proof.
  split.
  - apply (proj1 (C10_dclick_and_description (λ s _, [s]) row_example 0) false).
    + reflexivity.
    + simpl. apply list_elem_of_here.
  - apply (proj1 (proj2 (proj2 (C10_dclick_and_description
                                  (λ _ _, ["Draw an outline"; "for given data"])
                                  enabled_row_example 0))
                    "Outline" "Draw an outline for given data"
                    eq_refl eq_refl eq_refl)).
Defined.

(** ** Building the rows *)

Lemma grows_refl st : grows st st.
Proof. split; auto. intros l o H1 H2. congruence. Qed.

Lemma grows_trans st1 st2 st3 : grows st1 st2 → grows st2 st3 → grows st1 st3.
Proof.
  intros [A1 B1 C1 D1 E1] [A2 B2 C2 D2 E2]. split; try congruence.
  - eauto.
  - intros l o H1 H3. destruct (heap st2 !! l) as [o2|] eqn:H2.
    + rewrite (A2 _ _ H2) in H3. injection H3 as <-. eauto.
    + eauto.
Qed.

Lemma grows_add_event e st : grows st (add_event e st).
Proof. split; auto. simpl. intros l o H1 H2. congruence. Qed.

Lemma fresh_unallocated (h : gmap nat pyobj) : h !! fresh (dom h) = None.
Proof. apply not_elem_of_dom, is_fresh. Qed.

Lemma grows_alloc_item st name enabled documentation id object :
  grows st (set_heap (<[fresh (dom (heap st)) :=
                        item_obj name enabled documentation id object]> (heap st)) st).
Proof.
  split; auto; simpl.
  - intros l o H. rewrite lookup_insert_ne; [done|].
    intros <-. by rewrite fresh_unallocated in H.
  - intros l o H1 H2. destruct (decide (fresh (dom (heap st)) = l)) as [<-|Hne].
    + rewrite lookup_insert_eq in H2. injection H2 as <-. unfold is_item. eauto 10.
    + rewrite lookup_insert_ne in H2 by done. congruence.
Qed.

Lemma grows_call f kwargs st : grows st (snd (call f kwargs st)).
Proof.
  destruct (call_state f kwargs st) as [->|(l & name & _ & ->)].
  - apply grows_refl.
  - apply grows_add_event.
Qed.

Lemma run_DocumentedItem_new name enabled documentation id object st :
  DocumentedItem.new name enabled (VStr documentation) id object st =
  (Ok (VRef (fresh (dom (heap st)))),
   set_heap (<[fresh (dom (heap st)) :=
               item_obj name enabled (VStr documentation) id object]> (heap st)) st).
Proof. reflexivity. Qed.

Lemma grows_DocumentedItem_new name enabled documentation id object st :
  grows st (snd (DocumentedItem.new name enabled documentation id object st)).
Proof.
  destruct documentation; try apply grows_refl.
  rewrite run_DocumentedItem_new. apply grows_alloc_item.
Qed.

Lemma grows_ListAdderNode_is_action_suitable self object src st :
  grows st (snd (ListAdderNode._is_action_suitable self object src st)).
Proof.
  rewrite ListAdderNode_is_action_suitable_run.
  destruct (read_attr st object "menu_helper") as [mh|]; [|apply grows_refl].
  destruct (read_attr st src "id") as [[| | |id| | | | |]|]; try apply grows_refl.
  destruct (read_attr st mh ("check_" ++ id)) as [f|]; [|apply grows_refl].
  pose proof (grows_call f [] st) as H.
  by destruct (call f [] st) as [[r|e] st'].
Qed.

Lemma grows_is_action_suitable self object src st :
  grows st (snd (is_action_suitable self object src st)).
Proof.
  unfold is_action_suitable. rewrite run_bind. unfold gets.
  destruct (resolves_to_SourceAdderNode _).
  - apply grows_refl.
  - apply grows_ListAdderNode_is_action_suitable.
Qed.

(** Stepping through a bind whose first computation only grows the state. *)
Lemma grows_bind {A B} (m : M A) (f : A → M B) st :
  grows st (snd (m st)) →
  (∀ a st', grows st st' → grows st (snd (f a st'))) →
  grows st (snd ((m ≫= f) st)).
Proof.
  intros Hm Hf. rewrite run_bind. destruct (m st) as [[a|e] st']; simpl in *; auto.
Qed.

Lemma grows_getattr v name st : grows st (snd (getattr v name st)).
Proof. unfold getattr. destruct (read_attr st v name); apply grows_refl. Qed.

Lemma grows_rows_loop self value srcs : ∀ result st,
  grows st (snd (rows_loop self value srcs result st)).
Proof.
  induction srcs as [|src rest IH]; intros result st; [apply grows_refl|].
  simpl. apply grows_bind; [apply grows_getattr|]. intros menu_name st1 H1.
  apply (grows_trans _ st1); [done|]. clear H1.
  apply grows_bind; [destruct menu_name; apply grows_refl|]. intros name st2 H2.
  apply (grows_trans _ st2); [done|]. clear H2.
  apply grows_bind; [apply grows_is_action_suitable|]. intros enabled st3 H3.
  apply (grows_trans _ st3); [done|]. clear H3.
  apply grows_bind; [apply grows_getattr|]. intros doc st4 H4.
  apply (grows_trans _ st4); [done|]. clear H4.
  apply grows_bind; [apply grows_getattr|]. intros id st5 H5.
  apply (grows_trans _ st5); [done|]. clear H5.
  apply grows_bind; [apply grows_DocumentedItem_new|]. intros item st6 H6.
  apply (grows_trans _ st6); [done|]. apply IH.
Qed.

Lemma read_attr_grows st s v name x :
  grows st s → read_attr st v name = Some x → read_attr s v name = Some x.
Proof.
  intros G. destruct v; try done. simpl.
  destruct (heap st !! l) as [o|] eqn:Hl; [|done].
  by rewrite (grows_old _ _ G _ _ Hl).
Qed.

Lemma read_attr_allocated st s l o name :
  grows st s → heap st !! l = Some o →
  read_attr s (VRef l) name = read_attr st (VRef l) name.
Proof. intros G Hl. simpl. by rewrite Hl, (grows_old _ _ G _ _ Hl). Qed.

Lemma item_obj_methods o name : is_item o → methods o !! name = None.
Proof. intros (? & ? & ? & ? & ? & ->). done. Qed.

Lemma call_result_grows st s f kwargs :
  grows st s → fst (call f kwargs s) = fst (call f kwargs st).
Proof.
  intros G. destruct f; try done. unfold call.
  destruct (heap st !! recv) as [o|] eqn:Hl.
  - rewrite (grows_old _ _ G _ _ Hl). simpl.
    by destruct (methods o !! name) as [[v|e]|].
  - destruct (heap s !! recv) as [o'|] eqn:Hl'; [|done]. simpl.
    by rewrite (item_obj_methods o' name (grows_new _ _ G _ _ Hl Hl')).
Qed.

(** Rows built in between do not change what the check answers. *)
Lemma suitable_stable st s self value menu_helper m :
  grows st s →
  is_Some (heap st !! self) →
  read_attr st value "menu_helper" = Some menu_helper →
  is_Some (read_attr st menu_helper "actions") →
  suitable s self value m = suitable st self value m.
Proof.
  intros G [so Hself] Hmh Hactions. unfold suitable, is_action_suitable.
  rewrite !run_bind. unfold gets, mro_of.
  rewrite Hself, (grows_old _ _ G _ _ Hself).
  destruct (resolves_to_SourceAdderNode (mro so)); [done|].
  rewrite !ListAdderNode_is_action_suitable_run.
  rewrite Hmh, (read_attr_grows _ _ _ _ _ G Hmh).
  change (read_attr s (VMeta m) "id") with (Some (VStr (src_id m))).
  change (read_attr st (VMeta m) "id") with (Some (VStr (src_id m))).
  cbv iota.
  assert (read_attr s menu_helper ("check_" ++ src_id m) =
          read_attr st menu_helper ("check_" ++ src_id m)) as ->.
  { destruct menu_helper; try done. destruct Hactions as [x Hx]. simpl in Hx.
    destruct (heap st !! l) as [o|] eqn:Hl; [|done].
    by apply (read_attr_allocated _ _ _ o). }
  destruct (read_attr st menu_helper ("check_" ++ src_id m)) as [f|]; [|done].
  pose proof (call_result_grows st s f [] G) as Hc.
  destruct (call f [] s) as [[r|e] s'], (call f [] st) as [[r'|e'] st'];
    simpl in *; congruence.
Qed.

(** The loop over registry entries, when no check raises: one item per
    entry, in order, appended to the rows built before. *)
Lemma rows_loop_meta st self value menu_helper ms :
  is_Some (heap st !! self) →
  read_attr st value "menu_helper" = Some menu_helper →
  is_Some (read_attr st menu_helper "actions") →
  Forall (λ m, ∃ b, suitable st self value m = Ok b) ms →
  ∀ result s, grows st s →
    ∃ items s',
      rows_loop self value (VMeta <$> ms) result s = (Ok (result ++ items)%list, s') ∧
      grows s s' ∧
      Forall2 (λ item m, ∃ l,
                 item = VRef l ∧ heap s !! l = None ∧
                 heap s' !! l =
                 Some (item_obj (remove_amp (menu_name m)) (suitable_flag st self value m)
                         (VStr (help m)) (VStr (src_id m)) value))
        items ms.
Proof.
  intros Hself Hmh Hactions Hall. induction Hall as [|m ms [b Hb] _ IH];
    intros result s G.
  - exists [], s. rewrite app_nil_r. split; [done|]. split; [apply grows_refl|].
    constructor.
  - simpl. rewrite run_bind.
    change (getattr (VMeta m) "menu_name" s) with (Ok (VStr (menu_name m)), s).
    cbv iota. rewrite run_bind. cbn [str_replace_amp].
    change (@mret M _ string (remove_amp (menu_name m)) s)
      with (Ok (remove_amp (menu_name m)), s).
    cbv iota. rewrite run_bind.
    pose proof (suitable_stable st s self value menu_helper m G Hself Hmh Hactions) as Hst.
    pose proof (grows_is_action_suitable self value (VMeta m) s) as G1.
    unfold suitable in Hst, Hb. rewrite Hb in Hst.
    destruct (is_action_suitable self value (VMeta m) s) as [r s1]. simpl in Hst, G1.
    subst r. rewrite run_bind.
    change (getattr (VMeta m) "help" s1) with (Ok (VStr (help m)), s1).
    cbv iota. rewrite run_bind.
    change (getattr (VMeta m) "id" s1) with (Ok (VStr (src_id m)), s1).
    cbv iota. rewrite run_bind, run_DocumentedItem_new.
    set (l := fresh (dom (heap s1))).
    set (o := item_obj (remove_amp (menu_name m)) b (VStr (help m)) (VStr (src_id m)) value).
    set (s2 := set_heap (<[l := o]> (heap s1)) s1).
    assert (grows s1 s2) as G2 by apply grows_alloc_item.
    destruct (IH (result ++ [VRef l])%list s2) as (items & s' & Hrun & G3 & Hitems).
    { eauto using grows_trans. }
    exists (VRef l :: items), s'. split; [|split].
    + etrans; [exact Hrun|]. by rewrite <- app_assoc.
    + eauto using grows_trans.
    + constructor.
      * exists l. split; [done|]. split.
        -- destruct (heap s !! l) as [o'|] eqn:Hl; [|done].
           apply (grows_old _ _ G1) in Hl. unfold l in Hl.
           by rewrite fresh_unallocated in Hl.
        -- apply (grows_old _ _ G3). unfold s2. simpl. rewrite lookup_insert_eq.
           unfold o, suitable_flag, suitable. by rewrite Hb.
      * eapply Forall2_impl; [exact Hitems|]. intros item m' (l' & -> & Hnone & Hsome).
        exists l'. split; [done|]. split; [|done].
        destruct (heap s !! l') as [o'|] eqn:Hl; [|done].
        apply (grows_old _ _ (grows_trans _ _ _ G1 G2)) in Hl. congruence.
Qed.

Lemma suitable_set_Mutable_attr v st self value m :
  suitable (set_Mutable_attr v st) self value m = suitable st self value m.
Proof.
  unfold suitable, is_action_suitable. rewrite !run_bind. unfold gets.
  change (mro_of (set_Mutable_attr v st) (VRef self)) with (mro_of st (VRef self)).
  destruct (resolves_to_SourceAdderNode _); [done|].
  rewrite !ListAdderNode_is_action_suitable_run.
  change (read_attr (set_Mutable_attr v st)) with (read_attr st).
  destruct (read_attr st value "menu_helper") as [mh|]; [|done].
  destruct (read_attr st (VMeta m) "id") as [[| | |id| | | | |]|]; try done.
  destruct (read_attr st mh ("check_" ++ id)) as [f|]; [|done].
  destruct f; try done. unfold call. simpl.
  destruct (heap st !! recv) as [o|]; [|done]. simpl.
  by destruct (methods o !! name) as [[r|e]|].
Qed.

(** The run of [ListAdderNode._object_changed] for a value with a menu
    helper, over registry entries none of whose checks raises. *)
Lemma object_changed_rows st self so value menu_helper ms :
  heap st !! self = Some so →
  attrs so !! "items_list_source" = Some (VList (VMeta <$> ms)) →
  read_attr st value "menu_helper" = Some menu_helper →
  is_Some (read_attr st menu_helper "actions") →
  Forall (λ m, ∃ b, suitable st self value m = Ok b) ms →
  ∃ items st',
    ListAdderNode_object_changed self value st = (Ok tt, st') ∧
    read_attr st' (VRef self) "items_list" = Some (VList items) ∧
    Mutable_attr st' = value ∧
    Forall2 (λ item m,
               is_DocumentedItem st' item (remove_amp (menu_name m))
                 (suitable_flag st self value m)
                 (VStr (help m)) (VStr (src_id m)) value) items ms.
Proof.
  intros Hself Hsrc Hmh [x Hx] Hall.
  assert (is_none value = false) as Hnn by (by destruct value).
  set (s0 := set_Mutable_attr value st).
  destruct (rows_loop_meta s0 self value menu_helper ms) with (result := @nil val) (s := s0)
    as (items & s1 & Hrun & G & Hitems); eauto using grows_refl.
  { eapply Forall_impl; [exact Hall|]. intros m [b Hb]. exists b.
    unfold s0. by rewrite suitable_set_Mutable_attr. }
  pose proof (grows_old _ _ G _ _ Hself) as Hself1.
  eexists items, _. split; [|split; [|split]].
  - unfold ListAdderNode_object_changed. rewrite run_bind, Hnn. cbn [negb].
    rewrite run_bind, (run_getattr_Some _ _ _ _ Hmh).
    rewrite run_bind, (run_getattr_Some _ _ _ _ Hx).
    rewrite run_bind. unfold modify at 1. fold s0.
    assert (read_attr s0 (VRef self) "items_list_source" = Some (VList (VMeta <$> ms)))
      as Hread by (by simpl; rewrite Hself, Hsrc).
    rewrite run_bind, (run_getattr_Some _ _ _ _ Hread).
    rewrite run_bind. cbn [iter].
    change (@mret M _ (list val) (VMeta <$> ms) s0) with (Ok (VMeta <$> ms), s0).
    cbv iota. rewrite Hrun. unfold setattr. by rewrite Hself1.
  - simpl. rewrite lookup_insert_eq. simpl. by rewrite lookup_insert_eq.
  - simpl. by rewrite (grows_Mutable_attr _ _ G).
  - eapply Forall2_impl; [exact Hitems|].
    intros item m (l & -> & Hnone & Hsome). exists l. split; [done|]. simpl.
    rewrite lookup_insert_ne.
    + rewrite Hsome. unfold suitable_flag, s0.
      by rewrite suitable_set_Mutable_attr.
    + intros <-. unfold s0 in Hnone. simpl in Hnone. congruence.
Qed.


Lemma item_obj_read st l name enabled documentation id object :
  heap st !! l = Some (item_obj name enabled documentation id object) →
  read_attr st (VRef l) "name" = Some (VStr name) ∧
  read_attr st (VRef l) "enabled" = Some (VBool enabled) ∧
  read_attr st (VRef l) "documentation" = Some documentation ∧
  read_attr st (VRef l) "id" = Some id ∧
  read_attr st (VRef l) "object" = Some object.
Proof. intros H. simpl. rewrite H. done. Qed.

Lemma setattr_globals v name x st :
  Mutable_attr (snd (setattr v name x st)) = Mutable_attr st ∧
  listeners (snd (setattr v name x st)) = listeners st ∧
  log (snd (setattr v name x st)) = log st.
Proof.
  unfold setattr. destruct v; try done. by destruct (heap st !! l).
Qed.

Lemma grows_build_rows self value st : grows st (snd (build_rows self value st)).
Proof.
  unfold build_rows. apply grows_bind; [apply grows_getattr|]. intros source st1 G1.
  apply (grows_trans _ st1); [done|].
  apply grows_bind; [destruct source; apply grows_refl|]. intros srcs st2 G2.
  apply (grows_trans _ st2); [done|]. apply grows_rows_loop.
Qed.

Lemma run_getattr v name st :
  getattr v name st =
  match read_attr st v name with
  | Some x => (Ok x, st)
  | None => (Err (AttributeError name), st)
  end.
Proof. reflexivity. Qed.

Lemma build_rows_keeps self value st l o :
  heap st !! l = Some o →
  heap (snd (build_rows self value (set_Mutable_attr value st))) !! l = Some o.
Proof.
  intros Hl.
  apply (grows_old _ _ (grows_build_rows self value (set_Mutable_attr value st))).
  exact Hl.
Qed.

Lemma rebuild_outcome self value st :
  ∃ r s,
    ListAdderNode_object_changed self value st = (r, s) ∧
    (r = Ok tt ∨
     ((∀ l o, heap st !! l = Some o → heap s !! l = Some o) ∧
      (Mutable_attr s = Mutable_attr st ∨ Mutable_attr s = value))).
Proof.
  unfold ListAdderNode_object_changed. rewrite run_bind.
  destruct (negb (is_none value)).
  - rewrite run_bind, run_getattr.
    destruct (read_attr st value "menu_helper") as [mh|]; [|eauto 10].
    cbv iota. rewrite run_bind, run_getattr.
    destruct (read_attr st mh "actions") as [x|]; [|eauto 10].
    cbv iota. rewrite run_bind. unfold modify at 1. cbv iota.
    fold (build_rows self value).
    pose proof (grows_build_rows self value (set_Mutable_attr value st)) as G.
    pose proof (build_rows_keeps self value st) as Hkeep.
    destruct (build_rows self value (set_Mutable_attr value st)) as [[rows|e'] s1];
      simpl in G, Hkeep.
    + unfold setattr. destruct (heap s1 !! self) as [so|]; [eauto 10|].
      eexists _, _. split; [done|]. right. split; [done|]. right.
      by rewrite (grows_Mutable_attr _ _ G).
    + eexists _, _. split; [done|]. right. split; [done|]. right.
      by rewrite (grows_Mutable_attr _ _ G).
  - change (@mret M _ (list val) [] st) with (Ok (@nil val), st). cbv iota.
    unfold setattr. destruct (heap st !! self); eauto 10.
Qed.

(** ** When a rebuild returns *)




(** ** The rebuilt list *)




(** ** The list and the registry *)




(** ** The class attribute [Mutable.attr] *)

(** C8 fails as stated: the run for a pipeline object without menu helper
    raises on line 192 and leaves [Mutable.attr] at [None]. *)
Lemma C8_counterexample : ¬ sets_Mutable_attr orphan_example 2 (VRef 1).
Proof. intros H. specialize (H eq_refl). vm_compute in H. discriminate H. Qed.

(** C8 (amended): a run of [ListAdderNode._object_changed] with a value
    other than [None] sets [Mutable.attr] to that value exactly when the
    value's [menu_helper.actions] can be read: it is then set before the rows
    are built and still holds the value when the run ends, however it ends;
    when the menu helper or its actions cannot be read, the run raises
    [AttributeError] for that name and changes nothing; a run with [None]
    leaves [Mutable.attr] as it was. *)
Theorem C8_Mutable_attr_handoff st self :
  (∀ value menu_helper,
     read_attr st value "menu_helper" = Some menu_helper →
     is_Some (read_attr st menu_helper "actions") →
     ListAdderNode_object_changed self value st =
       (build_rows self value ≫= λ result,
          setattr (VRef self) "items_list" (VList result))
         (set_Mutable_attr value st) ∧
     Mutable_attr (snd (ListAdderNode_object_changed self value st)) = value) ∧
  (∀ value,
     is_none value = false →
     read_attr st value "menu_helper" = None →
     ListAdderNode_object_changed self value st =
       (Err (AttributeError "menu_helper"), st)) ∧
  (∀ value menu_helper,
     read_attr st value "menu_helper" = Some menu_helper →
     read_attr st menu_helper "actions" = None →
     ListAdderNode_object_changed self value st =
       (Err (AttributeError "actions"), st)) ∧
  Mutable_attr (snd (ListAdderNode_object_changed self VNone st)) = Mutable_attr st.
Proof.
  split; [|split; [|split]].
  - intros value mh Hmh [x Hx].
    assert (is_none value = false) as Hnn by (by destruct value).
    assert (ListAdderNode_object_changed self value st =
            (build_rows self value ≫= λ result,
               setattr (VRef self) "items_list" (VList result))
              (set_Mutable_attr value st)) as Heq.
    { unfold ListAdderNode_object_changed. rewrite run_bind, Hnn. cbn [negb].
      rewrite run_bind, (run_getattr_Some _ _ _ _ Hmh).
      rewrite run_bind, (run_getattr_Some _ _ _ _ Hx).
      rewrite run_bind. unfold modify at 1. reflexivity. }
    split; [done|]. rewrite Heq, run_bind.
    pose proof (grows_build_rows self value (set_Mutable_attr value st)) as G.
    destruct (build_rows self value (set_Mutable_attr value st)) as [[result|e] s1];
      simpl in G.
    + rewrite (proj1 (setattr_globals _ _ _ _)). by rewrite (grows_Mutable_attr _ _ G).
    + simpl. by rewrite (grows_Mutable_attr _ _ G).
  - intros value Hnn Hmh. unfold ListAdderNode_object_changed.
    rewrite run_bind, Hnn. cbn [negb]. by rewrite run_bind, run_getattr, Hmh.
  - intros value mh Hmh Hx.
    assert (is_none value = false) as Hnn by (by destruct value).
    unfold ListAdderNode_object_changed. rewrite run_bind, Hnn. cbn [negb].
    rewrite run_bind, (run_getattr_Some _ _ _ _ Hmh).
    by rewrite run_bind, run_getattr, Hx.
  - exact (proj1 (setattr_globals (VRef self) "items_list" (VList []) st)).
Qed.

Lemma C8_witness :
  ListAdderNode_object_changed 2 (VRef 1) list_example =
    (build_rows 2 (VRef 1) ≫= λ result,
       setattr (VRef 2) "items_list" (VList result))
      (set_Mutable_attr (VRef 1) list_example) ∧
  Mutable_attr (snd (ListAdderNode_object_changed 2 (VRef 1) list_example)) = VRef 1.
Proof.
  apply (proj1 (C8_Mutable_attr_handoff list_example 2) (VRef 1) (VRef 0)).
  - reflexivity.
  - exists (VList []). reflexivity.
Defined.

(** ** The data-source adder *)

Lemma suitable_SourceAdderNode st self so value m :
  heap st !! self = Some so →
  resolves_to_SourceAdderNode (mro so) = true →
  suitable st self value m = Ok true.
Proof.
  intros Hself Hres. unfold suitable, is_action_suitable. rewrite run_bind.
  unfold gets, mro_of. by rewrite Hself, Hres.
Qed.

(** C9: [SourceAdderNode] overrides the suitability check to return [True]
    for every object and registry entry, so every row it builds is enabled,
    whatever checks the menu helper has; its candidate list, which the node
    is created with, holds exactly the registry sources whose list of
    extensions is empty. *)
Theorem C9_source_adder (registry : Registry) :
  (∀ self object src st,
     SourceAdderNode._is_action_suitable self object src st = (Ok true, st)) ∧
  (∀ st self so value menu_helper ms,
     heap st !! self = Some so →
     resolves_to_SourceAdderNode (mro so) = true →
     attrs so !! "items_list_source" = Some (VList (VMeta <$> ms)) →
     read_attr st value "menu_helper" = Some menu_helper →
     is_Some (read_attr st menu_helper "actions") →
     ∃ items st',
       ListAdderNode_object_changed self value st = (Ok tt, st') ∧
       read_attr st' (VRef self) "items_list" = Some (VList items) ∧
       Forall2 (λ item m,
                  read_attr st' item "id" = Some (VStr (src_id m)) ∧
                  read_attr st' item "enabled" = Some (VBool true)) items ms) ∧
  (∀ source,
     source ∈ SourceAdderNode.items_list_source registry ↔
     source ∈ sources registry ∧ extensions source = []) ∧
  (∀ st, ∃ self st',
     SourceAdderNode.new registry st = (Ok (VRef self), st') ∧
     resolves_to_SourceAdderNode (mro_of st' (VRef self)) = true ∧
     read_attr st' (VRef self) "items_list_source" =
     Some (VList (VMeta <$> SourceAdderNode.items_list_source registry))).
Proof.
  split; [done|]. split; [|split].
  - intros st self so value mh ms Hself Hres Hsrc Hmh Hact.
    destruct (object_changed_rows st self so value mh ms)
      as (items & st' & Hrun & Hlist & _ & Hitems); eauto.
    { apply Forall_forall. intros m _. exists true.
      by eapply suitable_SourceAdderNode. }
    exists items, st'. split; [done|]. split; [done|].
    eapply Forall2_impl; [exact Hitems|]. intros item m (l & -> & Hl).
    destruct (item_obj_read _ _ _ _ _ _ _ Hl) as (_ & Hen & _ & Hid & _).
    split; [done|]. rewrite Hen. unfold suitable_flag.
    by erewrite suitable_SourceAdderNode.
  - intros source. unfold SourceAdderNode.items_list_source.
    rewrite list_elem_of_filter. split.
    + intros [Hlen Hin]. split; [done|]. by apply nil_length_inv.
    + intros [Hin Hnil]. split; [|done]. by rewrite Hnil.
  - intros st. eexists _, _. split; [reflexivity|]. split.
    + simpl. by rewrite lookup_insert_eq.
    + simpl. by rewrite lookup_insert_eq.
Qed.

Lemma C9_witness :
  ∃ items st',
    ListAdderNode_object_changed 2 (VRef 1) source_example = (Ok tt, st') ∧
    read_attr st' (VRef 2) "items_list" = Some (VList items) ∧
    Forall2 (λ item m,
               read_attr st' item "id" = Some (VStr (src_id m)) ∧
               read_attr st' item "enabled" = Some (VBool true))
      items [outline_entry; axes_entry].
Proof.
  apply (proj1 (proj2 (C9_source_adder {| sources := []; modules := []; filters := [] |}))
           source_example 2 source_node_example (VRef 1) (VRef 0)
           [outline_entry; axes_entry]).
  - reflexivity.
  - reflexivity.
  - reflexivity.
  - reflexivity.
  - exists (VList []). reflexivity.
Defined.

(** ** Frames of nested notifications *)

Lemma modifies_refl W st : modifies W st st.
Proof. split; [eauto| |done]. intros l o H1 H2. congruence. Qed.

Lemma modifies_trans W W' st1 st2 st3 :
  modifies W st1 st2 → modifies W' st2 st3 →
  (∀ l name, is_Some (heap st1 !! l) → W' l name → W l name) →
  modifies W st1 st3.
Proof.
  intros [A1 B1 C1] [A2 B2 C2] HW. split; [| |congruence].
  - intros l o Hl. destruct (A1 _ _ Hl) as (o2 & Hl2 & Hm2 & Ha2).
    destruct (A2 _ _ Hl2) as (o3 & Hl3 & Hm3 & Ha3).
    exists o3. split; [done|]. split; [congruence|]. intros name Hn.
    rewrite Ha3, Ha2; [done|done|]. intros HW'. apply Hn, HW; eauto.
  - intros l o3 Hl1 Hl3. destruct (heap st2 !! l) as [o2|] eqn:Hl2.
    + destruct (A2 _ _ Hl2) as (o3' & Hl3' & Hm3 & _).
      rewrite Hl3 in Hl3'. injection Hl3' as <-. rewrite Hm3. eauto.
    + eauto.
Qed.

Lemma modifies_weaken (W W' : loc → string → Prop) st st' :
  modifies W st st' → (∀ l name, W l name → W' l name) → modifies W' st st'.
Proof.
  intros [A B C] HW. split; [|done|done].
  intros l o Hl. destruct (A _ _ Hl) as (o' & Hl' & Hm & Ha).
  exists o'. split; [done|]. split; [done|]. intros name Hn. apply Ha. eauto.
Qed.

Lemma rank_item name enabled documentation id object :
  rank (mro (item_obj name enabled documentation id object)) = 0.
Proof. reflexivity. Qed.

Lemma grows_modifies W st st' : grows st st' → modifies W st st'.
Proof.
  intros [A B _ D _]. split; [|
    |done].
  - intros l o Hl. exists o. eauto.
  - intros l o' Hl Hl'. destruct (B _ _ Hl Hl') as (? & ? & ? & ? & ? & ->).
    apply rank_item.
Qed.

Lemma modifies_add_log W e st : modifies W st (add_log e st).
Proof. split; [eauto| |done]. simpl. intros l o H1 H2. congruence. Qed.

Lemma modifies_setattr st l name x :
  modifies (λ l' name', l' = l ∧ name' = name) st (snd (setattr (VRef l) name x st)).
Proof.
  unfold setattr. destruct (heap st !! l) as [o|] eqn:Hl; [|apply modifies_refl].
  split; [| |done]; simpl.
  - intros l' o' Hl'. destruct (decide (l = l')) as [<-|Hne].
    + rewrite lookup_insert_eq. eexists. split; [done|]. simpl.
      assert (o' = o) as -> by congruence. split; [done|].
      intros name' Hn. rewrite lookup_insert_ne; [done|]. intros <-. by apply Hn.
    + rewrite lookup_insert_ne by done. exists o'. eauto.
  - intros l' o' Hnone. destruct (decide (l = l')) as [<-|Hne]; [congruence|].
    rewrite lookup_insert_ne by done. congruence.
Qed.

Lemma modifies_swallow W (m : M unit) st0 st :
  modifies W st0 (snd (m st)) → modifies W st0 (snd (swallow m st)).
Proof.
  unfold swallow. destruct (m st) as [[[]|e] st']; [done|]. simpl. intros H.
  eapply modifies_trans; [exact H|apply (modifies_add_log W)|done].
Qed.

Lemma wf_modifies W st st' :
  wf st → modifies W st st' →
  (∀ l name, W l name → name ≠ "filters" ∧ name ≠ "modules") →
  wf st'.
Proof.
  intros Hwf [A B _] HW l o' name c Hl' Hrank Hname Hc.
  destruct (heap st !! l) as [o|] eqn:Hl.
  - destruct (A _ _ Hl) as (o'' & Hl'' & Hm & Ha).
    assert (o'' = o') as -> by congruence.
    rewrite Ha in Hc.
    + rewrite Hm in Hrank. pose proof (Hwf l o name c Hl Hrank Hname Hc) as Hc0.
      unfold rank_of, mro_of in *. destruct c; try done.
      destruct (heap st !! l0) as [oc|] eqn:Hlc.
      * destruct (A _ _ Hlc) as (oc' & -> & -> & _). done.
      * destruct (heap st' !! l0) as [oc'|] eqn:Hlc'; [|done]. eauto.
    + intros HWn. apply HW in HWn. destruct HWn. destruct Hname; congruence.
  - rewrite (B _ _ Hl Hl') in Hrank. done.
Qed.

Lemma modifies_bind_getattr {B} W v name (f : val → M B) st :
  (∀ x, read_attr st v name = Some x → modifies W st (snd (f x st))) →
  modifies W st (snd ((getattr v name ≫= f) st)).
Proof.
  intros Hf. rewrite run_bind. unfold getattr.
  destruct (read_attr st v name) as [x|]; [by apply Hf|apply modifies_refl].
Qed.

Lemma modifies_step {A B} W (m : M A) (f : A → M B) st :
  modifies W st (snd (m st)) →
  (∀ a st', m st = (Ok a, st') → modifies W st st' →
            modifies W st' (snd (f a st'))) →
  (∀ l name, W l name → W l name) →
  modifies W st (snd ((m ≫= f) st)).
Proof.
  intros Hm Hf _. rewrite run_bind. destruct (m st) as [[a|e] st'] eqn:Heq; [|done].
  simpl in Hm. eapply modifies_trans; [exact Hm|by apply Hf|done].
Qed.

Lemma written_back W k st st' l name :
  modifies W st st' → is_Some (heap st !! l) → written k st' l name →
  written k st l name.
Proof.
  intros [A _ _] [o Hl] [(o' & Hl' & Hr) Hn]. split; [|done].
  destruct (A _ _ Hl) as (o'' & Hl'' & Hm & _).
  exists o. split; [done|]. assert (o'' = o') as -> by congruence. by rewrite <- Hm.
Qed.

Lemma modifies_set_Mutable_attr W v st : modifies W st (set_Mutable_attr v st).
Proof. split; [eauto| |done]. simpl. intros l o H1 H2. congruence. Qed.

Lemma ListAdderNode_object_changed_modifies self value st :
  modifies (λ l name, l = self ∧ name = "items_list") st
    (snd (ListAdderNode_object_changed self value st)).
Proof.
  unfold ListAdderNode_object_changed.
  apply modifies_step; [| |done].
  - destruct (negb (is_none value)); [|apply modifies_refl].
    apply modifies_bind_getattr. intros mh _.
    apply modifies_bind_getattr. intros x _.
    rewrite run_bind. unfold modify at 1.
    eapply (modifies_trans _ (λ l name, l = self ∧ name = "items_list"));
      [apply modifies_set_Mutable_attr| |done].
    apply grows_modifies, grows_build_rows.
  - intros result st' _ _. apply modifies_setattr.
Qed.

Lemma ModuleAdderNode_object_changed_modifies self value st :
  modifies (λ l name, l = self ∧ name = "items_list") st
    (snd (ModuleAdderNode._object_changed self value st)).
Proof.
  unfold ModuleAdderNode._object_changed.
  apply modifies_step; [| |done].
  - destruct (negb (is_none value)); [|apply modifies_refl].
    apply modifies_bind_getattr. intros mh _.
    apply modifies_bind_getattr. intros f _.
    rewrite run_bind. pose proof (grows_call f [] st) as G.
    destruct (call f [] st) as [[r|e] st']; by apply grows_modifies.
  - intros _ st' _ _. apply ListAdderNode_object_changed_modifies.
Qed.

Lemma read_attr_rank st l o name c :
  wf st → heap st !! l = Some o → rank (mro o) = 1 →
  name = "filters" ∨ name = "modules" →
  read_attr st (VRef l) name = Some c → rank_of st c = 0.
Proof.
  intros Hwf Hl Hr Hname Hread. simpl in Hread. rewrite Hl in Hread.
  destruct (attrs o !! name) as [c'|] eqn:Hc.
  - injection Hread as <-. eauto.
  - destruct (methods o !! name); [|done]. by injection Hread as <-.
Qed.

Section ModuleFilterFrame.
Variable set_obj : val → val → M unit.
Hypothesis set_obj_modifies : ∀ target v s,
  wf s → rank_of s target = 0 →
  modifies (written 0 s) s (snd (set_obj target v s)).

Lemma written_not_lists k st l name :
  written k st l name → name ≠ "filters" ∧ name ≠ "modules".
Proof. intros [_ [-> | ->]]; done. Qed.

Lemma ModuleFilterAdderNode_object_changed_modifies self o st :
  wf st → heap st !! self = Some o → rank (mro o) = 1 →
  modifies (written 0 st) st
    (snd (ModuleFilterAdderNode._object_changed set_obj self st)).
Proof.
  intros Hwf Hself Hrank. unfold ModuleFilterAdderNode._object_changed.
  apply modifies_bind_getattr. intros object _.
  apply modifies_bind_getattr. intros filters Hfilters.
  assert (rank_of st filters = 0) as Hf
    by (eapply (read_attr_rank st self o "filters"); eauto).
  rewrite run_bind. pose proof (set_obj_modifies filters object st Hwf Hf) as H1.
  destruct (set_obj filters object st) as [[[]|e] st1]; [|done]. simpl in H1.
  assert (wf st1) as Hwf1 by (eapply wf_modifies; eauto using written_not_lists).
  destruct (modifies_old _ _ _ H1 _ _ Hself) as (o1 & Hself1 & Hmro1 & _).
  eapply (modifies_trans _ (written 0 st1)); [exact H1| |];
    [|intros l name Hl Hw; eapply written_back; eauto].
  apply modifies_bind_getattr. intros object1 _.
  apply modifies_bind_getattr. intros modules Hmodules.
  apply set_obj_modifies; [done|].
  eapply (read_attr_rank st1 self o1 "modules"); eauto. by rewrite Hmro1.
Qed.
End ModuleFilterFrame.

(** [set_object] on an allocated object, as one expression. *)
Lemma set_object_run fuel l o value st :
  heap st !! l = Some o →
  set_object (S fuel) (VRef l) value st =
  let st1 := set_heap (<[l := store_object o value]> (heap st)) st in
  let old := default VNone (read_attr st (VRef l) "object") in
  if val_eqb old value then (Ok tt, st1)
  else
    match resolve_object_changed (mro o) with
    | Some EngineAdderNode_handler =>
        swallow (EngineAdderNode._object_changed (set_object fuel) l old value) st1
    | Some ModuleFilterAdderNode_handler =>
        swallow (ModuleFilterAdderNode._object_changed (set_object fuel) l) st1
    | Some ModuleAdderNode_handler =>
        swallow (ModuleAdderNode._object_changed l value) st1
    | Some ListAdderNode_handler =>
        swallow (ListAdderNode_object_changed l value) st1
    | None => (Ok tt, st1)
    end.
Proof.
  intros Hl. cbn [set_object]. rewrite run_bind. unfold gets at 1. cbv iota.
  rewrite run_bind. unfold setattr at 1. rewrite Hl. cbv iota. cbv zeta.
  fold (store_object o value).
  destruct (val_eqb _ value); [done|].
  rewrite run_bind. unfold gets at 1. cbv iota. unfold mro_of, set_heap.
  cbn [heap]. rewrite lookup_insert_eq. cbn [mro store_object].
  by destruct (resolve_object_changed (mro o)) as [[]|].
Qed.

Lemma set_object_unallocated fuel target value st :
  (∀ l, target = VRef l → heap st !! l = None) →
  snd (set_object fuel target value st) = st.
Proof.
  intros Hl. destruct fuel; [done|]. cbn [set_object]. rewrite run_bind.
  unfold gets at 1. cbv iota. rewrite run_bind. unfold setattr at 1.
  destruct target; try done. by rewrite (Hl _ eq_refl).
Qed.

(** Assigning to the [object] of a node of rank at most 1 writes only the
    [object] and [items_list] of nodes of at most that rank. *)
Lemma set_object_modifies fuel : ∀ k target value st,
  wf st → (rank_of st target ≤ k)%nat → (k ≤ 1)%nat →
  modifies (written k st) st (snd (set_object fuel target value st)).
Proof.
  induction fuel as [|fuel IH]; intros k target value st Hwf Hrank Hk;
    [apply modifies_refl|].
  destruct target as [| | | |l| | | |];
    try (rewrite set_object_unallocated; [apply modifies_refl|done]).
  destruct (heap st !! l) as [o|] eqn:Hl.
  2:{ rewrite set_object_unallocated; [apply modifies_refl|congruence]. }
  unfold rank_of, mro_of in Hrank. rewrite Hl in Hrank.
  rewrite (set_object_run _ _ _ _ _ Hl). cbv zeta.
  set (st1 := set_heap (<[l := store_object o value]> (heap st)) st).
  set (old := default VNone (read_attr st (VRef l) "object")).
  assert (modifies (λ l' name, l' = l ∧ name = "object") st st1) as H1.
  { pose proof (modifies_setattr st l "object" value) as H.
    unfold setattr in H. by rewrite Hl in H. }
  assert (modifies (written k st) st st1) as H1'.
  { eapply modifies_weaken; [exact H1|]. intros l' name [-> ->].
    split; [eauto|by left]. }
  assert (wf st1) as Hwf1.
  { eapply wf_modifies; [exact Hwf|exact H1|]. by intros ? ? [_ ->]. }
  assert (heap st1 !! l = Some (store_object o value)) as Hl1
    by apply lookup_insert_eq.
  destruct (val_eqb old value); [done|].
  pose proof Hrank as Hrk. unfold rank in Hrank.
  destruct (resolve_object_changed (mro o)) as [[]|] eqn:Hres; [lia| | | |done].
  - apply modifies_swallow.
    eapply (modifies_trans _ (written 0 st1)); [exact H1'| |].
    + eapply ModuleFilterAdderNode_object_changed_modifies; [|done|exact Hl1|].
      * intros target' v' s Hs Hr. apply IH; [done|lia|lia].
      * unfold rank. simpl. by rewrite Hres.
    + intros l' name Hl' [(o' & Ho' & Hr') Hname]. split; [|done].
      destruct Hl' as [o'' Hl'']. exists o''. split; [done|].
      destruct (modifies_old _ _ _ H1 _ _ Hl'') as (o3 & Ho3 & Hm3 & _).
      assert (o3 = o') as -> by congruence. rewrite <- Hm3. lia.
  - apply modifies_swallow.
    eapply modifies_trans; [exact H1'|apply ModuleAdderNode_object_changed_modifies|].
    intros l' name _ [-> ->]. split; [eauto|by right].
  - apply modifies_swallow.
    eapply modifies_trans; [exact H1'|apply ListAdderNode_object_changed_modifies|].
    intros l' name _ [-> ->]. split; [eauto|by right].
Qed.

Lemma set_object_result fuel l o value st :
  heap st !! l = Some o →
  fst (set_object (S fuel) (VRef l) value st) = Ok tt.
Proof.
  intros Hl. rewrite (set_object_run _ _ _ _ _ Hl). cbv zeta.
  destruct (val_eqb _ value); [done|].
  destruct (resolve_object_changed (mro o)) as [[]|]; try done;
    unfold swallow;
    match goal with |- context [?m ?s] =>
      match type of (m s) with (result unit * state)%type =>
        by destruct (m s) as [[[]|e] st'] end end.
Qed.

(** After [target.object = value] on a node of rank at most 1 the node holds
    the value: its own handler does not write it back. *)
Lemma set_object_stores fuel l o value st :
  wf st → heap st !! l = Some o → (rank (mro o) ≤ 1)%nat →
  ∃ o', heap (snd (set_object (S fuel) (VRef l) value st)) !! l = Some o' ∧
        mro o' = mro o ∧ attrs o' !! "object" = Some value.
Proof.
  intros Hwf Hl Hrank. rewrite (set_object_run _ _ _ _ _ Hl). cbv zeta.
  set (st1 := set_heap (<[l := store_object o value]> (heap st)) st).
  assert (heap st1 !! l = Some (store_object o value)) as Hl1
    by apply lookup_insert_eq.
  assert (attrs (store_object o value) !! "object" = Some value) as Hv
    by apply lookup_insert_eq.
  assert (wf st1) as Hwf1.
  { eapply wf_modifies; [exact Hwf| |].
    - pose proof (modifies_setattr st l "object" value) as H.
      unfold setattr in H. rewrite Hl in H. exact H.
    - by intros ? ? [_ ->]. }
  assert (∀ W st2, modifies W st1 st2 → ¬ W l "object" →
          ∃ o', heap st2 !! l = Some o' ∧ mro o' = mro o ∧
                attrs o' !! "object" = Some value) as Hkeep.
  { intros W st2 H Hn. destruct (modifies_old _ _ _ H _ _ Hl1) as (o' & Ho' & Hm & Ha).
    exists o'. split; [done|]. split; [done|]. by rewrite Ha. }
  destruct (val_eqb _ value); [eauto|].
  pose proof Hrank as Hrk. unfold rank in Hrank.
  destruct (resolve_object_changed (mro o)) as [[]|] eqn:Hres; [lia| | | |eauto].
  - eapply (Hkeep (written 0 st1)).
    + apply modifies_swallow.
      eapply ModuleFilterAdderNode_object_changed_modifies; [|done|exact Hl1|].
      * intros target' v' s Hs Hr. apply set_object_modifies; [done|lia|lia].
      * unfold rank. simpl. by rewrite Hres.
    + intros [(o' & Ho' & Hr') _]. assert (o' = store_object o value) as -> by congruence.
      unfold rank in Hr'. simpl in Hr'. rewrite Hres in Hr'. lia.
  - eapply Hkeep.
    + apply modifies_swallow, ModuleAdderNode_object_changed_modifies.
    + by intros [_ ?].
  - eapply Hkeep.
    + apply modifies_swallow, ListAdderNode_object_changed_modifies.
    + by intros [_ ?].
Qed.

(** ** The dispatch of [EngineAdderNode] *)

Lemma select_adder_run st self engine obj :
  read_attr st (VRef self) "engine" = Some engine →
  EngineAdderNode.select_adder self obj st = (Ok (four_way_dispatch st engine obj), st).
Proof.
  intros Heng. unfold EngineAdderNode.select_adder, four_way_dispatch.
  rewrite run_bind, (run_getattr_Some _ _ _ _ Heng).
  rewrite run_bind. unfold class_of, gets at 1. cbv iota.
  rewrite run_bind. unfold isinstance at 1, gets at 1. cbv iota.
  destruct (bool_decide (hd "object" (mro_of st engine) ∈ mro_of st obj)); [done|].
  rewrite run_bind. unfold isinstance at 1, gets at 1. cbv iota.
  destruct (bool_decide ("Scene" ∈ mro_of st obj)); [done|].
  rewrite run_bind. unfold isinstance at 1, gets at 1. cbv iota.
  rewrite run_bind. unfold isinstance at 1, gets at 1. cbv iota.
  rewrite run_bind, run_hasattr.
  by destruct (_ || _ || _).
Qed.

Lemma four_way_dispatch_keys st engine obj :
  four_way_dispatch st engine obj = "scene" ∨
  four_way_dispatch st engine obj = "source" ∨
  four_way_dispatch st engine obj = "module-filter".
Proof.
  unfold four_way_dispatch.
  repeat (match goal with |- context [if ?b then _ else _] => destruct b end); auto.
Qed.

Lemma good_adder_modifies W st st' a :
  modifies W st st' → good_adder st a → good_adder st' a.
Proof.
  intros H (la & oa & -> & Hla & Hcls & Hr).
  destruct (modifies_old _ _ _ H _ _ Hla) as (oa' & Hla' & Hm & _).
  exists la, oa'. rewrite Hm. eauto.
Qed.

Lemma adder_node_changed_modifies self new st :
  modifies (λ l name, l = self ∧ name = "label") st
    (snd (EngineAdderNode._adder_node_changed self new st)).
Proof.
  unfold EngineAdderNode._adder_node_changed.
  apply modifies_bind_getattr. intros label _.
  rewrite run_bind. destruct label; try apply modifies_refl.
  apply modifies_setattr.
Qed.

Lemma set_adder_node_spec st self so a :
  heap st !! self = Some so →
  is_Some (attrs so !! "adder_node") →
  good_adder st a →
  ∃ st',
    EngineAdderNode.set_adder_node self a st = (Ok tt, st') ∧
    modifies (λ l name, l = self ∧ (name = "adder_node" ∨ name = "label")) st st' ∧
    ∃ so', heap st' !! self = Some so' ∧ attrs so' !! "adder_node" = Some a.
Proof.
  intros Hself [old Hold] (la & oa & -> & Hla & Hcls & _).
  set (so1 := {| mro := mro so; attrs := <["adder_node" := VRef la]> (attrs so);
                 methods := methods so |}).
  set (st1 := set_heap (<[self := so1]> (heap st)) st).
  assert (modifies (λ l name, l = self ∧ name = "adder_node") st st1) as H1.
  { pose proof (modifies_setattr st self "adder_node" (VRef la)) as H.
    unfold setattr in H. by rewrite Hself in H. }
  assert (heap st1 !! self = Some so1) as Hself1 by apply lookup_insert_eq.
  assert (attrs so1 !! "adder_node" = Some (VRef la)) as Han by apply lookup_insert_eq.
  assert (EngineAdderNode.set_adder_node self (VRef la) st =
          if val_eqb old (VRef la) then (Ok tt, st1)
          else swallow (EngineAdderNode._adder_node_changed self (VRef la)) st1) as ->.
  { unfold EngineAdderNode.set_adder_node. rewrite run_bind.
    unfold validate_Instance. cbn [is_none]. rewrite run_bind.
    unfold isinstance, gets at 1. cbv iota. unfold mro_of. rewrite Hla.
    rewrite bool_decide_eq_true_2 by done.
    change (@mret M _ val (VRef la) st) with (Ok (VRef la), st). cbv iota.
    rewrite run_bind, (run_getattr_Some (VRef self) "adder_node" old);
      [|by simpl; rewrite Hself, Hold].
    rewrite run_bind. unfold setattr at 1. rewrite Hself. cbv iota.
    fold so1. fold st1. by destruct (val_eqb old (VRef la)). }
  destruct (val_eqb old (VRef la)).
  - exists st1. split; [done|]. split; [|eauto].
    eapply modifies_weaken; [exact H1|]. intros ? ? [-> ->]. eauto.
  - pose proof (modifies_swallow _ _ st1 st1
                  (adder_node_changed_modifies self (VRef la) st1)) as H2.
    assert (fst (swallow (EngineAdderNode._adder_node_changed self (VRef la)) st1) = Ok tt)
      as Hok.
    { unfold swallow. by destruct (EngineAdderNode._adder_node_changed _ _ _) as [[[]|e] s]. }
    destruct (swallow _ st1) as [r st2]. simpl in Hok, H2. subst r.
    exists st2. split; [done|]. split.
    + eapply modifies_trans.
      * eapply modifies_weaken; [exact H1|]. intros ? ? [-> ->]. eauto.
      * exact H2.
      * intros ? ? _ [-> ->]. eauto.
    + destruct (modifies_old _ _ _ H2 _ _ Hself1) as (so2 & Hself2 & _ & Ha).
      exists so2. split; [done|]. rewrite Ha; [done|]. by intros [_ ?].
Qed.

Lemma good_adder_rank st a : good_adder st a → (rank_of st a ≤ 1)%nat.
Proof. intros (la & oa & -> & Hla & _ & Hr). unfold rank_of, mro_of. by rewrite Hla. Qed.

Lemma EngineAdderNode_object_changed_spec fuel st self so kvs engine old new a :
  wf st →
  heap st !! self = Some so → rank (mro so) = 2 →
  attrs so !! "adders" = Some (VDict kvs) →
  attrs so !! "engine" = Some engine →
  is_Some (attrs so !! "adder_node") →
  assoc (four_way_dispatch st engine (if py_is new (VRef self) then old else new)) kvs
    = Some a →
  good_adder st a →
  modifies (engine_written st self) st
    (snd (EngineAdderNode._object_changed (set_object fuel) self old new st)) ∧
  ∃ so', heap (snd (EngineAdderNode._object_changed (set_object fuel) self old new st))
           !! self = Some so' ∧
         attrs so' !! "adder_node" = Some a.
Proof.
  intros Hwf Hself Hrank Hadders Hengine Hnode Hkey Hgood.
  unfold EngineAdderNode._object_changed.
  rewrite run_bind, (run_getattr_Some (VRef self) "adders" (VDict kvs));
    [|by simpl; rewrite Hself, Hadders].
  cbv zeta. set (obj := if py_is new (VRef self) then old else new) in *.
  rewrite run_bind, (select_adder_run st self engine);
    [|by simpl; rewrite Hself, Hengine].
  rewrite run_bind. unfold getitem. rewrite Hkey.
  change (@mret M _ val a st) with (Ok a, st). cbv iota.
  destruct (set_adder_node_spec st self so a Hself Hnode Hgood)
    as (st1 & Hrun & H1 & so1 & Hself1 & Han).
  rewrite run_bind, Hrun.
  destruct (modifies_old _ _ _ H1 _ _ Hself) as (so1' & Hself1' & Hmro1 & Hattrs1).
  assert (so1' = so1) as -> by congruence.
  assert (wf st1) as Hwf1.
  { eapply wf_modifies; [exact Hwf|exact H1|]. by intros ? ? [_ [-> | ->]]. }
  assert (good_adder st1 a) as Hgood1 by (by eapply good_adder_modifies).
  assert (read_attr st1 (VRef self) "adder_node" = Some a) as Hread
    by (by simpl; rewrite Hself1, Han).
  assert (modifies (engine_written st self) st st1) as H1'.
  { eapply modifies_weaken; [exact H1|]. intros ? ? [-> ?]. by right. }
  assert (∀ x, modifies (engine_written st self) st
                 (snd (set_object fuel a x st1)) ∧
               ∃ so', heap (snd (set_object fuel a x st1)) !! self = Some so' ∧
                      attrs so' !! "adder_node" = Some a) as Hfinal.
  { intros x.
    pose proof (set_object_modifies fuel 1 a x st1 Hwf1 (good_adder_rank _ _ Hgood1)
                  (le_n 1)) as H2.
    split.
    - eapply modifies_trans; [exact H1'|exact H2|].
      intros l name Hl Hw. left. eapply written_back; eauto.
    - destruct (modifies_old _ _ _ H2 _ _ Hself1) as (so2 & Hself2 & _ & Ha).
      exists so2. split; [done|]. rewrite Ha; [done|].
      intros [(o' & Ho' & Hr') _]. assert (o' = so1) as -> by congruence.
      rewrite Hmro1, Hrank in Hr'. lia. }
  cbv iota. destruct (is_none obj).
  - assert (read_attr st1 (VRef self) "engine" = Some engine) as Hread'.
    { simpl. rewrite Hself1, Hattrs1, Hengine; [done|]. by intros [_ [?|?]]. }
    rewrite run_bind, (run_getattr_Some _ _ _ _ Hread').
    rewrite run_bind, (run_getattr_Some _ _ _ _ Hread). apply Hfinal.
  - rewrite run_bind, (run_getattr_Some _ _ _ _ Hread). apply Hfinal.
Qed.

(** C1: [EngineAdderNode._object_changed(old, new)] looks at [new], or at
    [old] when [new] is the node itself, and makes [adder_node] the adder that
    the four-way check picks among the three of [adders]: [adders['scene']]
    for an instance of the class of the engine, else [adders['source']] for a
    [Scene], else [adders['module-filter']] for a [Source], a [ModuleManager]
    or an object with a [module_manager] attribute, and [adders['scene']]
    otherwise. *)
Theorem C1_object_changed_dispatch fuel st self so kvs engine old new a :
  wf st →
  heap st !! self = Some so →
  resolve_object_changed (mro so) = Some EngineAdderNode_handler →
  attrs so !! "adders" = Some (VDict kvs) →
  attrs so !! "engine" = Some engine →
  is_Some (attrs so !! "adder_node") →
  assoc (four_way_dispatch st engine (if py_is new (VRef self) then old else new)) kvs
    = Some a →
  good_adder st a →
  read_attr (snd (EngineAdderNode._object_changed (set_object fuel) self old new st))
    (VRef self) "adder_node" = Some a ∧
  (four_way_dispatch st engine (if py_is new (VRef self) then old else new) = "scene" ∨
   four_way_dispatch st engine (if py_is new (VRef self) then old else new) = "source" ∨
   four_way_dispatch st engine (if py_is new (VRef self) then old else new)
     = "module-filter").
Proof.
  intros Hwf Hself Hres Hadders Hengine Hnode Hkey Hgood.
  split; [|apply four_way_dispatch_keys].
  destruct (EngineAdderNode_object_changed_spec fuel st self so kvs engine old new a)
    as (_ & so' & Hself' & Han); try done.
  { unfold rank. by rewrite Hres. }
  simpl. by rewrite Hself', Han.
Qed.

Lemma wf_check_sound st : wf_check st = true → wf st.
Proof.
  intros Hcheck l o name c Hl Hrank Hname Hc.
  unfold wf_check in Hcheck. rewrite forallb_forall in Hcheck.
  apply elem_of_map_to_list, list_elem_of_In in Hl.
  specialize (Hcheck _ Hl). simpl in Hcheck. rewrite Hrank in Hcheck. simpl in Hcheck.
  destruct Hname as [-> | ->]; rewrite Hc in Hcheck.
  - apply andb_true_iff in Hcheck as [H _]. by apply Nat.eqb_eq.
  - apply andb_true_iff in Hcheck as [_ H].
    apply andb_true_iff in H as [H _]. by apply Nat.eqb_eq.
Qed.

Lemma C1_witness :
  read_attr (snd (EngineAdderNode._object_changed (set_object 3) 5 VNone (VRef 7)
                    engine_example))
    (VRef 5) "adder_node" = Some (VRef 1) ∧
  (four_way_dispatch engine_example (VRef 8)
     (if py_is (VRef 7) (VRef 5) then VNone else VRef 7) = "scene" ∨
   four_way_dispatch engine_example (VRef 8)
     (if py_is (VRef 7) (VRef 5) then VNone else VRef 7) = "source" ∨
   four_way_dispatch engine_example (VRef 8)
     (if py_is (VRef 7) (VRef 5) then VNone else VRef 7) = "module-filter").
Proof.
  eapply (C1_object_changed_dispatch 3 engine_example 5 _
            [("scene", VRef 0); ("source", VRef 1); ("module-filter", VRef 4)]
            (VRef 8) VNone (VRef 7) (VRef 1)).
  - apply wf_check_sound. vm_compute. reflexivity.
  - vm_compute. reflexivity.
  - vm_compute. reflexivity.
  - vm_compute. reflexivity.
  - vm_compute. reflexivity.
  - exists (VRef 0). vm_compute. reflexivity.
  - vm_compute. reflexivity.
  - eexists 1, _. split; [reflexivity|]. split; [vm_compute; reflexivity|].
    split; [|vm_compute; lia]. vm_compute. apply list_elem_of_In. simpl. tauto.
Defined.

(** ** The engine of an [EngineAdderNode] *)

Lemma holds_read st l name x : holds st l name x → read_attr st (VRef l) name = Some x.
Proof. intros (o & Hl & Ha). simpl. by rewrite Hl, Ha. Qed.

Lemma engine_object_written_names st self l name :
  engine_object_written st self l name →
  name = "object" ∨ name = "items_list" ∨ name = "adder_node" ∨ name = "label".
Proof. intros [[[_ [->| ->]]|[_ [->| ->]]]|[_ ->]]; auto. Qed.

Lemma heap_swallow (m : M unit) st : heap (snd (swallow m st)) = heap (snd (m st)).
Proof. unfold swallow. by destruct (m st) as [[[]|e] st']. Qed.

Lemma engine_ok_modifies st st' self :
  engine_ok st self →
  modifies (engine_object_written st self) st st' →
  (∃ so' node', heap st' !! self = Some so' ∧
                attrs so' !! "adder_node" = Some node' ∧ good_adder st' node') →
  engine_ok st' self.
Proof.
  intros (so & kvs & engine & node & Hself & Hres & Hadders & Hengine & _ & _ & Hall)
         H (so' & node' & Hself' & Hnode' & Hgood').
  destruct (modifies_old _ _ _ H _ _ Hself) as (so'' & Hself'' & Hmro & Hattrs).
  assert (so'' = so') as -> by congruence.
  exists so', kvs, engine, node'. rewrite Hmro. split; [done|]. split; [done|].
  split; [|split; [|split; [done|split; [done|]]]].
  - rewrite Hattrs; [done|]. intros Hw.
    by destruct (engine_object_written_names _ _ _ _ Hw) as [?|[?|[?|?]]].
  - rewrite Hattrs; [done|]. intros Hw.
    by destruct (engine_object_written_names _ _ _ _ Hw) as [?|[?|[?|?]]].
  - intros key Hkey. destruct (Hall key Hkey) as (a & Ha & Hgood).
    exists a. split; [done|]. by eapply good_adder_modifies.
Qed.

(** [self.object = value] on an [EngineAdderNode]: the node holds the
    value afterwards, and stays an [EngineAdderNode] with good adders. *)
Lemma set_engine_object_spec fuel st self value :
  wf st → engine_ok st self →
  fst (set_object (S fuel) (VRef self) value st) = Ok tt ∧
  modifies (engine_object_written st self) st
    (snd (set_object (S fuel) (VRef self) value st)) ∧
  wf (snd (set_object (S fuel) (VRef self) value st)) ∧
  engine_ok (snd (set_object (S fuel) (VRef self) value st)) self ∧
  holds (snd (set_object (S fuel) (VRef self) value st)) self "object" value.
Proof.
  intros Hwf Hok.
  pose proof Hok as (so & kvs & engine & node & Hself & Hres & Hadders & Hengine
                     & Hnode & Hgood & Hall).
  split; [by eapply set_object_result|].
  assert (rank (mro so) = 2) as Hrank by (unfold rank; by rewrite Hres).
  rewrite (set_object_run _ _ _ _ _ Hself). cbv zeta.
  set (st1 := set_heap (<[self := store_object so value]> (heap st)) st).
  set (old := default VNone (read_attr st (VRef self) "object")).
  assert (modifies (λ l' name, l' = self ∧ name = "object") st st1) as H1.
  { pose proof (modifies_setattr st self "object" value) as H.
    unfold setattr in H. by rewrite Hself in H. }
  assert (modifies (engine_object_written st self) st st1) as H1'.
  { eapply modifies_weaken; [exact H1|]. intros ? ? [-> ->]. by right. }
  assert (wf st1) as Hwf1.
  { eapply wf_modifies; [exact Hwf|exact H1|]. by intros ? ? [_ ->]. }
  assert (heap st1 !! self = Some (store_object so value)) as Hself1
    by apply lookup_insert_eq.
  assert (attrs (store_object so value) !! "object" = Some value) as Hv
    by apply lookup_insert_eq.
  assert (attrs (store_object so value) !! "adder_node" = Some node) as Hnode1
    by (simpl; by rewrite lookup_insert_ne).
  assert (wf st1 ∧ engine_ok st1 self ∧ holds st1 self "object" value) as Hst1.
  { split; [done|]. split.
    - eapply engine_ok_modifies; [exact Hok|exact H1'|].
      exists (store_object so value), node. split; [done|]. split; [done|].
      by eapply good_adder_modifies.
    - by exists (store_object so value). }
  destruct (val_eqb old value); [by split|].
  rewrite Hres.
  set (obj := if py_is value (VRef self) then old else value).
  destruct (Hall _ (four_way_dispatch_keys st1 engine obj)) as (a & Ha & Hgooda).
  destruct (EngineAdderNode_object_changed_spec fuel st1 self
              (store_object so value) kvs engine old value a)
    as (H2 & so2 & Hself2 & Han2);
    try done; try (simpl; by rewrite lookup_insert_ne);
    try (by eapply good_adder_modifies).
  pose proof (modifies_swallow _ _ st1 st1 H2) as H2'.
  assert (modifies (engine_object_written st self) st
            (snd (swallow (EngineAdderNode._object_changed (set_object fuel)
                             self old value) st1))) as H3.
  { eapply modifies_trans; [exact H1'|exact H2'|].
    intros l name Hl [Hw|Hw]; [|left; by right].
    left. left. eapply written_back; eauto. }
  destruct (modifies_old _ _ _ H2' _ _ Hself1) as (so3 & Hself3 & Hmro3 & Hattrs3).
  assert (attrs so3 !! "adder_node" = Some a) as Han3
    by (rewrite heap_swallow in Hself3; congruence).
  split; [done|]. split; [|split].
  - eapply wf_modifies; [exact Hwf|exact H3|]. intros ? ? Hw.
    by destruct (engine_object_written_names _ _ _ _ Hw) as [->|[->|[->| ->]]].
  - eapply engine_ok_modifies; [exact Hok|exact H3|].
    exists so3, a. split; [done|]. split; [done|].
    eapply good_adder_modifies; [exact H3|done].
  - exists so3. split; [done|]. rewrite Hattrs3, Hv; [done|].
    intros [[(o' & Ho' & Hr') _]|[_ [?|?]]]; try done.
    assert (o' = store_object so value) as -> by congruence.
    simpl in Hr'. lia.
Qed.

Lemma wf_heap_eq st st' : heap st' = heap st → wf st → wf st'.
Proof.
  intros Heq Hwf l o name c. unfold rank_of, mro_of. rewrite Heq.
  apply (Hwf l o name c).
Qed.

Lemma good_adder_heap_eq st st' a : heap st' = heap st → good_adder st a → good_adder st' a.
Proof. intros Heq. unfold good_adder. by rewrite Heq. Qed.

Lemma engine_ok_heap_eq st st' self :
  heap st' = heap st → engine_ok st self → engine_ok st' self.
Proof.
  intros Heq (so & kvs & engine & node & Hself & Hres & Hadders & Hengine & Hnode
              & Hgood & Hall).
  exists so, kvs, engine, node. rewrite Heq.
  repeat (split; [done|]). split; [by eapply good_adder_heap_eq|].
  intros key Hkey. destruct (Hall key Hkey) as (a & Ha & Hgooda).
  exists a. split; [done|]. by eapply good_adder_heap_eq.
Qed.

Lemma read_attr_heap_eq st st' v name :
  heap st' = heap st → read_attr st' v name = read_attr st v name.
Proof. intros Heq. destruct v; try done. simpl. by rewrite Heq. Qed.

Lemma on_trait_change_spec l o self name remove st :
  heap st !! l = Some o →
  ∃ st',
    on_trait_change (VRef l) self name remove st = (Ok tt, st') ∧
    heap st' = heap st ∧
    ∀ x, x ∈ listeners st' ↔
         if remove then x ∈ listeners st ∧ x ≠ (l, name, self)
         else x ∈ listeners st ∨ x = (l, name, self).
Proof.
  intros Hl. unfold on_trait_change. rewrite run_bind. unfold gets at 1. cbv iota.
  rewrite bool_decide_eq_true_2 by eauto. destruct remove.
  - eexists. split; [reflexivity|]. split; [done|]. intros x. simpl.
    rewrite list_elem_of_filter. tauto.
  - unfold modify. destruct (bool_decide ((l, name, self) ∈ listeners st)) eqn:Hin.
    + eexists. split; [reflexivity|]. split; [done|]. intros x.
      apply bool_decide_eq_true_1 in Hin. split; [auto|]. by intros [?| ->].
    + eexists. split; [reflexivity|]. split; [done|]. intros x. simpl.
      rewrite elem_of_app, list_elem_of_singleton. tauto.
Qed.

Lemma engine_ok_frame W st st' node :
  engine_ok st node → modifies W st st' →
  (∀ name, W node name →
           name ≠ "adders" ∧ name ≠ "engine" ∧ name ≠ "adder_node") →
  engine_ok st' node.
Proof.
  intros (so & kvs & engine & an & Hself & Hres & Hadders & Hengine & Hnode & Hgood
          & Hall) H HW.
  destruct (modifies_old _ _ _ H _ _ Hself) as (so' & Hself' & Hmro & Hattrs).
  exists so', kvs, engine, an. rewrite Hmro. split; [done|]. split; [done|].
  split; [|split; [|split; [|split]]].
  - rewrite Hattrs; [done|]. intros Hw. by destruct (HW _ Hw) as (? & ? & ?).
  - rewrite Hattrs; [done|]. intros Hw. by destruct (HW _ Hw) as (? & ? & ?).
  - rewrite Hattrs; [done|]. intros Hw. by destruct (HW _ Hw) as (? & ? & ?).
  - by eapply good_adder_modifies.
  - intros key Hkey. destruct (Hall key Hkey) as (a & Ha & Hgooda).
    exists a. split; [done|]. by eapply good_adder_modifies.
Qed.

Lemma engine_ok_rank st node so :
  engine_ok st node → heap st !! node = Some so → rank (mro so) = 2.
Proof.
  intros (so' & ? & ? & ? & Hself & Hres & _) Hso.
  assert (so' = so) as -> by congruence. unfold rank. by rewrite Hres.
Qed.

(** Another [EngineAdderNode] is not touched by an assignment to the
    [object] of this one. *)
Lemma engine_ok_other st st' node other :
  engine_ok st other → other ≠ node →
  modifies (engine_object_written st node) st st' →
  engine_ok st' other ∧
  ∀ x, holds st other "object" x → holds st' other "object" x.
Proof.
  intros Hok Hne H.
  assert (∀ name, ¬ engine_object_written st node other name) as Hnot.
  { intros name [[[(o' & Ho' & Hr) _]|[? _]]|[? _]]; try done.
    rewrite (engine_ok_rank _ _ _ Hok Ho') in Hr. lia. }
  split.
  - eapply engine_ok_frame; [exact Hok|exact H|]. intros name Hw. by destruct (Hnot name).
  - intros x (so & Hself & Hx).
    destruct (modifies_old _ _ _ H _ _ Hself) as (so' & Hself' & _ & Hattrs).
    exists so'. split; [done|]. rewrite Hattrs by apply Hnot. done.
Qed.

Lemma swallow_ok (m : M unit) st :
  fst (m st) = Ok tt → swallow m st = (Ok tt, snd (m st)).
Proof. unfold swallow. destruct (m st) as [[[]|e] st']; [done|]. simpl. congruence. Qed.

(** Notifying the listeners of a trait writes the value into the [object]
    of every [EngineAdderNode] that listens. *)
Lemma notify_writes fuel source trait value self : ∀ ls st,
  wf st →
  (∀ node, (source, trait, node) ∈ ls → engine_ok st node) →
  engine_ok st self →
  (source, trait, self) ∈ ls ∨ holds st self "object" value →
  holds (snd (notify (S fuel) ls source trait value st)) self "object" value.
Proof.
  induction ls as [|[[l n] node] rest IH]; intros st Hwf Hall Hself Hcase.
  - destruct Hcase as [Hin|H]; [by apply elem_of_nil in Hin|done].
  - cbn [notify]. rewrite run_bind.
    destruct (bool_decide (l = source ∧ n = trait)) eqn:Hb.
    + apply bool_decide_eq_true_1 in Hb as [-> ->].
      assert (engine_ok st node) as Hnode by (apply Hall; left).
      destruct (set_engine_object_spec fuel st node value Hwf Hnode)
        as (Hr & Hmod & Hwf1 & Hok1 & Hholds).
      unfold EngineAdderNode_change_object. rewrite (swallow_ok _ _ Hr). cbv iota.
      apply IH; [done| | |].
      * intros node' Hin. destruct (decide (node' = node)) as [->|Hne]; [done|].
        eapply engine_ok_other; [apply Hall; by right|done|exact Hmod].
      * destruct (decide (self = node)) as [->|Hne]; [done|].
        eapply engine_ok_other; [done|done|exact Hmod].
      * destruct (decide (self = node)) as [->|Hne]; [by right|].
        destruct Hcase as [Hin|Hh].
        -- left. apply elem_of_cons in Hin as [[=]|Hin]; [congruence|done].
        -- right. eapply engine_ok_other; [exact Hself|done|exact Hmod|done].
    + change ((mret tt : M unit) st) with (Ok tt, st). cbv iota.
      apply IH; [done| |done|].
      * intros node' Hin. apply Hall. by right.
      * destruct Hcase as [Hin|Hh]; [|by right]. left.
        apply elem_of_cons in Hin as [[= <- <- <-]|Hin]; [|done].
        apply bool_decide_eq_false_1 in Hb. by destruct Hb.
Qed.

(** A change of [engine.current_selection] is written into the [object] of
    an [EngineAdderNode] that listens to it. *)
Lemma current_selection_written fuel st engine o self value :
  wf st →
  heap st !! engine = Some o →
  (∀ node, (engine, "current_selection", node) ∈ listeners st → engine_ok st node) →
  (engine, "current_selection", self) ∈ listeners st →
  val_eqb (default VNone (read_attr st (VRef engine) "current_selection")) value = false →
  holds (snd (set_current_selection (S fuel) engine value st)) self "object" value.
Proof.
  intros Hwf Hengine Hall Hin Hchanged. unfold set_current_selection.
  rewrite run_bind. unfold gets at 1. cbv iota. rewrite Hchanged.
  pose proof (modifies_setattr st engine "current_selection" value) as H1.
  rewrite run_bind. unfold setattr in *. rewrite Hengine in *. simpl in H1. cbv iota.
  set (st1 := set_heap _ st) in *.
  rewrite run_bind. unfold gets at 1. cbv iota.
  assert (∀ node, engine_ok st node → engine_ok st1 node) as Hkeep.
  { intros node Hok. eapply engine_ok_frame; [exact Hok|exact H1|].
    by intros name [_ ->]. }
  apply notify_writes.
  - eapply wf_modifies; [exact Hwf|exact H1|]. by intros ? ? [_ ->].
  - intros node Hnode. apply Hkeep, Hall, Hnode.
  - apply Hkeep, Hall, Hin.
  - by left.
Qed.

(** C7: when [engine] is set, the listener on [current_selection] is taken
    off the old engine (if there is one) and put on the new one, [object]
    becomes the new engine's [current_selection], and when that selection is
    [None] the [object] of the adder node in use becomes the new engine;
    from then on a change of the engine's [current_selection] is written
    into the [object] of every [EngineAdderNode] that listens to it. *)
Theorem C7_engine_changed fuel st self old ln on sel :
  wf st → engine_ok st self →
  (old = VNone ∨ ∃ lo, old = VRef lo ∧ is_Some (heap st !! lo)) →
  heap st !! ln = Some on →
  read_attr st (VRef ln) "current_selection" = Some sel →
  fst (EngineAdderNode_engine_changed (S fuel) self old (VRef ln) st) = Ok tt ∧
  (ln, "current_selection", self)
    ∈ listeners (snd (EngineAdderNode_engine_changed (S fuel) self old (VRef ln) st)) ∧
  (∀ lo, old = VRef lo → lo ≠ ln →
     (lo, "current_selection", self)
       ∉ listeners (snd (EngineAdderNode_engine_changed (S fuel) self old (VRef ln) st))) ∧
  read_attr (snd (EngineAdderNode_engine_changed (S fuel) self old (VRef ln) st))
    (VRef self) "object" = Some sel ∧
  (sel = VNone →
   ∃ a,
     read_attr (snd (EngineAdderNode_engine_changed (S fuel) self old (VRef ln) st))
       (VRef self) "adder_node" = Some a ∧
     read_attr (snd (EngineAdderNode_engine_changed (S fuel) self old (VRef ln) st))
       a "object" = Some (VRef ln)) ∧
  wf (snd (EngineAdderNode_engine_changed (S fuel) self old (VRef ln) st)) ∧
  engine_ok (snd (EngineAdderNode_engine_changed (S fuel) self old (VRef ln) st)) self ∧
  (∀ s o value,
     wf s → heap s !! ln = Some o →
     (∀ node, (ln, "current_selection", node) ∈ listeners s → engine_ok s node) →
     (ln, "current_selection", self) ∈ listeners s →
     val_eqb (default VNone (read_attr s (VRef ln) "current_selection")) value = false →
     read_attr (snd (set_current_selection (S fuel) ln value s)) (VRef self) "object"
       = Some value).
Proof.
  intros Hwf Hok Hold Hln Hsel.
  assert (∃ sA,
            (if negb (is_none old)
             then on_trait_change old self "current_selection" true
             else mret tt) st = (Ok tt, sA) ∧
            heap sA = heap st ∧
            ∀ lo, old = VRef lo → (lo, "current_selection", self) ∉ listeners sA)
    as (sA & HrunA & HheapA & HlsA).
  { destruct Hold as [-> | (lo & -> & [oo Hlo])].
    - exists st. split; [done|]. split; [done|]. by intros lo [=].
    - destruct (on_trait_change_spec lo oo self "current_selection" true st Hlo)
        as (sA & Hrun & Hheap & Hls).
      exists sA. split; [done|]. split; [done|]. intros lo' [= <-] Hin.
      apply Hls in Hin as [_ Hne]. done. }
  destruct (on_trait_change_spec ln on self "current_selection" false sA)
    as (sB & HrunB & HheapB & HlsB); [by rewrite HheapA|].
  assert (heap sB = heap st) as Hheap by congruence.
  assert (read_attr sB (VRef ln) "current_selection" = Some sel) as HselB
    by (by rewrite (read_attr_heap_eq st sB)).
  destruct (set_engine_object_spec fuel sB self sel)
    as (Hr4 & H4 & Hwf4 & Hok4 & Hholds4);
    [by eapply wf_heap_eq|by eapply engine_ok_heap_eq|].
  unfold EngineAdderNode_engine_changed.
  rewrite run_bind, HrunA. rewrite run_bind, HrunB.
  rewrite run_bind, (run_getattr_Some _ _ _ _ HselB). rewrite run_bind.
  destruct (set_object (S fuel) (VRef self) sel sB) as [r4 s4]. cbn [fst snd] in *.
  subst r4. cbv iota.
  rewrite run_bind, (run_getattr_Some _ _ _ _ (holds_read _ _ _ _ Hholds4)).
  assert (listeners s4 = listeners sB) as Hls4 by apply (modifies_listeners _ _ _ H4).
  assert ((ln, "current_selection", self) ∈ listeners sB) as HinB
    by (apply HlsB; by right).
  assert (∀ lo, old = VRef lo → lo ≠ ln →
                (lo, "current_selection", self) ∉ listeners sB) as HoutB.
  { intros lo Hlo Hne Hin. apply HlsB in Hin as [Hin|[=]]; [|done].
    by apply (HlsA lo). }
  assert (∀ s o value,
     wf s → heap s !! ln = Some o →
     (∀ node, (ln, "current_selection", node) ∈ listeners s → engine_ok s node) →
     (ln, "current_selection", self) ∈ listeners s →
     val_eqb (default VNone (read_attr s (VRef ln) "current_selection")) value = false →
     read_attr (snd (set_current_selection (S fuel) ln value s)) (VRef self) "object"
       = Some value) as Hlater.
  { intros s o value ? ? ? ? ?. by eapply holds_read, current_selection_written. }
  destruct (is_none sel) eqn:Hnone.
  - pose proof Hok4 as (so4 & kvs & engine & node & Hself4 & Hres4 & _ & _ & Hnode4
                        & (la & oa & -> & Hla & Hcls & Hrank) & _).
    assert (read_attr s4 (VRef self) "adder_node" = Some (VRef la)) as Hread
      by (by simpl; rewrite Hself4, Hnode4).
    rewrite run_bind, (run_getattr_Some _ _ _ _ Hread).
    pose proof (set_object_result fuel la oa (VRef ln) s4 Hla) as Hr5.
    pose proof (set_object_modifies (S fuel) 1 (VRef la) (VRef ln) s4 Hwf4) as H5.
    destruct (set_object_stores fuel la oa (VRef ln) s4 Hwf4 Hla Hrank)
      as (oa' & Hla' & _ & Hobj).
    destruct (set_object (S fuel) (VRef la) (VRef ln) s4) as [r5 s5].
    cbn [fst snd] in *. subst r5.
    assert (modifies (written 1 s4) s4 s5) as H5'.
    { apply H5; [|lia]. unfold rank_of, mro_of. by rewrite Hla. }
    assert (∀ name, ¬ written 1 s4 self name) as Hnot.
    { intros name [(o' & Ho' & Hr') _]. assert (o' = so4) as -> by congruence.
      unfold rank in Hr'. rewrite Hres4 in Hr'. lia. }
    destruct (modifies_old _ _ _ H5' _ _ Hself4) as (so5 & Hself5 & _ & Hattrs5).
    split; [done|]. rewrite (modifies_listeners _ _ _ H5'), Hls4.
    split; [done|]. split; [done|]. split.
    { destruct Hholds4 as (so4' & Hso4' & Hv). assert (so4' = so4) as -> by congruence.
      apply holds_read. exists so5. split; [done|]. by rewrite Hattrs5. }
    split.
    { intros _. exists (VRef la). split; apply holds_read.
      - exists so5. split; [done|]. by rewrite Hattrs5.
      - by exists oa'. }
    split.
    { eapply wf_modifies; [exact Hwf4|exact H5'|]. apply written_not_lists. }
    split; [|done].
    eapply engine_ok_frame; [exact Hok4|exact H5'|]. intros name Hw.
    by destruct (Hnot name).
  - change ((mret tt : M unit) s4) with (Ok tt, s4). simpl.
    split; [done|]. rewrite Hls4. split; [done|]. split; [done|]. split.
    { by apply holds_read. }
    split; [intros ->; done|]. done.
Qed.

Lemma engine_example_wf : wf engine_example.
Proof. apply wf_check_sound. vm_compute. reflexivity. Qed.

Lemma engine_example_ok : engine_ok engine_example 5.
Proof.
  assert (∀ la, la = 0 ∨ la = 1 ∨ la = 4 → good_adder engine_example (VRef la)) as Hgood.
  { intros la Hla. exists la.
    destruct Hla as [-> |[-> | ->]]; eexists; (split; [reflexivity|]);
      (split; [vm_compute; reflexivity|]);
      (split; [|vm_compute; lia]); apply list_elem_of_In; simpl; tauto. }
  eexists _, [("scene", VRef 0); ("source", VRef 1); ("module-filter", VRef 4)],
    (VRef 8), (VRef 0).
  split; [vm_compute; reflexivity|]. split; [reflexivity|]. split; [reflexivity|].
  split; [reflexivity|]. split; [reflexivity|]. split; [apply Hgood; auto|].
  intros key [-> |[-> | ->]]; eexists; (split; [reflexivity|]); apply Hgood; auto.
Qed.

Lemma C7_witness :
  fst (EngineAdderNode_engine_changed 3 5 VNone (VRef 8) engine_example) = Ok tt ∧
  (8, "current_selection", 5)
    ∈ listeners (snd (EngineAdderNode_engine_changed 3 5 VNone (VRef 8) engine_example)) ∧
  read_attr (snd (EngineAdderNode_engine_changed 3 5 VNone (VRef 8) engine_example))
    (VRef 5) "object" = Some VNone.
Proof.
  destruct (C7_engine_changed 2 engine_example 5 VNone 8
              {| mro := ["Engine"; "HasTraits"; "object"];
                 attrs := {[ "current_selection" := VNone ]};
                 methods := {[ "new_scene" := Returns VNone ]} |} VNone
              engine_example_wf engine_example_ok)
    as (H1 & H2 & _ & H4 & _).
  - left. reflexivity.
  - vm_compute. reflexivity.
  - vm_compute. reflexivity.
  - split; [exact H1|]. split; [exact H2|exact H4].
Defined.

(** ** A session

    The node is given the engine, then the scene is selected, then the node
    itself, then nothing. *)
Example selection_session :
  let st1 := snd (EngineAdderNode_engine_changed 4 5 VNone (VRef 8) engine_example) in
  let st2 := snd (set_current_selection 4 8 (VRef 7) st1) in
  let st3 := snd (set_current_selection 4 8 (VRef 5) st2) in
  let st4 := snd (set_current_selection 4 8 VNone st3) in
  (read_attr st1 (VRef 5) "adder_node", read_attr st1 (VRef 0) "object")
    = (Some (VRef 0), Some (VRef 8)) ∧
  (read_attr st2 (VRef 5) "object", read_attr st2 (VRef 5) "adder_node",
   read_attr st2 (VRef 5) "label", read_attr st2 (VRef 1) "object", Mutable_attr st2)
    = (Some (VRef 7), Some (VRef 1), Some (VStr "Add Data Source"), Some (VRef 7),
       VRef 7) ∧
  (read_attr st3 (VRef 5) "object", read_attr st3 (VRef 5) "adder_node")
    = (Some (VRef 5), Some (VRef 1)) ∧
  (read_attr st4 (VRef 5) "object", read_attr st4 (VRef 5) "adder_node",
   read_attr st4 (VRef 0) "object")
    = (Some VNone, Some (VRef 0), Some (VRef 8)).
Proof. vm_compute. repeat split. Qed.

(** * Further properties of the module *)

(** ** Rows of the table *)

(** X1: a row that [get_text_color] draws in light grey does nothing on a
    double click, a row it draws in black runs its add action, and when the
    colour cannot be told (the row has no [enabled]) the double click raises
    the same exception and does nothing. *)
Theorem X1_grey_rows_do_not_act object st :
  (GrayedColumn.get_text_color object st = (Ok (VStr "light grey"), st) →
   GrayedColumn.on_dclick object st = (Ok tt, st)) ∧
  (GrayedColumn.get_text_color object st = (Ok (VStr "black"), st) →
   GrayedColumn.on_dclick object st = GrayedColumn.invoke_add_fired object st) ∧
  (∀ e, fst (GrayedColumn.get_text_color object st) = Err e →
        GrayedColumn.on_dclick object st = (Err e, st)).
Proof.
  unfold GrayedColumn.get_text_color, GrayedColumn.on_dclick.
  rewrite !run_bind, run_getattr.
  destruct (read_attr st object "enabled") as [enabled|]; cbv iota.
  - destruct (truthy enabled); repeat split; try done.
  - repeat split; try done. by intros e [= <-].
Qed.

Lemma X1_witness :
  GrayedColumn.on_dclick (VRef 0) row_example = (Ok tt, row_example).
Proof.
  apply (proj1 (X1_grey_rows_do_not_act (VRef 0) row_example)). reflexivity.
Defined.

(** X2: the add button of an item whose menu helper has no attribute of the
    name the item's id gives raises [AttributeError] for that name, and the
    button of an item that has no object yet ([None]) raises it for
    [menu_helper]; in both cases nothing is called and the state is as it
    was. *)
Theorem X2_add_fired_missing_action self st :
  (∀ object menu_helper id,
     read_attr st (VRef self) "object" = Some object →
     read_attr st object "menu_helper" = Some menu_helper →
     read_attr st (VRef self) "id" = Some (VStr id) →
     read_attr st menu_helper id = None →
     DocumentedItem._add_fired self st = (Err (AttributeError id), st)) ∧
  (read_attr st (VRef self) "object" = Some VNone →
   DocumentedItem._add_fired self st = (Err (AttributeError "menu_helper"), st)).
Proof.
  unfold DocumentedItem._add_fired. split.
  - intros object mh id Hobj Hmh Hid Hnone.
    rewrite run_bind, (run_getattr_Some _ _ _ _ Hobj).
    rewrite run_bind, (run_getattr_Some _ _ _ _ Hmh).
    rewrite run_bind, (run_getattr_Some _ _ _ _ Hid).
    rewrite run_bind. cbn [getattr_dyn]. by rewrite (run_getattr_None _ _ _ Hnone).
  - intros Hobj. by rewrite run_bind, (run_getattr_Some _ _ _ _ Hobj).
Qed.

Lemma X2_witness :
  DocumentedItem._add_fired 0 row_example = (Err (AttributeError "menu_helper"), row_example).
Proof.
  apply (proj2 (X2_add_fired_missing_action 0 row_example)). reflexivity.
Defined.

Lemma remove_amp_no_amp s : "&"%char ∉ String.list_ascii_of_string (remove_amp s).
Proof.
  induction s as [|c s IH]; simpl; [apply not_elem_of_nil|].
  destruct (Ascii.eqb c "&") eqn:Hc; [done|]. simpl.
  apply not_elem_of_cons. split; [|done].
  intros <-. by rewrite Ascii.eqb_refl in Hc.
Qed.

Lemma remove_amp_id s :
  "&"%char ∉ String.list_ascii_of_string s → remove_amp s = s.
Proof.
  induction s as [|c s IH]; simpl; [done|]. intros Hnot.
  apply not_elem_of_cons in Hnot as [Hne Hnot].
  destruct (Ascii.eqb c "&") eqn:Hc.
  - apply Ascii.eqb_eq in Hc. congruence.
  - by rewrite IH.
Qed.

(** X3: the name of every row that a rebuild makes holds no ['&'], and is
    the entry's [menu_name] itself when that has none. *)
Theorem X3_row_names_without_ampersand st self so value menu_helper ms :
  heap st !! self = Some so →
  attrs so !! "items_list_source" = Some (VList (VMeta <$> ms)) →
  read_attr st value "menu_helper" = Some menu_helper →
  is_Some (read_attr st menu_helper "actions") →
  Forall (λ m, ∃ b, suitable st self value m = Ok b) ms →
  ∃ items st',
    ListAdderNode_object_changed self value st = (Ok tt, st') ∧
    read_attr st' (VRef self) "items_list" = Some (VList items) ∧
    Forall2 (λ item m,
               ∃ name, read_attr st' item "name" = Some (VStr name) ∧
                       ("&"%char ∉ String.list_ascii_of_string name) ∧
                       ("&"%char ∉ String.list_ascii_of_string (menu_name m) →
                        name = menu_name m)) items ms.
Proof.
  intros Hself Hsrc Hmh Hact Hall.
  destruct (object_changed_rows st self so value menu_helper ms)
    as (items & st' & Hrun & Hlist & _ & Hitems); eauto.
  exists items, st'. split; [done|]. split; [done|].
  eapply Forall2_impl; [exact Hitems|]. intros item m (l & -> & Hl).
  destruct (item_obj_read _ _ _ _ _ _ _ Hl) as (Hname & _).
  exists (remove_amp (menu_name m)). split; [done|].
  split; [apply remove_amp_no_amp|apply remove_amp_id].
Qed.

Lemma X3_witness :
  ∃ items st',
    ListAdderNode_object_changed 2 (VRef 1) list_example = (Ok tt, st') ∧
    read_attr st' (VRef 2) "items_list" = Some (VList items) ∧
    Forall2 (λ item m,
               ∃ name, read_attr st' item "name" = Some (VStr name) ∧
                       ("&"%char ∉ String.list_ascii_of_string name) ∧
                       ("&"%char ∉ String.list_ascii_of_string (menu_name m) →
                        name = menu_name m)) items [outline_entry; axes_entry].
Proof.
  apply (X3_row_names_without_ampersand list_example 2 list_node_example
           (VRef 1) (VRef 0) [outline_entry; axes_entry]).
  - reflexivity.
  - reflexivity.
  - reflexivity.
  - exists (VList []). reflexivity.
  - repeat constructor.
    + exists true. vm_compute. reflexivity.
    + exists false. vm_compute. reflexivity.
Defined.

(** ** What a rebuild of the list leaves alone *)


(** X5: a run of [ListAdderNode._object_changed] that raises (the value has
    no menu helper, a check raises, ...) leaves every object as it was, so
    the node keeps the rows it had; [Mutable.attr] is then as it was or is
    already the new value. *)
Theorem X5_failed_rebuild_keeps_rows self value st e :
  fst (ListAdderNode_object_changed self value st) = Err e →
  (∀ l o, heap st !! l = Some o →
          heap (snd (ListAdderNode_object_changed self value st)) !! l = Some o) ∧
  (Mutable_attr (snd (ListAdderNode_object_changed self value st)) = Mutable_attr st ∨
   Mutable_attr (snd (ListAdderNode_object_changed self value st)) = value).
Proof.
  destruct (rebuild_outcome self value st) as (r & s & -> & [-> | H]); [done|].
  intros _. exact H.
Qed.

Lemma X5_witness :
  (∀ l o, heap orphan_example !! l = Some o →
          heap (snd (ListAdderNode_object_changed 2 (VRef 1) orphan_example)) !! l
          = Some o) ∧
  (Mutable_attr (snd (ListAdderNode_object_changed 2 (VRef 1) orphan_example))
   = Mutable_attr orphan_example ∨
   Mutable_attr (snd (ListAdderNode_object_changed 2 (VRef 1) orphan_example))
   = VRef 1).
Proof.
  apply (X5_failed_rebuild_keeps_rows 2 (VRef 1) orphan_example
           (AttributeError "menu_helper")).
  reflexivity.
Defined.

(** ** The calls a rebuild makes *)

Lemma rows_loop_trace st self so value h ho ms :
  heap st !! self = Some so →
  read_attr st value "menu_helper" = Some (VRef h) →
  heap st !! h = Some ho →
  Forall (λ m, attrs ho !! ("check_" ++ src_id m) = None ∧
               ∀ out, methods ho !! ("check_" ++ src_id m) = Some out →
                      ∃ v, out = Returns v) ms →
  ∀ result s, grows st s →
    ∃ rows s',
      rows_loop self value (VMeta <$> ms) result s = (Ok rows, s') ∧
      grows s s' ∧ heap s' !! self = Some so ∧
      trace s' = (trace s ++
                  if resolves_to_SourceAdderNode (mro so) then []
                  else check_calls h ho ms)%list.
Proof.
  intros Hself Hmh Hh Hall. induction Hall as [|m ms [Hattr Hret] _ IH];
    intros result s G.
  - exists result, s. split; [done|]. split; [apply grows_refl|].
    split; [by apply (grows_old _ _ G)|].
    destruct (resolves_to_SourceAdderNode (mro so)); by rewrite app_nil_r.
  - pose proof (grows_old _ _ G _ _ Hself) as Hself'.
    pose proof (grows_old _ _ G _ _ Hh) as Hh'.
    pose proof (read_attr_grows _ _ _ _ _ G Hmh) as Hmh'.
    assert (∃ b s1,
              is_action_suitable self value (VMeta m) s = (Ok b, s1) ∧
              heap s1 = heap s ∧ Mutable_attr s1 = Mutable_attr s ∧
              listeners s1 = listeners s ∧ log s1 = log s ∧
              trace s1 = (trace s ++
                          if resolves_to_SourceAdderNode (mro so) then []
                          else match methods ho !! ("check_" ++ src_id m)%string with
                               | Some _ => [Call h ("check_" ++ src_id m)%string []]
                               | None => []
                               end)%list)
      as (b & s1 & Hrun & Hheap1 & Hmut1 & Hls1 & Hlog1 & Htrace1).
    { unfold is_action_suitable. rewrite run_bind. unfold gets, mro_of.
      rewrite Hself'. cbv iota.
      destruct (resolves_to_SourceAdderNode (mro so)).
      - exists true, s. by rewrite app_nil_r.
      - rewrite ListAdderNode_is_action_suitable_run, Hmh'.
        change (read_attr s (VMeta m) "id") with (Some (VStr (src_id m))). cbv iota.
        unfold read_attr. rewrite Hh', Hattr.
        destruct (methods ho !! ("check_" ++ src_id m)) as [out|] eqn:Hout.
        + destruct (Hret out eq_refl) as [v ->]. unfold call. rewrite Hh'. simpl.
          rewrite Hout. by exists (truthy v), (add_event (Call h ("check_" ++ src_id m) []) s).
        + exists false, s. by rewrite app_nil_r. }
    simpl. rewrite run_bind.
    change (getattr (VMeta m) "menu_name" s) with (Ok (VStr (menu_name m)), s).
    cbv iota. rewrite run_bind. cbn [str_replace_amp].
    change (@mret M _ string (remove_amp (menu_name m)) s)
      with (Ok (remove_amp (menu_name m)), s).
    cbv iota. rewrite run_bind, Hrun. rewrite run_bind.
    change (getattr (VMeta m) "help" s1) with (Ok (VStr (help m)), s1).
    cbv iota. rewrite run_bind.
    change (getattr (VMeta m) "id" s1) with (Ok (VStr (src_id m)), s1).
    cbv iota. rewrite run_bind, run_DocumentedItem_new.
    set (l := fresh (dom (heap s1))).
    set (o := item_obj (remove_amp (menu_name m)) b (VStr (help m)) (VStr (src_id m)) value).
    set (s2 := set_heap (<[l := o]> (heap s1)) s1).
    assert (grows s s1) as G1.
    { split; [intros ? ?; by rewrite Hheap1|intros ? ?; rewrite Hheap1; congruence
             |done|done|done]. }
    assert (grows s1 s2) as G2 by apply grows_alloc_item.
    destruct (IH (result ++ [VRef l])%list s2) as (rows & s' & Hloop & G3 & Hs' & Htrace).
    { eauto using grows_trans. }
    exists rows, s'. split; [exact Hloop|]. split; [eauto using grows_trans|].
    split; [done|]. rewrite Htrace. change (trace s2) with (trace s1). rewrite Htrace1.
    rewrite <- app_assoc. f_equal. unfold check_calls. simpl.
    destruct (resolves_to_SourceAdderNode (mro so)); [done|].
    by destruct (methods ho !! ("check_" ++ src_id m)).
Qed.

Lemma rebuild_trace st self so value h ho ms :
  heap st !! self = Some so →
  attrs so !! "items_list_source" = Some (VList (VMeta <$> ms)) →
  read_attr st value "menu_helper" = Some (VRef h) →
  heap st !! h = Some ho →
  is_Some (read_attr st (VRef h) "actions") →
  Forall (λ m, attrs ho !! ("check_" ++ src_id m) = None ∧
               ∀ out, methods ho !! ("check_" ++ src_id m) = Some out →
                      ∃ v, out = Returns v) ms →
  ∃ st',
    ListAdderNode_object_changed self value st = (Ok tt, st') ∧
    trace st' = (trace st ++
                 if resolves_to_SourceAdderNode (mro so) then []
                 else check_calls h ho ms)%list.
Proof.
  intros Hself Hsrc Hmh Hh [x Hx] Hall.
  assert (is_none value = false) as Hnn by (by destruct value).
  set (s0 := set_Mutable_attr value st).
  destruct (rows_loop_trace s0 self so value h ho ms Hself Hmh Hh Hall [] s0
              (grows_refl s0)) as (rows & s1 & Hloop & G & Hself1 & Htrace).
  eexists. split.
  - unfold ListAdderNode_object_changed. rewrite run_bind, Hnn. cbn [negb].
    rewrite run_bind, (run_getattr_Some _ _ _ _ Hmh).
    rewrite run_bind, (run_getattr_Some _ _ _ _ Hx).
    rewrite run_bind. unfold modify at 1. fold s0.
    assert (read_attr s0 (VRef self) "items_list_source" = Some (VList (VMeta <$> ms)))
      as Hread by (by simpl; rewrite Hself, Hsrc).
    rewrite run_bind, (run_getattr_Some _ _ _ _ Hread).
    rewrite run_bind. cbn [iter].
    change (@mret M _ (list val) (VMeta <$> ms) s0) with (Ok (VMeta <$> ms), s0).
    cbv iota. rewrite Hloop. unfold setattr. by rewrite Hself1.
  - exact Htrace.
Qed.

(** X6: a rebuild calls, for the registry entries in their order, the check
    of each entry that the menu helper has a check for, once and without
    arguments, and calls nothing else (no action is run); the rebuild of a
    [SourceAdderNode] calls nothing at all. *)
Theorem X6_rebuild_calls_checks st self so value h ho ms :
  heap st !! self = Some so →
  attrs so !! "items_list_source" = Some (VList (VMeta <$> ms)) →
  read_attr st value "menu_helper" = Some (VRef h) →
  heap st !! h = Some ho →
  is_Some (read_attr st (VRef h) "actions") →
  Forall (λ m, attrs ho !! ("check_" ++ src_id m) = None ∧
               ∀ out, methods ho !! ("check_" ++ src_id m) = Some out →
                      ∃ v, out = Returns v) ms →
  ∃ st',
    ListAdderNode_object_changed self value st = (Ok tt, st') ∧
    trace st' = (trace st ++
                 if resolves_to_SourceAdderNode (mro so) then []
                 else check_calls h ho ms)%list.
Proof. apply rebuild_trace. Qed.

Lemma X6_witness :
  ∃ st',
    ListAdderNode_object_changed 2 (VRef 1) list_example = (Ok tt, st') ∧
    trace st' = [Call 0 "check_outline" []].
Proof.
  destruct (X6_rebuild_calls_checks list_example 2 list_node_example (VRef 1) 0
              {| mro := ["MenuHelper"; "HasTraits"; "object"];
                 attrs := {[ "actions" := VList [] ]};
                 methods := {[ "check_outline" := Returns (VBool true) ]} |}
              [outline_entry; axes_entry]) as (st' & Hrun & Htrace).
  - reflexivity.
  - reflexivity.
  - reflexivity.
  - reflexivity.
  - exists (VList []). reflexivity.
  - repeat constructor.
    + intros out [= <-]. by eexists.
    + intros out [=].
  - exists st'. split; [exact Hrun|]. rewrite Htrace. vm_compute. reflexivity.
Defined.

(** X7: [ModuleAdderNode._object_changed] with a value other than [None]
    first calls [_build_filter_actions()] of the value's menu helper and then
    rebuilds the list, so the checks run after the filter actions are built;
    when that call raises, the exception goes on and the list is not
    rebuilt; with [None] nothing is called and the list is emptied as by
    [ListAdderNode._object_changed]. *)
Theorem X7_module_adder_builds_filter_actions_first st self so value h ho ms out :
  heap st !! self = Some so →
  attrs so !! "items_list_source" = Some (VList (VMeta <$> ms)) →
  read_attr st value "menu_helper" = Some (VRef h) →
  heap st !! h = Some ho →
  is_Some (read_attr st (VRef h) "actions") →
  Forall (λ m, attrs ho !! ("check_" ++ src_id m) = None ∧
               ∀ out, methods ho !! ("check_" ++ src_id m) = Some out →
                      ∃ v, out = Returns v) ms →
  attrs ho !! "_build_filter_actions" = None →
  methods ho !! "_build_filter_actions" = Some out →
  match out with
  | Returns _ =>
      ∃ st',
        ModuleAdderNode._object_changed self value st = (Ok tt, st') ∧
        trace st' = (trace st ++
                     Call h "_build_filter_actions" [] ::
                     if resolves_to_SourceAdderNode (mro so) then []
                     else check_calls h ho ms)%list
  | Raises e =>
      ModuleAdderNode._object_changed self value st =
      (Err e, add_event (Call h "_build_filter_actions" []) st)
  end ∧
  ModuleAdderNode._object_changed self VNone st =
  ListAdderNode_object_changed self VNone st.
Proof.
  intros Hself Hsrc Hmh Hh Hact Hall Hattr Hmeth. split; [|done].
  assert (is_none value = false) as Hnn by (by destruct value).
  unfold ModuleAdderNode._object_changed. rewrite run_bind, Hnn. cbn [negb].
  rewrite run_bind, (run_getattr_Some _ _ _ _ Hmh).
  rewrite run_bind, (run_getattr_Some _ _ _ _
                       (read_method _ _ _ _ _ Hh Hattr Hmeth)).
  rewrite (run_call_method _ _ _ _ _ _ Hh Hmeth).
  destruct out as [r|e]; [|done]. cbn [outcome_result]. cbv iota.
  destruct (rebuild_trace (add_event (Call h "_build_filter_actions" []) st)
              self so value h ho ms) as (st' & Hrun & Htrace); try done.
  exists st'. split; [done|]. rewrite Htrace. simpl. by rewrite <- app_assoc.
Qed.

Lemma X7_witness :
  ∃ st',
    ModuleAdderNode._object_changed 2 (VRef 1) module_example = (Ok tt, st') ∧
    trace st' = [Call 0 "_build_filter_actions" []; Call 0 "check_axes" []].
Proof.
  destruct (X7_module_adder_builds_filter_actions_first module_example 2
              module_node_example (VRef 1) 0 module_helper_example
              [outline_entry; axes_entry] (Returns VNone))
    as [(st' & Hrun & Htrace) _].
  - reflexivity.
  - reflexivity.
  - reflexivity.
  - reflexivity.
  - exists (VList []). reflexivity.
  - repeat constructor.
    + intros out [=].
    + intros out [= <-]. by eexists.
  - reflexivity.
  - reflexivity.
  - exists st'. split; [exact Hrun|]. rewrite Htrace. vm_compute. reflexivity.
Defined.

(** ** Assignments to [object] *)

(** Assigning to the [object] of a node of rank 0 writes only that node. *)
Lemma set_object_leaf fuel l o value st :
  heap st !! l = Some o → rank (mro o) = 0 →
  modifies (λ l' name, l' = l ∧ (name = "object" ∨ name = "items_list")) st
    (snd (set_object (S fuel) (VRef l) value st)).
Proof.
  intros Hl Hrank. rewrite (set_object_run _ _ _ _ _ Hl). cbv zeta.
  set (st1 := set_heap (<[l := store_object o value]> (heap st)) st).
  assert (modifies (λ l' name, l' = l ∧ (name = "object" ∨ name = "items_list"))
            st st1) as H1.
  { pose proof (modifies_setattr st l "object" value) as H.
    unfold setattr in H. rewrite Hl in H.
    eapply modifies_weaken; [exact H|]. intros ? ? [-> ->]. auto. }
  destruct (val_eqb _ value); [done|].
  unfold rank in Hrank.
  destruct (resolve_object_changed (mro o)) as [[]|] eqn:Hres; try done.
  - apply modifies_swallow.
    eapply modifies_trans; [exact H1|apply ModuleAdderNode_object_changed_modifies|].
    intros ? ? _ [-> ->]. auto.
  - apply modifies_swallow.
    eapply modifies_trans; [exact H1|apply ListAdderNode_object_changed_modifies|].
    intros ? ? _ [-> ->]. auto.
Qed.

Lemma set_object_leaf_spec fuel l o value st :
  wf st → heap st !! l = Some o → rank (mro o) = 0 →
  ∃ st',
    set_object (S fuel) (VRef l) value st = (Ok tt, st') ∧
    modifies (λ l' name, l' = l ∧ (name = "object" ∨ name = "items_list")) st st' ∧
    holds st' l "object" value.
Proof.
  intros Hwf Hl Hrank.
  pose proof (set_object_result fuel l o value st Hl) as Hr.
  pose proof (set_object_leaf fuel l o value st Hl Hrank) as Hm.
  destruct (set_object_stores fuel l o value st Hwf Hl) as (o' & Hl' & _ & Hv); [lia|].
  destruct (set_object (S fuel) (VRef l) value st) as [r st']. simpl in *. subst r.
  exists st'. split; [done|]. split; [done|]. by exists o'.
Qed.

(** X8: [ModuleFilterAdderNode._object_changed] hands the node's object to
    both of its lists: afterwards [filters.object] and [modules.object] are
    the node's [object], whatever their handlers did with it (an object
    without a menu helper makes them raise, which the notification logs). *)
Theorem X8_module_filter_hands_object_on fuel st self so value f fo m mo :
  wf st →
  heap st !! self = Some so →
  resolve_object_changed (mro so) = Some ModuleFilterAdderNode_handler →
  attrs so !! "object" = Some value →
  attrs so !! "filters" = Some (VRef f) →
  attrs so !! "modules" = Some (VRef m) →
  heap st !! f = Some fo →
  heap st !! m = Some mo →
  fst (ModuleFilterAdderNode._object_changed (set_object (S fuel)) self st) = Ok tt ∧
  holds (snd (ModuleFilterAdderNode._object_changed (set_object (S fuel)) self st))
    f "object" value ∧
  holds (snd (ModuleFilterAdderNode._object_changed (set_object (S fuel)) self st))
    m "object" value ∧
  holds (snd (ModuleFilterAdderNode._object_changed (set_object (S fuel)) self st))
    self "object" value.
Proof.
  intros Hwf Hself Hres Hobj Hfilters Hmodules Hf Hm.
  assert (rank (mro so) = 1) as Hrank by (unfold rank; by rewrite Hres).
  assert (rank (mro fo) = 0) as Hrf.
  { pose proof (Hwf self so "filters" (VRef f) Hself Hrank (or_introl eq_refl) Hfilters)
      as H. unfold rank_of, mro_of in H. by rewrite Hf in H. }
  assert (rank (mro mo) = 0) as Hrm.
  { pose proof (Hwf self so "modules" (VRef m) Hself Hrank (or_intror eq_refl) Hmodules)
      as H. unfold rank_of, mro_of in H. by rewrite Hm in H. }
  assert (self ≠ f) as Hsf by (intros ->; assert (so = fo) by congruence; subst; lia).
  assert (self ≠ m) as Hsm by (intros ->; assert (so = mo) by congruence; subst; lia).
  destruct (set_object_leaf_spec fuel f fo value st Hwf Hf Hrf)
    as (s1 & Hrun1 & Hmod1 & Hholds1).
  assert (wf s1) as Hwf1.
  { eapply wf_modifies; [exact Hwf|exact Hmod1|]. by intros ? ? [_ [-> | ->]]. }
  destruct (modifies_old _ _ _ Hmod1 _ _ Hself) as (so1 & Hself1 & _ & Hattrs1).
  destruct (modifies_old _ _ _ Hmod1 _ _ Hm) as (mo1 & Hm1 & Hmro1 & _).
  destruct (set_object_leaf_spec fuel m mo1 value s1 Hwf1 Hm1)
    as (s2 & Hrun2 & Hmod2 & Hholds2); [by rewrite Hmro1|].
  assert (∀ name, attrs so1 !! name = attrs so !! name) as Hso1.
  { intros name. apply Hattrs1. by intros [? _]. }
  assert (ModuleFilterAdderNode._object_changed (set_object (S fuel)) self st
          = (Ok tt, s2)) as ->.
  { unfold ModuleFilterAdderNode._object_changed.
    rewrite run_bind, (run_getattr_Some (VRef self) "object" value);
      [|by simpl; rewrite Hself, Hobj].
    rewrite run_bind, (run_getattr_Some (VRef self) "filters" (VRef f));
      [|by simpl; rewrite Hself, Hfilters].
    rewrite run_bind, Hrun1.
    rewrite run_bind, (run_getattr_Some (VRef self) "object" value);
      [|by simpl; rewrite Hself1, Hso1, Hobj].
    rewrite run_bind, (run_getattr_Some (VRef self) "modules" (VRef m));
      [|by simpl; rewrite Hself1, Hso1, Hmodules].
    exact Hrun2. }
  simpl. split; [done|]. split; [|split; [done|]].
  - destruct (decide (f = m)) as [->|Hne]; [done|].
    destruct Hholds1 as (fo1 & Hf1 & Hv).
    destruct (modifies_old _ _ _ Hmod2 _ _ Hf1) as (fo2 & Hf2 & _ & Hattrs2).
    exists fo2. split; [done|]. rewrite Hattrs2; [done|]. by intros [? _].
  - destruct (modifies_old _ _ _ Hmod2 _ _ Hself1) as (so2 & Hself2 & _ & Hattrs2).
    exists so2. split; [done|]. rewrite Hattrs2, Hso1; [done|]. by intros [? _].
Qed.

Lemma X8_witness :
  fst (ModuleFilterAdderNode._object_changed (set_object 2) 4 module_filter_example)
    = Ok tt ∧
  holds (snd (ModuleFilterAdderNode._object_changed (set_object 2) 4
                module_filter_example)) 3 "object" (VRef 7) ∧
  holds (snd (ModuleFilterAdderNode._object_changed (set_object 2) 4
                module_filter_example)) 2 "object" (VRef 7) ∧
  holds (snd (ModuleFilterAdderNode._object_changed (set_object 2) 4
                module_filter_example)) 4 "object" (VRef 7).
Proof.
  eapply (X8_module_filter_hands_object_on 1 module_filter_example 4 _ (VRef 7) 3 _ 2 _).
  - apply wf_check_sound. vm_compute. reflexivity.
  - vm_compute. reflexivity.
  - vm_compute. reflexivity.
  - vm_compute. reflexivity.
  - vm_compute. reflexivity.
  - vm_compute. reflexivity.
  - vm_compute. reflexivity.
  - vm_compute. reflexivity.
Defined.

(** ** The adder an [EngineAdderNode] shows *)

Lemma set_adder_node_effect st self so a old_an :
  heap st !! self = Some so →
  attrs so !! "adder_node" = Some old_an →
  good_adder st a →
  ∃ st',
    EngineAdderNode.set_adder_node self a st = (Ok tt, st') ∧
    modifies (λ l name, l = self ∧ (name = "adder_node" ∨ name = "label")) st st' ∧
    holds st' self "adder_node" a ∧
    (val_eqb old_an a = true →
     ∀ x, holds st self "label" x → holds st' self "label" x) ∧
    (val_eqb old_an a = false →
     ∀ s, read_attr st a "label" = Some (VStr s) → holds st' self "label" (VStr s)).
Proof.
  intros Hself Hold Hgood.
  destruct (set_adder_node_spec st self so a Hself (mk_is_Some _ _ Hold) Hgood)
    as (st' & Hrun & Hmod & so' & Hself' & Han).
  exists st'. split; [done|]. split; [done|]. split; [by exists so'|].
  destruct Hgood as (la & oa & -> & Hla & Hcls & _).
  set (so1 := {| mro := mro so; attrs := <["adder_node" := VRef la]> (attrs so);
                 methods := methods so |}).
  set (st1 := set_heap (<[self := so1]> (heap st)) st).
  assert (EngineAdderNode.set_adder_node self (VRef la) st =
          if val_eqb old_an (VRef la) then (Ok tt, st1)
          else swallow (EngineAdderNode._adder_node_changed self (VRef la)) st1) as Heq.
  { unfold EngineAdderNode.set_adder_node. rewrite run_bind.
    unfold validate_Instance. cbn [is_none]. rewrite run_bind.
    unfold isinstance, gets at 1. cbv iota. unfold mro_of. rewrite Hla.
    rewrite bool_decide_eq_true_2 by done.
    change (@mret M _ val (VRef la) st) with (Ok (VRef la), st). cbv iota.
    rewrite run_bind, (run_getattr_Some (VRef self) "adder_node" old_an);
      [|by simpl; rewrite Hself, Hold].
    rewrite run_bind. unfold setattr at 1. rewrite Hself. cbv iota.
    fold so1. fold st1. by destruct (val_eqb old_an (VRef la)). }
  rewrite Hrun in Heq.
  assert (heap st1 !! self = Some so1) as Hself1 by apply lookup_insert_eq.
  split.
  - intros Hsame x (so0 & Hso0 & Hx). rewrite Hsame in Heq. injection Heq as Heq.
    subst st'.
    assert (so0 = so) as -> by congruence.
    exists so1. split; [done|]. simpl. by rewrite lookup_insert_ne.
  - intros Hchanged s Hlabel. rewrite Hchanged in Heq.
    assert (read_attr st1 (VRef la) "label" = Some (VStr s)) as Hlabel1.
    { simpl in *. destruct (decide (self = la)) as [<-|Hne].
      - rewrite lookup_insert_eq. rewrite Hself in Hlabel. simpl.
        by rewrite lookup_insert_ne.
      - by rewrite lookup_insert_ne. }
    unfold swallow, EngineAdderNode._adder_node_changed in Heq.
    rewrite run_bind, (run_getattr_Some _ _ _ _ Hlabel1) in Heq.
    rewrite run_bind in Heq. cbn [validate_Str] in Heq.
    change (@mret M _ val (VStr s) st1) with (Ok (VStr s), st1) in Heq.
    cbv iota in Heq. unfold setattr in Heq. rewrite Hself1 in Heq.
    injection Heq as Heq. subst st'. eexists. split; [apply lookup_insert_eq|].
    apply lookup_insert_eq.
Qed.

Lemma EngineAdderNode_object_changed_effect fuel st self so kvs engine old new la old_an :
  wf st →
  heap st !! self = Some so →
  resolve_object_changed (mro so) = Some EngineAdderNode_handler →
  attrs so !! "adders" = Some (VDict kvs) →
  attrs so !! "engine" = Some engine →
  attrs so !! "adder_node" = Some old_an →
  assoc (four_way_dispatch st engine (if py_is new (VRef self) then old else new)) kvs
    = Some (VRef la) →
  good_adder st (VRef la) →
  ∃ st',
    EngineAdderNode._object_changed (set_object (S fuel)) self old new st = (Ok tt, st') ∧
    holds st' self "adder_node" (VRef la) ∧
    holds st' la "object"
      (if is_none (if py_is new (VRef self) then old else new) then engine
       else if py_is new (VRef self) then old else new) ∧
    (val_eqb old_an (VRef la) = true →
     ∀ x, holds st self "label" x → holds st' self "label" x) ∧
    (val_eqb old_an (VRef la) = false →
     ∀ s, read_attr st (VRef la) "label" = Some (VStr s) →
          holds st' self "label" (VStr s)).
Proof.
  intros Hwf Hself Hres Hadders Hengine Hnode Hkey Hgood.
  assert (rank (mro so) = 2) as Hrank by (unfold rank; by rewrite Hres).
  set (obj := if py_is new (VRef self) then old else new) in *.
  destruct (set_adder_node_effect st self so (VRef la) old_an Hself Hnode Hgood)
    as (st1 & Hrun & H1 & Han1 & Hsame & Hchanged).
  destruct (modifies_old _ _ _ H1 _ _ Hself) as (so1 & Hself1 & Hmro1 & Hattrs1).
  assert (wf st1) as Hwf1.
  { eapply wf_modifies; [exact Hwf|exact H1|]. by intros ? ? [_ [-> | ->]]. }
  pose proof (good_adder_modifies _ _ _ _ H1 Hgood) as (la' & oa1 & [= <-] & Hla1 & _ & Hr1).
  assert (read_attr st1 (VRef self) "engine" = Some engine) as Hread'.
  { simpl. rewrite Hself1, Hattrs1, Hengine; [done|]. by intros [_ [?|?]]. }
  set (x := if is_none obj then engine else obj).
  pose proof (set_object_result fuel la oa1 x st1 Hla1) as Hr.
  pose proof (set_object_modifies (S fuel) 1 (VRef la) x st1 Hwf1) as H2.
  destruct (set_object_stores fuel la oa1 x st1 Hwf1 Hla1 Hr1) as (oa2 & Hla2 & _ & Hx).
  destruct (set_object (S fuel) (VRef la) x st1) as [r st2] eqn:Hrun2.
  cbn [fst snd] in *. subst r.
  assert (modifies (written 1 st1) st1 st2) as H2'.
  { apply H2; [|lia]. unfold rank_of, mro_of. by rewrite Hla1. }
  assert (∀ name y, holds st1 self name y → holds st2 self name y) as Hkeep.
  { intros name y (so' & Hso' & Hy). assert (so' = so1) as -> by congruence.
    destruct (modifies_old _ _ _ H2' _ _ Hself1) as (so2 & Hself2 & _ & Hattrs2).
    exists so2. split; [done|]. rewrite Hattrs2; [done|].
    intros [(o' & Ho' & Hr') _]. assert (o' = so1) as -> by congruence.
    rewrite Hmro1, Hrank in Hr'. lia. }
  exists st2. split.
  - unfold EngineAdderNode._object_changed.
    rewrite run_bind, (run_getattr_Some (VRef self) "adders" (VDict kvs));
      [|by simpl; rewrite Hself, Hadders].
    cbv zeta. fold obj.
    rewrite run_bind, (select_adder_run st self engine);
      [|by simpl; rewrite Hself, Hengine].
    rewrite run_bind. unfold getitem. rewrite Hkey.
    change (@mret M _ val (VRef la) st) with (Ok (VRef la), st). cbv iota.
    rewrite run_bind, Hrun. unfold x in Hrun2. destruct (is_none obj).
    + rewrite run_bind, (run_getattr_Some _ _ _ _ Hread').
      by rewrite run_bind, (run_getattr_Some _ _ _ _ (holds_read _ _ _ _ Han1)).
    + by rewrite run_bind, (run_getattr_Some _ _ _ _ (holds_read _ _ _ _ Han1)).
  - split; [by apply Hkeep|]. split; [by exists oa2|]. split.
    + intros Heq y Hy. apply Hkeep. by apply Hsame.
    + intros Hne s Hs. apply Hkeep. by apply Hchanged.
Qed.

(** X9: after picking the adder, [EngineAdderNode._object_changed] hands it
    the selected object: the run returns, and the [object] of the adder node
    now in use is the selected object, or the engine when nothing is
    selected. *)
Theorem X9_dispatch_hands_object_to_adder
    fuel st self so kvs engine old new la old_an :
  wf st →
  heap st !! self = Some so →
  resolve_object_changed (mro so) = Some EngineAdderNode_handler →
  attrs so !! "adders" = Some (VDict kvs) →
  attrs so !! "engine" = Some engine →
  attrs so !! "adder_node" = Some old_an →
  assoc (four_way_dispatch st engine (if py_is new (VRef self) then old else new)) kvs
    = Some (VRef la) →
  good_adder st (VRef la) →
  ∃ st',
    EngineAdderNode._object_changed (set_object (S fuel)) self old new st = (Ok tt, st') ∧
    holds st' self "adder_node" (VRef la) ∧
    holds st' la "object"
      (if is_none (if py_is new (VRef self) then old else new) then engine
       else if py_is new (VRef self) then old else new).
Proof.
  intros Hwf Hself Hres Hadders Hengine Hnode Hkey Hgood.
  destruct (EngineAdderNode_object_changed_effect fuel st self so kvs engine old new
              la old_an) as (st' & Hrun & Han & Hobj & _); try done.
  by exists st'.
Qed.

Lemma engine_example_good la :
  la = 0 ∨ la = 1 ∨ la = 4 → good_adder engine_example (VRef la).
Proof.
  intros Hla. exists la.
  destruct Hla as [-> |[-> | ->]]; eexists; (split; [reflexivity|]);
    (split; [vm_compute; reflexivity|]);
    (split; [|vm_compute; lia]); apply list_elem_of_In; simpl; tauto.
Qed.

Lemma X9_witness :
  ∃ st',
    EngineAdderNode._object_changed (set_object 3) 5 VNone (VRef 7) engine_example
      = (Ok tt, st') ∧
    holds st' 5 "adder_node" (VRef 1) ∧
    holds st' 1 "object" (VRef 7).
Proof.
  eapply (X9_dispatch_hands_object_to_adder 2 engine_example 5 _
            [("scene", VRef 0); ("source", VRef 1); ("module-filter", VRef 4)]
            (VRef 8) VNone (VRef 7) 1 (VRef 0)).
  - exact engine_example_wf.
  - vm_compute. reflexivity.
  - vm_compute. reflexivity.
  - vm_compute. reflexivity.
  - vm_compute. reflexivity.
  - vm_compute. reflexivity.
  - vm_compute. reflexivity.
  - apply engine_example_good. auto.
Defined.

(** X10: the label of an [EngineAdderNode] follows the adder it shows: when
    [_object_changed] makes another adder the adder node, the node's label
    becomes that adder's label; when the adder picked is the one already in
    use, the label stays as it is. *)
Theorem X10_label_follows_adder fuel st self so kvs engine old new la old_an :
  wf st →
  heap st !! self = Some so →
  resolve_object_changed (mro so) = Some EngineAdderNode_handler →
  attrs so !! "adders" = Some (VDict kvs) →
  attrs so !! "engine" = Some engine →
  attrs so !! "adder_node" = Some old_an →
  assoc (four_way_dispatch st engine (if py_is new (VRef self) then old else new)) kvs
    = Some (VRef la) →
  good_adder st (VRef la) →
  ∃ st',
    EngineAdderNode._object_changed (set_object (S fuel)) self old new st = (Ok tt, st') ∧
    (val_eqb old_an (VRef la) = false →
     ∀ s, read_attr st (VRef la) "label" = Some (VStr s) →
          holds st' self "label" (VStr s)) ∧
    (val_eqb old_an (VRef la) = true →
     ∀ x, holds st self "label" x → holds st' self "label" x).
Proof.
  intros Hwf Hself Hres Hadders Hengine Hnode Hkey Hgood.
  destruct (EngineAdderNode_object_changed_effect fuel st self so kvs engine old new
              la old_an) as (st' & Hrun & _ & _ & Hsame & Hchanged); try done.
  by exists st'.
Qed.

Lemma X10_witness :
  ∃ st',
    EngineAdderNode._object_changed (set_object 3) 5 VNone (VRef 7) engine_example
      = (Ok tt, st') ∧
    holds st' 5 "label" (VStr "Add Data Source").
Proof.
  destruct (X10_label_follows_adder 2 engine_example 5
              (mk_obj ["EngineAdderNode"; "AdderNode"]
                 [("label", VStr "Add a new Scene"); ("tooltip", VStr "Add an item");
                  ("object", VNone); ("engine", VRef 8);
                  ("adder_node", VRef 0);
                  ("adders", VDict [("scene", VRef 0); ("source", VRef 1);
                                    ("module-filter", VRef 4)])])
              [("scene", VRef 0); ("source", VRef 1); ("module-filter", VRef 4)]
              (VRef 8) VNone (VRef 7) 1 (VRef 0)) as (st' & Hrun & Hchanged & _).
  - exact engine_example_wf.
  - vm_compute. reflexivity.
  - vm_compute. reflexivity.
  - vm_compute. reflexivity.
  - vm_compute. reflexivity.
  - vm_compute. reflexivity.
  - vm_compute. reflexivity.
  - apply engine_example_good. auto.
  - exists st'. split; [exact Hrun|]. apply Hchanged; vm_compute; reflexivity.
Defined.

Lemma four_way_dispatch_None st engine : four_way_dispatch st engine VNone = "scene".
Proof.
  unfold four_way_dispatch. cbn [mro_of read_attr].
  destruct (bool_decide (hd "object" (mro_of st engine) ∈ ["NoneType"; "object"]));
    [done|].
  rewrite !bool_decide_eq_false_2; [done| | | |].
  - by intros [? ?].
  - intros H. by repeat (apply elem_of_cons in H as [?|H]; [done|]);
      apply elem_of_nil in H.
  - intros H. by repeat (apply elem_of_cons in H as [?|H]; [done|]);
      apply elem_of_nil in H.
  - intros H. by repeat (apply elem_of_cons in H as [?|H]; [done|]);
      apply elem_of_nil in H.
Qed.

(** X11: when the selection becomes [None], whatever the engine is,
    [_object_changed] shows the adder [adders['scene']] and gives it the
    engine as its object. *)
Theorem X11_no_selection_shows_scene_adder fuel st self so kvs engine old la old_an :
  wf st →
  heap st !! self = Some so →
  resolve_object_changed (mro so) = Some EngineAdderNode_handler →
  attrs so !! "adders" = Some (VDict kvs) →
  attrs so !! "engine" = Some engine →
  attrs so !! "adder_node" = Some old_an →
  assoc "scene" kvs = Some (VRef la) →
  good_adder st (VRef la) →
  ∃ st',
    EngineAdderNode._object_changed (set_object (S fuel)) self old VNone st = (Ok tt, st') ∧
    holds st' self "adder_node" (VRef la) ∧
    holds st' la "object" engine.
Proof.
  intros Hwf Hself Hres Hadders Hengine Hnode Hkey Hgood.
  destruct (EngineAdderNode_object_changed_effect fuel st self so kvs engine old VNone
              la old_an) as (st' & Hrun & Han & Hobj & _); try done.
  { cbn [py_is]. by rewrite four_way_dispatch_None. }
  by exists st'.
Qed.

Lemma X11_witness :
  ∃ st',
    EngineAdderNode._object_changed (set_object 3) 5 (VRef 7) VNone engine_example
      = (Ok tt, st') ∧
    holds st' 5 "adder_node" (VRef 0) ∧
    holds st' 0 "object" (VRef 8).
Proof.
  eapply (X11_no_selection_shows_scene_adder 2 engine_example 5 _
            [("scene", VRef 0); ("source", VRef 1); ("module-filter", VRef 4)]
            (VRef 8) (VRef 7) 0 (VRef 0)).
  - exact engine_example_wf.
  - vm_compute. reflexivity.
  - vm_compute. reflexivity.
  - vm_compute. reflexivity.
  - vm_compute. reflexivity.
  - vm_compute. reflexivity.
  - vm_compute. reflexivity.
  - apply engine_example_good. auto.
Defined.

(** X12: when [adders] has no entry for the key the check picks,
    [_object_changed] raises [KeyError] for that key and leaves the node and
    everything else as it was. *)
Theorem X12_missing_adder_raises_KeyError
    (set_obj : val → val → M unit) st self so kvs engine old new :
  heap st !! self = Some so →
  attrs so !! "adders" = Some (VDict kvs) →
  attrs so !! "engine" = Some engine →
  assoc (four_way_dispatch st engine (if py_is new (VRef self) then old else new)) kvs
    = None →
  EngineAdderNode._object_changed set_obj self old new st =
  (Err (KeyError (four_way_dispatch st engine
                    (if py_is new (VRef self) then old else new))), st).
Proof.
  intros Hself Hadders Hengine Hkey. unfold EngineAdderNode._object_changed.
  rewrite run_bind, (run_getattr_Some (VRef self) "adders" (VDict kvs));
    [|by simpl; rewrite Hself, Hadders].
  cbv zeta. rewrite run_bind, (select_adder_run st self engine);
    [|by simpl; rewrite Hself, Hengine].
  rewrite run_bind. unfold getitem. by rewrite Hkey.
Qed.

Lemma X12_witness :
  EngineAdderNode._object_changed (set_object 3) 0 VNone (VRef 0) bare_engine_example =
  (Err (KeyError "scene"), bare_engine_example).
Proof.
  apply (X12_missing_adder_raises_KeyError (set_object 3) bare_engine_example 0
           (mk_obj ["EngineAdderNode"; "AdderNode"]
              [("label", VStr "Add a new Scene"); ("tooltip", VStr "Add an item");
               ("object", VNone); ("engine", VNone);
               ("adder_node", VNone); ("adders", VDict [])])
           [] VNone VNone (VRef 0)); reflexivity.
Defined.

(** ** Construction of the nodes *)

Lemma alloc_run o st :
  wf st → closed_lists st → lists_ok st o →
  ∃ l st',
    alloc o st = (Ok (VRef l), st') ∧
    heap st !! l = None ∧ heap st' !! l = Some o ∧
    (∀ l' o', heap st !! l' = Some o' → heap st' !! l' = Some o') ∧
    wf st' ∧ closed_lists st'.
Proof.
  intros Hwf Hclosed Hlists. set (l := fresh (dom (heap st))).
  assert (heap st !! l = None) as Hl by apply fresh_unallocated.
  exists l, (set_heap (<[l := o]> (heap st)) st).
  split; [done|]. split; [done|]. split; [apply lookup_insert_eq|].
  assert (∀ l' o', heap st !! l' = Some o' → <[l := o]> (heap st) !! l' = Some o')
    as Hold.
  { intros l' o' Hl'. rewrite lookup_insert_ne; [done|]. congruence. }
  split; [exact Hold|]. split.
  - intros l' o' name c Hl' Hrank Hname Hc. simpl in Hl'.
    unfold rank_of, mro_of. simpl.
    destruct (decide (l = l')) as [<-|Hne].
    + rewrite lookup_insert_eq in Hl'. injection Hl' as <-.
      destruct (Hlists Hrank name c Hname Hc) as (lc & oc & -> & Hlc & Hr).
      by rewrite (Hold _ _ Hlc).
    + rewrite lookup_insert_ne in Hl' by done.
      pose proof (Hwf l' o' name c Hl' Hrank Hname Hc) as H0.
      destruct c; try done. unfold rank_of, mro_of in H0.
      destruct (Hclosed l' o' name l0 Hl' Hrank Hname Hc) as [oc Hlc].
      rewrite Hlc in H0. by rewrite (Hold _ _ Hlc).
  - intros l' o' name lc Hl' Hrank Hname Hc. simpl in *.
    destruct (decide (l = l')) as [<-|Hne].
    + rewrite lookup_insert_eq in Hl'. injection Hl' as <-.
      destruct (Hlists Hrank name (VRef lc) Hname Hc) as (lc' & oc & [= <-] & Hlc & _).
      rewrite (Hold _ _ Hlc). eauto.
    + rewrite lookup_insert_ne in Hl' by done.
      destruct (Hclosed l' o' name lc Hl' Hrank Hname Hc) as [oc Hlc].
      rewrite (Hold _ _ Hlc). eauto.
Qed.

Lemma lists_ok_leaf st o : rank (mro o) ≠ 1 → lists_ok st o.
Proof. intros Hne Hr. done. Qed.

(** X13: [EngineAdderNode()] builds, besides the node, a [SceneAdderNode], a
    [SourceAdderNode] and a [ModuleFilterAdderNode] with its two lists, all
    new and distinct, under the keys ['scene'], ['source'] and
    ['module-filter'] of [adders]; the adder node is [adders['scene']], the
    object and the engine are [None], the label is ['Add a new Scene'];
    the objects that were there are untouched, and the state is again one
    in which the node can be used ([wf], [closed_lists], [engine_ok]). *)
Theorem X13_new_engine_adder_node registry st :
  wf st → closed_lists st →
  ∃ self st' scene source module_filter,
    EngineAdderNode.new registry st = (Ok (VRef self), st') ∧
    heap st !! self = None ∧
    (∀ l o, heap st !! l = Some o → heap st' !! l = Some o) ∧
    wf st' ∧ closed_lists st' ∧ engine_ok st' self ∧
    holds st' self "object" VNone ∧
    holds st' self "engine" VNone ∧
    holds st' self "label" (VStr "Add a new Scene") ∧
    holds st' self "adders"
      (VDict [("scene", VRef scene); ("source", VRef source);
              ("module-filter", VRef module_filter)]) ∧
    holds st' self "adder_node" (VRef scene) ∧
    "SceneAdderNode" ∈ mro_of st' (VRef scene) ∧
    "SourceAdderNode" ∈ mro_of st' (VRef source) ∧
    "ModuleFilterAdderNode" ∈ mro_of st' (VRef module_filter) ∧
    NoDup [self; scene; source; module_filter].
Proof.
  intros Hwf Hcl.
  unfold EngineAdderNode.new, EngineAdderNode._adders_default,
    SceneAdderNode.new, SourceAdderNode.new, ModuleFilterAdderNode.new,
    ModuleAdderNode.new, FilterAdderNode.new.
  destruct (alloc_run (mk_obj ["SceneAdderNode"; "AdderNode"]
                         [("label", VStr "Base AdderNode"); ("tooltip", VStr "Add an item");
                          ("object", VNone)]) st Hwf Hcl)
    as (l0 & st1 & Hrun0 & Hn0 & Hs0 & Hold0 & Hwf1 & Hcl1);
    [by apply lists_ok_leaf|].
  destruct (alloc_run (mk_obj ["SourceAdderNode"; "ListAdderNode"; "AdderNode"]
                         [("label", VStr "Add Data Source"); ("tooltip", VStr "Add an item");
                          ("object", VNone); ("items_list", VList []);
                          ("items_list_source",
                           VList (VMeta <$> SourceAdderNode.items_list_source registry))])
              st1 Hwf1 Hcl1)
    as (l1 & st2 & Hrun1 & Hn1 & Hs1 & Hold1 & Hwf2 & Hcl2);
    [by apply lists_ok_leaf|].
  destruct (alloc_run (mk_obj ["ModuleAdderNode"; "ListAdderNode"; "AdderNode"]
                         [("label", VStr "Base AdderNode"); ("tooltip", VStr "Add an item");
                          ("object", VNone); ("items_list", VList []);
                          ("items_list_source", VList (VMeta <$> modules registry))])
              st2 Hwf2 Hcl2)
    as (l2 & st3 & Hrun2 & Hn2 & Hs2 & Hold2 & Hwf3 & Hcl3);
    [by apply lists_ok_leaf|].
  destruct (alloc_run (mk_obj ["FilterAdderNode"; "ListAdderNode"; "AdderNode"]
                         [("label", VStr "Base AdderNode"); ("tooltip", VStr "Add an item");
                          ("object", VNone); ("items_list", VList []);
                          ("items_list_source", VList (VMeta <$> filters registry))])
              st3 Hwf3 Hcl3)
    as (l3 & st4 & Hrun3 & Hn3 & Hs3 & Hold3 & Hwf4 & Hcl4);
    [by apply lists_ok_leaf|].
  destruct (alloc_run (mk_obj ["ModuleFilterAdderNode"; "AdderNode"]
                         [("label", VStr "Add module or filter");
                          ("tooltip", VStr "Add an item");
                          ("object", VNone); ("modules", VRef l2); ("filters", VRef l3)])
              st4 Hwf4 Hcl4)
    as (l4 & st5 & Hrun4 & Hn4 & Hs4 & Hold4 & Hwf5 & Hcl5).
  { intros _ name c [-> | ->] [= <-]; eexists _, _; (split; [done|]).
    - split; [exact Hs3|done].
    - split; [exact (Hold3 _ _ Hs2)|done]. }
  destruct (alloc_run (mk_obj ["EngineAdderNode"; "AdderNode"]
                         [("label", VStr "Add a new Scene"); ("tooltip", VStr "Add an item");
                          ("object", VNone); ("engine", VNone);
                          ("adder_node", VRef l0);
                          ("adders", VDict [("scene", VRef l0); ("source", VRef l1);
                                            ("module-filter", VRef l4)])])
              st5 Hwf5 Hcl5)
    as (l5 & st6 & Hrun5 & Hn5 & Hs5 & Hold5 & Hwf6 & Hcl6);
    [by apply lists_ok_leaf|].
  pose proof (Hold5 _ _ (Hold4 _ _ (Hold3 _ _ (Hold2 _ _ (Hold1 _ _ Hs0))))) as H0.
  pose proof (Hold5 _ _ (Hold4 _ _ (Hold3 _ _ (Hold2 _ _ Hs1)))) as H1.
  pose proof (Hold5 _ _ Hs4) as H4.
  assert (∀ l o, heap st !! l = Some o → heap st6 !! l = Some o) as Hold
    by (intros; eauto 10).
  exists l5, st6, l0, l1, l4. split.
  { rewrite !run_bind, Hrun0. cbv beta iota. rewrite !run_bind, Hrun1. cbv beta iota.
    rewrite !run_bind, Hrun2. cbv beta iota. rewrite !run_bind, Hrun3. cbv beta iota.
    rewrite Hrun4. exact Hrun5. }
  split.
  { destruct (heap st !! l5) as [o|] eqn:Hl5; [|done].
    apply Hold0, Hold1, Hold2, Hold3, Hold4 in Hl5. congruence. }
  split; [exact Hold|]. split; [done|]. split; [done|]. split.
  { assert (∀ la oa, heap st6 !! la = Some oa → "AdderNode" ∈ mro oa →
                     (rank (mro oa) ≤ 1)%nat → good_adder st6 (VRef la)) as Hgood
      by (intros la oa ? ? ?; by exists la, oa).
    eexists _, _, VNone, (VRef l0). split; [exact Hs5|]. split; [reflexivity|].
    split; [reflexivity|]. split; [reflexivity|]. split; [reflexivity|].
    assert ("AdderNode" ∈ ["SceneAdderNode"; "AdderNode"; "HasTraits"; "object"])
      as Hin0 by (apply list_elem_of_In; simpl; tauto).
    split; [eapply Hgood; [exact H0|exact Hin0|vm_compute; lia]|].
    intros key [-> |[-> | ->]]; eexists; (split; [reflexivity|]).
    - eapply Hgood; [exact H0|exact Hin0|vm_compute; lia].
    - eapply Hgood; [exact H1| |vm_compute; lia].
      apply list_elem_of_In. simpl. tauto.
    - eapply Hgood; [exact H4| |vm_compute; lia].
      apply list_elem_of_In. simpl. tauto. }
  split; [by eexists|]. split; [by eexists|]. split; [by eexists|].
  split; [by eexists|]. split; [by eexists|].
  unfold mro_of. rewrite H0, H1, H4.
  split; [apply list_elem_of_In; simpl; tauto|].
  split; [apply list_elem_of_In; simpl; tauto|].
  split; [apply list_elem_of_In; simpl; tauto|].
  assert (l0 ≠ l1) by (intros ->; congruence).
  assert (l0 ≠ l4) by (intros ->; apply Hold1, Hold2, Hold3 in Hs0; congruence).
  assert (l1 ≠ l4) by (intros ->; apply Hold2, Hold3 in Hs1; congruence).
  assert (l5 ≠ l0) by (intros ->; apply Hold1, Hold2, Hold3, Hold4 in Hs0; congruence).
  assert (l5 ≠ l1) by (intros ->; apply Hold2, Hold3, Hold4 in Hs1; congruence).
  assert (l5 ≠ l4) by (intros ->; congruence).
  repeat constructor; rewrite ?not_elem_of_cons; repeat split; auto; apply not_elem_of_nil.
Qed.

Lemma X13_witness :
  ∃ self st' scene source module_filter,
    EngineAdderNode.new example_registry empty_state = (Ok (VRef self), st') ∧
    heap empty_state !! self = None ∧
    (∀ l o, heap empty_state !! l = Some o → heap st' !! l = Some o) ∧
    wf st' ∧ closed_lists st' ∧ engine_ok st' self ∧
    holds st' self "object" VNone ∧
    holds st' self "engine" VNone ∧
    holds st' self "label" (VStr "Add a new Scene") ∧
    holds st' self "adders"
      (VDict [("scene", VRef scene); ("source", VRef source);
              ("module-filter", VRef module_filter)]) ∧
    holds st' self "adder_node" (VRef scene) ∧
    "SceneAdderNode" ∈ mro_of st' (VRef scene) ∧
    "SourceAdderNode" ∈ mro_of st' (VRef source) ∧
    "ModuleFilterAdderNode" ∈ mro_of st' (VRef module_filter) ∧
    NoDup [self; scene; source; module_filter].
Proof.
  apply (X13_new_engine_adder_node example_registry empty_state).
  - apply wf_check_sound. reflexivity.
  - intros l o name lc H. simpl in H. by rewrite lookup_empty in H.
Defined.

(** ** The engine that is left *)

(** Notifying listeners among which the node is not leaves its [object]. *)
Lemma notify_keeps fuel source trait value self x : ∀ ls st,
  wf st →
  (∀ node, (source, trait, node) ∈ ls → engine_ok st node) →
  engine_ok st self →
  (source, trait, self) ∉ ls →
  holds st self "object" x →
  holds (snd (notify (S fuel) ls source trait value st)) self "object" x.
Proof.
  induction ls as [|[[l n] node] rest IH]; intros st Hwf Hall Hself Hnot Hx; [done|].
  cbn [notify]. rewrite run_bind.
  apply not_elem_of_cons in Hnot as [Hne Hnot].
  destruct (bool_decide (l = source ∧ n = trait)) eqn:Hb.
  - apply bool_decide_eq_true_1 in Hb as [-> ->].
    assert (self ≠ node) as Hsn by congruence.
    assert (engine_ok st node) as Hnode by (apply Hall; left).
    destruct (set_engine_object_spec fuel st node value Hwf Hnode)
      as (Hr & Hmod & Hwf1 & Hok1 & _).
    unfold EngineAdderNode_change_object. rewrite (swallow_ok _ _ Hr). cbv iota.
    apply IH; [done| | |done|].
    + intros node' Hin. destruct (decide (node' = node)) as [->|Hne']; [done|].
      eapply engine_ok_other; [apply Hall; by right|done|exact Hmod].
    + eapply engine_ok_other; [exact Hself|done|exact Hmod].
    + eapply engine_ok_other; [exact Hself|done|exact Hmod|done].
  - change ((mret tt : M unit) st) with (Ok tt, st). cbv iota.
    apply IH; [done| |done|done|done]. intros node' Hin. apply Hall. by right.
Qed.

(** [_engine_changed], with what it does to the listeners and to the other
    [EngineAdderNode]s. *)
Lemma engine_changed_effect fuel st self old ln on sel :
  wf st → engine_ok st self →
  (old = VNone ∨ ∃ lo, old = VRef lo ∧ is_Some (heap st !! lo)) →
  heap st !! ln = Some on →
  read_attr st (VRef ln) "current_selection" = Some sel →
  ∃ st',
    EngineAdderNode_engine_changed (S fuel) self old (VRef ln) st = (Ok tt, st') ∧
    (∀ x, x ∈ listeners st' ↔
          (x ∈ listeners st ∧ ∀ lo, old = VRef lo → x ≠ (lo, "current_selection", self))
          ∨ x = (ln, "current_selection", self)) ∧
    wf st' ∧ engine_ok st' self ∧ holds st' self "object" sel ∧
    (∀ other, other ≠ self → engine_ok st other → engine_ok st' other) ∧
    (∀ l o, heap st !! l = Some o → is_Some (heap st' !! l)).
Proof.
  intros Hwf Hok Hold Hln Hsel.
  assert (∃ sA,
            (if negb (is_none old)
             then on_trait_change old self "current_selection" true
             else mret tt) st = (Ok tt, sA) ∧
            heap sA = heap st ∧
            ∀ x, x ∈ listeners sA ↔
                 x ∈ listeners st ∧
                 ∀ lo, old = VRef lo → x ≠ (lo, "current_selection", self))
    as (sA & HrunA & HheapA & HlsA).
  { destruct Hold as [-> | (lo & -> & [oo Hlo])].
    - exists st. split; [done|]. split; [done|]. intros x. split; [|tauto].
      intros Hx. split; [done|]. by intros lo [=].
    - destruct (on_trait_change_spec lo oo self "current_selection" true st Hlo)
        as (sA & Hrun & Hheap & Hls).
      exists sA. split; [done|]. split; [done|]. intros x. rewrite Hls. split.
      + intros [Hin Hne]. split; [done|]. by intros lo' [= <-].
      + intros [Hin Hne]. split; [done|]. by apply Hne. }
  destruct (on_trait_change_spec ln on self "current_selection" false sA)
    as (sB & HrunB & HheapB & HlsB); [by rewrite HheapA|].
  assert (heap sB = heap st) as Hheap by congruence.
  assert (read_attr sB (VRef ln) "current_selection" = Some sel) as HselB
    by (by rewrite (read_attr_heap_eq st sB)).
  assert (wf sB) as HwfB by (by eapply wf_heap_eq).
  assert (∀ node, engine_ok st node → engine_ok sB node) as HokB
    by (intros node; by apply engine_ok_heap_eq).
  destruct (set_engine_object_spec fuel sB self sel HwfB (HokB _ Hok))
    as (Hr4 & H4 & Hwf4 & Hok4 & Hholds4).
  destruct (set_object (S fuel) (VRef self) sel sB) as [r4 s4] eqn:Hrun4.
  cbn [fst snd] in *. subst r4.
  assert (listeners s4 = listeners sB) as Hls4 by apply (modifies_listeners _ _ _ H4).
  assert (∀ other, other ≠ self → engine_ok st other → engine_ok s4 other) as Hother4.
  { intros other Hne Hother. eapply engine_ok_other; [apply HokB, Hother|done|exact H4]. }
  assert (∀ l o, heap st !! l = Some o → is_Some (heap s4 !! l)) as Halloc4.
  { intros l o Hl. rewrite <- Hheap in Hl.
    destruct (modifies_old _ _ _ H4 _ _ Hl) as (o' & -> & _). eauto. }
  assert (∀ x, x ∈ listeners sB ↔
               (x ∈ listeners st ∧
                ∀ lo, old = VRef lo → x ≠ (lo, "current_selection", self))
               ∨ x = (ln, "current_selection", self)) as Hls.
  { intros x. rewrite HlsB, HlsA. tauto. }
  unfold EngineAdderNode_engine_changed.
  rewrite run_bind, HrunA. rewrite run_bind, HrunB.
  rewrite run_bind, (run_getattr_Some _ _ _ _ HselB). rewrite run_bind, Hrun4.
  rewrite run_bind, (run_getattr_Some _ _ _ _ (holds_read _ _ _ _ Hholds4)).
  destruct (is_none sel) eqn:Hnone.
  - pose proof Hok4 as (so4 & kvs & engine & node & Hself4 & Hres4 & _ & _ & Hnode4
                        & (la & oa & -> & Hla & Hcls & Hrank) & _).
    assert (read_attr s4 (VRef self) "adder_node" = Some (VRef la)) as Hread
      by (by simpl; rewrite Hself4, Hnode4).
    rewrite run_bind, (run_getattr_Some _ _ _ _ Hread).
    pose proof (set_object_result fuel la oa (VRef ln) s4 Hla) as Hr5.
    pose proof (set_object_modifies (S fuel) 1 (VRef la) (VRef ln) s4 Hwf4) as H5.
    destruct (set_object (S fuel) (VRef la) (VRef ln) s4) as [r5 s5].
    cbn [fst snd] in *. subst r5.
    assert (modifies (written 1 s4) s4 s5) as H5'.
    { apply H5; [|lia]. unfold rank_of, mro_of. by rewrite Hla. }
    assert (∀ node, engine_ok s4 node → engine_ok s5 node) as Hok5.
    { intros node Hnode. eapply engine_ok_frame; [exact Hnode|exact H5'|].
      intros name [(o' & Ho' & Hr') _].
      rewrite (engine_ok_rank _ _ _ Hnode Ho') in Hr'. lia. }
    exists s5. split; [done|]. rewrite (modifies_listeners _ _ _ H5'), Hls4.
    split; [exact Hls|]. split.
    { eapply wf_modifies; [exact Hwf4|exact H5'|]. apply written_not_lists. }
    split; [by apply Hok5|]. split.
    { destruct Hholds4 as (so4' & Hso4' & Hv). assert (so4' = so4) as -> by congruence.
      destruct (modifies_old _ _ _ H5' _ _ Hself4) as (so5 & Hself5 & _ & Hattrs5).
      exists so5. split; [done|]. rewrite Hattrs5; [done|].
      intros [(o' & Ho' & Hr') _]. assert (o' = so4) as -> by congruence.
      unfold rank in Hr'. rewrite Hres4 in Hr'. lia. }
    split; [intros other Hne Hother; by apply Hok5, Hother4|].
    intros l o Hl. destruct (Halloc4 l o Hl) as [o4 Hl4].
    destruct (modifies_old _ _ _ H5' _ _ Hl4) as (o5 & -> & _). eauto.
  - change ((mret tt : M unit) s4) with (Ok tt, s4).
    exists s4. split; [done|]. split; [intros x; rewrite Hls4; apply Hls|].
    split; [done|]. split; [done|]. split; [done|]. split; [done|done].
Qed.

(** X14: once [_engine_changed] has moved the node from an old engine to a
    new one, the node does not listen to the old engine any more, and a
    change of the old engine's [current_selection] leaves the node's
    [object] at the new engine's selection. *)
Theorem X14_old_engine_no_longer_drives fuel st self lo ln on sel value :
  wf st → engine_ok st self →
  is_Some (heap st !! lo) → lo ≠ ln →
  heap st !! ln = Some on →
  read_attr st (VRef ln) "current_selection" = Some sel →
  (∀ node, (lo, "current_selection", node) ∈ listeners st → engine_ok st node) →
  ∃ st',
    EngineAdderNode_engine_changed (S fuel) self (VRef lo) (VRef ln) st = (Ok tt, st') ∧
    ((lo, "current_selection", self) ∉ listeners st') ∧
    holds (snd (set_current_selection (S fuel) lo value st')) self "object" sel.
Proof.
  intros Hwf Hok [oo Hlo] Hne Hln Hsel Hall.
  destruct (engine_changed_effect fuel st self (VRef lo) ln on sel)
    as (st' & Hrun & Hls & Hwf' & Hok' & Hholds & Hother & Halloc); try done.
  { right. exists lo. eauto. }
  assert ((lo, "current_selection", self) ∉ listeners st') as Hnot.
  { intros Hin. apply Hls in Hin as [[_ Hin]|[=]]; [|done]. by apply (Hin lo). }
  exists st'. split; [done|]. split; [done|].
  destruct (Halloc lo oo Hlo) as [oo' Hlo'].
  unfold set_current_selection. rewrite run_bind. unfold gets at 1. cbv iota.
  pose proof (modifies_setattr st' lo "current_selection" value) as H1.
  rewrite run_bind. unfold setattr in *. rewrite Hlo' in *. simpl in H1. cbv iota.
  set (s1 := set_heap _ st') in *.
  assert (∀ node, engine_ok st' node → engine_ok s1 node) as Hkeep.
  { intros node Hnode. eapply engine_ok_frame; [exact Hnode|exact H1|].
    by intros name [_ ->]. }
  assert (holds s1 self "object" sel) as Hholds1.
  { destruct Hholds as (so & Hself & Hv).
    destruct (modifies_old _ _ _ H1 _ _ Hself) as (so1 & Hself1 & _ & Hattrs).
    exists so1. split; [done|]. rewrite Hattrs; [done|]. by intros [_ ?]. }
  destruct (val_eqb _ value); [done|].
  rewrite run_bind. unfold gets at 1. cbv iota.
  apply notify_keeps; [| | |done|done].
  - eapply wf_modifies; [exact Hwf'|exact H1|]. by intros ? ? [_ ->].
  - intros node Hnode. apply Hkeep. change (listeners s1) with (listeners st') in Hnode.
    apply Hls in Hnode as [[Hin Hx]|[=]]; [|done].
    apply Hother; [|by apply Hall]. intros ->. by apply (Hx lo).
  - by apply Hkeep.
Qed.

Lemma two_engines_example_ok : engine_ok two_engines_example 5.
Proof.
  assert (∀ la, la = 0 ∨ la = 1 ∨ la = 4 → good_adder two_engines_example (VRef la))
    as Hgood.
  { intros la Hla. exists la.
    destruct Hla as [-> |[-> | ->]]; eexists; (split; [reflexivity|]);
      (split; [vm_compute; reflexivity|]);
      (split; [|vm_compute; lia]); apply list_elem_of_In; simpl; tauto. }
  eexists _, [("scene", VRef 0); ("source", VRef 1); ("module-filter", VRef 4)],
    (VRef 8), (VRef 0).
  split; [vm_compute; reflexivity|]. split; [reflexivity|]. split; [reflexivity|].
  split; [reflexivity|]. split; [reflexivity|]. split; [apply Hgood; auto|].
  intros key [-> |[-> | ->]]; eexists; (split; [reflexivity|]); apply Hgood; auto.
Qed.

Lemma X14_witness :
  ∃ st',
    EngineAdderNode_engine_changed 3 5 (VRef 9) (VRef 8) two_engines_example
      = (Ok tt, st') ∧
    ((9, "current_selection", 5) ∉ listeners st') ∧
    holds (snd (set_current_selection 3 9 (VRef 7) st')) 5 "object" VNone.
Proof.
  apply (X14_old_engine_no_longer_drives 2 two_engines_example 5 9 8
           {| mro := ["Engine"; "HasTraits"; "object"];
              attrs := {[ "current_selection" := VNone ]};
              methods := {[ "new_scene" := Returns VNone ]} |} VNone (VRef 7)).
  - apply wf_check_sound. vm_compute. reflexivity.
  - exact two_engines_example_ok.
  - eexists. vm_compute. reflexivity.
  - lia.
  - vm_compute. reflexivity.
  - vm_compute. reflexivity.
  - intros node Hnode. vm_compute in Hnode.
    apply list_elem_of_singleton in Hnode as [= ->]. exact two_engines_example_ok.
Defined.

(** ** Selecting a scene *)



(** ** Selecting a pipeline object *)








